(** * Mesh packet processing and routing reconstruction: model and properties

    Shallow embedding of the packet handler
    ([stridetastic_api/mesh/packet/handler.py]), the packet crafter
    ([stridetastic_api/mesh/packet/crafter.py]), the publisher service
    ([stridetastic_api/services/publisher_service.py]) and the periodic
    publishing tasks ([stridetastic_api/tasks/publisher_tasks.py],
    [stridetastic_api/models/publisher_models.py]).

    Conventions.
    - Python [None] is [option]'s [None]; an attribute fetched with
      [getattr(obj, name, None)] is an [option] field.
    - Django tables are lists of rows in primary-key order; a queryset
      [.filter(...).first()] is the first matching row of the list. Foreign
      keys to [Node] are held as the node's [node_num], its unique key.
    - Points in time are integers (microseconds, the resolution of
      [datetime]); [timezone.now()] is an explicit argument.
    - Functions that can raise return [result]; a function that writes to
      the store before it raises returns the store next to the [result].
    - Logging is left out. *)

From Stdlib Require Import ZArith QArith Lia Ascii.
From stdpp Require Import base option list strings gmap.

Open Scope Z_scope.

(** ** Exceptions as values *)

Inductive result (A : Type) : Type :=
| Ok (a : A)
| Raise (exc : string).
Arguments Ok {A} a.
Arguments Raise {A} exc.

Definition rbind {A B : Type} (r : result A) (k : A -> result B) : result B :=
  match r with
  | Ok a => k a
  | Raise e => Raise e
  end.

Notation "x <-! r ; k" := (rbind r (fun x => k))
  (at level 100, r at next level, right associativity).

(** ** Domain store rows used by the handler *)

Record Node := {
  node_num : Z;
  node_id : option string;
  mac_address : option string;
  long_name : option string;
  short_name : option string;
  hw_model : option string;
  role : option string;
  public_key : option string;
  latency_reachable : option bool;
  latency_ms : option Z
}.

(** ** Route reconstruction: [build_edge_segments] (handler.py) *)

Module Segments.

(** A segment is the tuple [(source_node, target_node, snr_value, hop_count)]. *)
Definition segment : Type := Node * Node * option Q * nat.

(** The mutable locals of the loop. *)
Record loop_state := {
  segments : list segment;
  last_known_index : option nat;
  unknown_between : nat
}.

Definition initial_state : loop_state :=
  {| segments := []; last_known_index := None; unknown_between := 0 |}.

(** One iteration of [for index, node in enumerate(nodes)]. The read
    [nodes[source_index]] is of a position the loop has already visited, so
    it is in range; the [source_node is not None] test of the source is the
    match on its value. *)
Definition loop_body (nodes : list (option Node)) (snr_values : list Q)
    (total_nodes : nat) (index : nat) (node : option Node)
    (st : loop_state) : loop_state :=
  match node with
  | None =>
      if bool_decide (is_Some (last_known_index st))
         && bool_decide (index < total_nodes - 1)%nat
      then {| segments := segments st;
              last_known_index := last_known_index st;
              unknown_between := S (unknown_between st) |}
      else st
  | Some target_node =>
      match last_known_index st with
      | None =>
          {| segments := segments st;
             last_known_index := Some index;
             unknown_between := 0 |}
      | Some source_index =>
          let hop_count := unknown_between st in
          if bool_decide (hop_count = 0%nat)
             && bool_decide (length snr_values <= source_index)%nat
          then {| segments := segments st;
                  last_known_index := Some index;
                  unknown_between := 0 |}
          else
            let snr_value :=
              if bool_decide (hop_count = 0%nat)
                 && bool_decide (source_index < length snr_values)%nat
              then snr_values !! source_index
              else None in
            let segments' :=
              match nodes !! source_index with
              | Some (Some source_node) =>
                  segments st ++ [(source_node, target_node, snr_value, hop_count)]
              | _ => segments st
              end in
            {| segments := segments';
               last_known_index := Some index;
               unknown_between := 0 |}
      end
  end.

(** The loop over the remaining elements [rest], which start at [index]. *)
Fixpoint loop (nodes : list (option Node)) (snr_values : list Q)
    (total_nodes : nat) (index : nat) (rest : list (option Node))
    (st : loop_state) : loop_state :=
  match rest with
  | [] => st
  | node :: rest' =>
      loop nodes snr_values total_nodes (S index) rest'
           (loop_body nodes snr_values total_nodes index node st)
  end.

Definition build_edge_segments (nodes : list (option Node))
    (snr_values : list Q) : list segment :=
  segments (loop nodes snr_values (length nodes) 0 nodes initial_state).

(** *** What the builder emits, stated on positions of the input

    The known positions of the hop sequence, each consecutive pair of them
    [(j, i)], and the number of placeholders strictly between [j] and [i]. *)

Fixpoint known_from (index : nat) (nodes : list (option Node)) : list (nat * Node) :=
  match nodes with
  | [] => []
  | None :: rest => known_from (S index) rest
  | Some n :: rest => (index, n) :: known_from (S index) rest
  end.

Definition known_positions (nodes : list (option Node)) : list (nat * Node) :=
  known_from 0 nodes.

Fixpoint consecutive {A : Type} (l : list A) : list (A * A) :=
  match l with
  | a :: (b :: _) as tl => (a, b) :: consecutive tl
  | _ => []
  end.

Definition is_placeholder (o : option Node) : bool :=
  match o with None => true | Some _ => false end.

Definition placeholders_between (nodes : list (option Node)) (j i : nat) : nat :=
  length (filter (fun o => is_placeholder o = true)
                 (take (i - j - 1) (drop (S j) nodes))).

(** The segment emitted for the consecutive known positions [j] and [i]:
    none when the two nodes are adjacent and the SNR list has no value at
    [j]. *)
Definition emitted_for (nodes : list (option Node)) (snr_values : list Q)
    (p : (nat * Node) * (nat * Node)) : list segment :=
  let '((j, source_node), (i, target_node)) := p in
  let hop_count := placeholders_between nodes j i in
  if bool_decide (hop_count = 0%nat) then
    match snr_values !! j with
    | Some v => [(source_node, target_node, Some v, 0%nat)]
    | None => []
    end
  else [(source_node, target_node, None, hop_count)].

Definition emitted_segments (nodes : list (option Node))
    (snr_values : list Q) : list segment :=
  concat (map (emitted_for nodes snr_values) (consecutive (known_positions nodes))).

(** A position carried over from the part of the sequence already walked. *)
Definition with_prev (prev : option (nat * Node)) (l : list (nat * Node)) :=
  match prev with Some p => p :: l | None => l end.

(** The state of the loop when it reaches [index], against the positions
    already walked: [prev] is the last known position before [index], and
    the counter holds the number of placeholders since, as long as elements
    remain ([more]). *)
Definition state_agrees (nodes : list (option Node)) (index : nat)
    (more : bool) (prev : option (nat * Node)) (st : loop_state) : Prop :=
  last_known_index st = fst <$> prev /\
  match prev with
  | None => True
  | Some (j, s) =>
      (j < index)%nat /\ nodes !! j = Some (Some s) /\
      (forall k, (j < k < index)%nat -> nodes !! k = Some None) /\
      (more = true -> unknown_between st = (index - j - 1)%nat)
  end.

End Segments.

(** ** Protocol messages (meshtastic protobuf), as far as the code reads
    and writes them *)

Abbreviation bytes := (list Byte.byte).

(** [mesh_pb2.Data]: the port-tagged inner payload. *)
Record Data := {
  portnum : Z;
  payload : bytes;
  want_response : bool;
  request_id : Z;
  reply_id : Z;
  bitfield : Z
}.

(** The [payload_variant] oneof of [mesh_pb2.MeshPacket]. *)
Inductive payload_variant :=
| NoPayload
| Decoded (d : Data)
| Encrypted (ciphertext : bytes).

(** [mesh_pb2.MeshPacket]: the envelope, as the crafter fills it in. *)
Record MeshPacket := {
  mp_id : Z;
  mp_from : Z;
  mp_to : Z;
  mp_channel : Z;
  mp_hop_limit : Z;
  mp_hop_start : Z;
  mp_want_ack : bool;
  mp_pki_encrypted : bool;
  mp_public_key : bytes;
  mp_rx_rssi : Z;
  mp_rx_snr : Q;
  mp_rx_time : Z;
  mp_payload : payload_variant
}.

(** [mesh_pb2.User]: the node-info payload. *)
Record User := {
  user_id : string;
  user_long_name : string;
  user_short_name : string;
  user_hw_model : Z;
  user_role : Z;
  user_public_key : bytes
}.

(** Port numbers of [portnums_pb2] that the code names. *)
Definition TEXT_MESSAGE_APP : Z := 1.
Definition POSITION_APP : Z := 3.
Definition NODEINFO_APP : Z := 4.
Definition ROUTING_APP : Z := 5.
Definition TELEMETRY_APP : Z := 67.
Definition TRACEROUTE_APP : Z := 70.

(** ** Collaborators that are not part of the modelled sources

    [mesh/utils.py], [mesh/encryption/aes.py], [mesh/encryption/pkc.py],
    the protobuf runtime, [base64] and the Django settings are consumed
    through this interface; every property below holds for all of its
    implementations. *)
Class External := {
  (* mesh/utils.py *)
  id_to_num : string -> result Z;
  num_to_id : Z -> string;
  num_to_mac : Z -> string;
  hw_num_to_model : Z -> option string;
  role_num_ro_role : Z -> option string;
  generate_hash : string -> string -> result Z;
  (* mesh/encryption *)
  encrypt_message : string -> string -> MeshPacket -> Data -> Z -> result bytes;
  decrypt_packet : MeshPacket -> string -> option Data;
  pki_decrypt_packet : MeshPacket -> Z -> option bytes;
  load_public_key_bytes : string -> result bytes;
  (* protobuf runtime, base64, str.upper *)
  parse_user : bytes -> result User;
  parse_data : bytes -> result Data;
  serialize_service_envelope : MeshPacket -> string -> option string -> result bytes;
  b64encode : bytes -> string;
  str_upper : string -> string;
  str_lower : string -> string;
  parse_int : string -> result Z;
  (* Decimal(str(value)).quantize(...) of [_decimal_from]; None on failure *)
  quantize : Q -> nat -> option Q;
  (* int(delta.total_seconds() * 1000) of a timedelta given in microseconds:
     a floating-point product, truncated *)
  timedelta_ms : Z -> Z;
  (* settings.MQTT_BASE_TOPIC, and the column default of Channel.psk *)
  MQTT_BASE_TOPIC : string;
  channel_default_psk : option string
}.

(** Python truthiness of a string, as in [x if x else None]. *)
Definition nonempty (s : string) : option string :=
  if bool_decide (s = "") then None else Some s.

(** A protobuf [uint32]/[fixed32] field refuses values out of range. *)
Definition uint32 (v : Z) : result Z :=
  if bool_decide (0 <= v < 2 ^ 32) then Ok v
  else Raise "ValueError: Value out of range".

(** ** Tables of the domain store *)

Record Packet := {
  pkt_pk : nat;
  packet_id : option Z;
  from_node : Z;                (* foreign key, by [node_num] *)
  to_node : Z;                  (* foreign key, by [node_num] *)
  pkt_time : option Z;
  pkt_rx_rssi : option Z;
  pkt_rx_snr : option Q;
  pkt_hop_limit : option Z;
  pkt_hop_start : option Z;
  pkt_want_ack : option bool;
  ackd : option bool;
  pkt_pki_encrypted : bool;
  raw_data : option string
}.

Record PacketData := {
  pd_packet : nat;              (* one-to-one with [Packet], by [pkt_pk] *)
  pd_portnum : option Z;
  pd_request_id : option Z;
  pd_reply_id : option Z;
  pd_want_response : option bool;
  got_response : option bool
}.

Record NodeInfoPayload := {
  nip_packet_data : nat;
  nip_long_name : option string;
  nip_short_name : option string;
  nip_role : option string;
  nip_hw_model : option string;
  nip_public_key : option string
}.

Record Edge := {
  source_node : Z;
  target_node : Z;
  last_packet : option nat;
  last_rx_rssi : option Z;
  last_rx_snr : option Q;
  last_hops : option Z
}.

Record NodeLatencyHistory := {
  h_pk : nat;
  h_node : Z;
  probe_message_id : option Z;
  reachable : bool;
  h_latency_ms : option Z;
  responded_at : option Z;
  h_time : Z
}.

Record Channel := {
  channel_id : string;
  channel_num : option Z;
  psk : option string
}.

Record Store := {
  nodes : list Node;
  packets : list Packet;
  packet_data : list PacketData;
  nodeinfo_payloads : list NodeInfoPayload;
  edges : list Edge;
  latency_history : list NodeLatencyHistory;
  channels : list Channel
}.

Definition set_nodes (v : list Node) (s : Store) : Store :=
  {| nodes := v; packets := packets s; packet_data := packet_data s;
     nodeinfo_payloads := nodeinfo_payloads s; edges := edges s;
     latency_history := latency_history s; channels := channels s |}.
Definition set_packets (v : list Packet) (s : Store) : Store :=
  {| nodes := nodes s; packets := v; packet_data := packet_data s;
     nodeinfo_payloads := nodeinfo_payloads s; edges := edges s;
     latency_history := latency_history s; channels := channels s |}.
Definition set_packet_data (v : list PacketData) (s : Store) : Store :=
  {| nodes := nodes s; packets := packets s; packet_data := v;
     nodeinfo_payloads := nodeinfo_payloads s; edges := edges s;
     latency_history := latency_history s; channels := channels s |}.
Definition set_nodeinfo_payloads (v : list NodeInfoPayload) (s : Store) : Store :=
  {| nodes := nodes s; packets := packets s; packet_data := packet_data s;
     nodeinfo_payloads := v; edges := edges s;
     latency_history := latency_history s; channels := channels s |}.
Definition set_edges (v : list Edge) (s : Store) : Store :=
  {| nodes := nodes s; packets := packets s; packet_data := packet_data s;
     nodeinfo_payloads := nodeinfo_payloads s; edges := v;
     latency_history := latency_history s; channels := channels s |}.
Definition set_latency_history (v : list NodeLatencyHistory) (s : Store) : Store :=
  {| nodes := nodes s; packets := packets s; packet_data := packet_data s;
     nodeinfo_payloads := nodeinfo_payloads s; edges := edges s;
     latency_history := v; channels := channels s |}.
Definition set_channels (v : list Channel) (s : Store) : Store :=
  {| nodes := nodes s; packets := packets s; packet_data := packet_data s;
     nodeinfo_payloads := nodeinfo_payloads s; edges := edges s;
     latency_history := latency_history s; channels := v |}.

(** [qs.filter(p).first()] and an update of the rows that satisfy [p]. *)
Definition first_where {A : Type} (p : A -> bool) (rows : list A) : option A :=
  List.find p rows.

Definition update_where {A : Type} (p : A -> bool) (f : A -> A)
    (rows : list A) : list A :=
  map (fun row => if p row then f row else row) rows.

(** A fresh primary key for a table whose rows carry one. *)
Definition next_pk {A : Type} (pk : A -> nat) (rows : list A) : nat :=
  S (foldr Nat.max 0%nat (map pk rows)).

Definition eqb_opt_Z (a : option Z) (b : Z) : bool :=
  match a with Some x => bool_decide (x = b) | None => false end.

(** ** Packet handler (handler.py) *)

Section Handler.
Context `{!External}.

Definition BROADCAST_NODE_ID : string := "!ffffffff".
Definition BROADCAST_NODE_NUM : Z := 4294967295.

Definition has_node_num (n : Z) (row : Node) : bool :=
  bool_decide (node_num row = n).

(** [_get_or_update_node]: fetch by [node_num] or create; patch only the
    identity fields that were supplied and differ. *)
Definition _get_or_update_node (n : Z) (nid : option string)
    (mac : option string) (s : Store) : Store * Node :=
  let normalized_mac := (mac ≫= nonempty) ≫= (fun m => Some (str_upper m)) in
  match first_where (has_node_num n) (nodes s) with
  | None =>
      let node :=
        {| node_num := n; node_id := nid; mac_address := normalized_mac;
           long_name := None; short_name := None; hw_model := None;
           role := None; public_key := None;
           latency_reachable := None; latency_ms := None |} in
      (set_nodes (nodes s ++ [node]) s, node)
  | Some node =>
      let node1 :=
        match nid with
        | Some i =>
            if bool_decide (node_id node = Some i) then node
            else {| node_num := node_num node; node_id := Some i;
                    mac_address := mac_address node;
                    long_name := long_name node; short_name := short_name node;
                    hw_model := hw_model node; role := role node;
                    public_key := public_key node;
                    latency_reachable := latency_reachable node;
                    latency_ms := latency_ms node |}
        | None => node
        end in
      let node2 :=
        match normalized_mac with
        | Some m =>
            if bool_decide (mac_address node1 = Some m) then node1
            else {| node_num := node_num node1; node_id := node_id node1;
                    mac_address := Some m;
                    long_name := long_name node1; short_name := short_name node1;
                    hw_model := hw_model node1; role := role node1;
                    public_key := public_key node1;
                    latency_reachable := latency_reachable node1;
                    latency_ms := latency_ms node1 |}
        | None => node1
        end in
      (set_nodes (update_where (has_node_num n) (fun _ => node2) (nodes s)) s, node2)
  end.

(** *** Latency history and probe correlation *)

Definition is_pending (h : NodeLatencyHistory) : bool :=
  negb (reachable h)
  && bool_decide (h_latency_ms h = None)
  && bool_decide (responded_at h = None).

(** [qs.order_by("time").first()]: the earliest row, the first of them in
    table order. *)
Fixpoint earliest (rows : list NodeLatencyHistory) : option NodeLatencyHistory :=
  match rows with
  | [] => None
  | h :: rest =>
      match earliest rest with
      | Some h' => if bool_decide (h_time h' < h_time h) then Some h' else Some h
      | None => Some h
      end
  end.

Definition resolve_history (h : NodeLatencyHistory) (pmid : option Z)
    (lat : option Z) (resp : option Z) : NodeLatencyHistory :=
  {| h_pk := h_pk h; h_node := h_node h;
     probe_message_id :=
       match probe_message_id h, pmid with
       | None, Some m => Some m
       | cur, _ => cur
       end;
     reachable := true; h_latency_ms := lat; responded_at := resp;
     h_time := h_time h |}.

(** [_update_latency_history]: update the pending row of this probe, else
    the oldest pending row of the node, else append a resolved row. *)
Definition _update_latency_history (node : Z) (pmid : option Z)
    (lat : option Z) (resp : option Z) (request_time : option Z)
    (now : Z) (s : Store) : Store :=
  let history_qs := List.filter (fun h => bool_decide (h_node h = node)) (latency_history s) in
  let by_probe :=
    match pmid with
    | Some m => first_where (fun h => eqb_opt_Z (probe_message_id h) m) history_qs
    | None => None
    end in
  let pending_entry :=
    match by_probe with
    | Some h => Some h
    | None => earliest (List.filter is_pending history_qs)
    end in
  match pending_entry with
  | Some h =>
      set_latency_history
        (update_where (fun r => bool_decide (h_pk r = h_pk h))
                      (fun r => resolve_history r pmid lat resp)
                      (latency_history s)) s
  | None =>
      set_latency_history
        (latency_history s ++
         [{| h_pk := next_pk h_pk (latency_history s); h_node := node;
             probe_message_id := pmid; reachable := true;
             h_latency_ms := lat; responded_at := resp;
             h_time := default now request_time |}]) s
  end.

(** [latency_ms = max(0, int(latency_delta.total_seconds() * 1000))] when
    both times are known, with [latency_delta = response_time - request_time]. *)
Definition latency_of (request_time response_time : option Z) : option Z :=
  match request_time, response_time with
  | Some t0, Some t1 => Some (Z.max 0 (timedelta_ms (t1 - t0)))
  | _, _ => None
  end.

Definition with_got_response (d : PacketData) : PacketData :=
  {| pd_packet := pd_packet d; pd_portnum := pd_portnum d;
     pd_request_id := pd_request_id d; pd_reply_id := pd_reply_id d;
     pd_want_response := pd_want_response d; got_response := Some true |}.

Definition mark_got_response (pk : nat) (s : Store) : Store :=
  set_packet_data
    (update_where (fun d => bool_decide (pd_packet d = pk)) with_got_response
                  (packet_data s)) s.

Definition with_ackd (v : option bool) (p : Packet) : Packet :=
  {| pkt_pk := pkt_pk p; packet_id := packet_id p; from_node := from_node p;
     to_node := to_node p; pkt_time := pkt_time p; pkt_rx_rssi := pkt_rx_rssi p;
     pkt_rx_snr := pkt_rx_snr p; pkt_hop_limit := pkt_hop_limit p;
     pkt_hop_start := pkt_hop_start p; pkt_want_ack := pkt_want_ack p;
     ackd := v; pkt_pki_encrypted := pkt_pki_encrypted p;
     raw_data := raw_data p |}.

Definition mark_ackd (pk : nat) (s : Store) : Store :=
  set_packets
    (update_where (fun p => bool_decide (pkt_pk p = pk)) (with_ackd (Some true))
                  (packets s)) s.

Definition with_latency (r : option bool) (ms : option Z) (n : Node) : Node :=
  {| node_num := node_num n; node_id := node_id n; mac_address := mac_address n;
     long_name := long_name n; short_name := short_name n;
     hw_model := hw_model n; role := role n; public_key := public_key n;
     latency_reachable := r; latency_ms := ms |}.

Definition update_node_latency (n : Z) (r : option bool) (ms : option Z)
    (s : Store) : Store :=
  set_nodes (update_where (has_node_num n) (with_latency r ms) (nodes s)) s.

(** The request that a reply answers:
    [Packet.objects.filter(packet_id=request_id, to_node=sender).first()]. *)
Definition find_request (rid : Z) (sender : Z) (s : Store) : option Packet :=
  first_where (fun p => eqb_opt_Z (packet_id p) rid && bool_decide (to_node p = sender))
              (packets s).

Definition packet_of (d : PacketData) (s : Store) : option Packet :=
  first_where (fun p => bool_decide (pkt_pk p = pd_packet d)) (packets s).

(** [_process_probe_response]; the whole body sits in a [try] whose handler
    only logs, so the function never raises. *)
Definition _process_probe_response (d : PacketData) (now : Z) (s : Store) : Store :=
  match pd_request_id d with
  | None => s
  | Some rid =>
      match packet_of d s with
      | None => s
      | Some incoming =>
          match find_request rid (from_node incoming) s with
          | None => s
          | Some ackd_packet =>
              let s1 := mark_got_response (pkt_pk ackd_packet) s in
              let s2 := mark_ackd (pkt_pk ackd_packet) s1 in
              let target_node := to_node ackd_packet in
              let request_time := pkt_time ackd_packet in
              let response_time := pkt_time incoming in
              let lat := latency_of request_time response_time in
              let resp := Some (default now response_time) in
              let s3 := update_node_latency target_node (Some true) lat s2 in
              _update_latency_history target_node (packet_id ackd_packet)
                lat resp request_time now s3
          end
      end
  end.

(** *** Node-info payloads *)

Definition upsert_nodeinfo_payload (row : NodeInfoPayload) (s : Store) : Store :=
  let same := fun r => bool_decide (nip_packet_data r = nip_packet_data row) in
  match first_where same (nodeinfo_payloads s) with
  | Some _ =>
      set_nodeinfo_payloads (update_where same (fun _ => row) (nodeinfo_payloads s)) s
  | None => set_nodeinfo_payloads (nodeinfo_payloads s ++ [row]) s
  end.

(** [handle_nodeinfo]. The node is looked up by the number decoded from
    [user.id]; when it exists its name, model, role, MAC and key columns are
    overwritten from the payload. *)
Definition handle_nodeinfo (payload : bytes) (d : PacketData) (s : Store)
    : Store * result unit :=
  match parse_user payload with
  | Raise e => (s, Raise e)
  | Ok user =>
      let hw := hw_num_to_model (user_hw_model user) in
      let role' := default "CLIENT" (role_num_ro_role (user_role user) ≫= nonempty) in
      match id_to_num (user_id user) with
      | Raise e => (s, Raise e)
      | Ok num =>
          let macaddr := str_upper (num_to_mac num) in
          let pubkey :=
            if bool_decide (user_public_key user = []) then None
            else Some (b64encode (user_public_key user)) in
          let s1 :=
            upsert_nodeinfo_payload
              {| nip_packet_data := pd_packet d;
                 nip_long_name := nonempty (user_long_name user);
                 nip_short_name := nonempty (user_short_name user);
                 nip_role := Some role';
                 nip_hw_model := hw ≫= nonempty;
                 nip_public_key := pubkey ≫= nonempty |} s in
          match first_where (has_node_num num) (nodes s1) with
          | None => (s1, Ok ())
          | Some node =>
              let node' :=
                {| node_num := node_num node; node_id := node_id node;
                   mac_address :=
                     match nonempty macaddr with
                     | Some m => Some m
                     | None => mac_address node
                     end;
                   long_name := nonempty (user_long_name user);
                   short_name := nonempty (user_short_name user);
                   hw_model := hw ≫= nonempty;
                   role := Some role';
                   public_key := pubkey ≫= nonempty;
                   latency_reachable := latency_reachable node;
                   latency_ms := latency_ms node |} in
              let s2 :=
                set_nodes (update_where (has_node_num num) (fun _ => node') (nodes s1)) s1 in
              match pd_request_id d with
              | None => (s2, Ok ())
              | Some rid =>
                  match packet_of d s2 with
                  | None => (s2, Raise "DoesNotExist")
                  | Some incoming =>
                      match find_request rid (from_node incoming) s2 with
                      | None => (s2, Ok ())
                      | Some responded =>
                          match first_where
                                  (fun r => bool_decide (pd_packet r = pkt_pk responded))
                                  (packet_data s2) with
                          | None => (s2, Raise "RelatedObjectDoesNotExist")
                          | Some _ => (mark_got_response (pkt_pk responded) s2, Ok ())
                          end
                      end
                  end
              end
          end
      end
  end.

(** *** Dispatch of a decoded payload *)

(** The handlers of the other ports (neighbour info, position, range test,
    telemetry, traceroute, routing, text, fallback) are not modelled one by
    one: their effect on the store is this argument. *)
Variable handle_port : Z -> bytes -> PacketData -> Z -> Store -> Store * result unit.

Definition upsert_packet_data (row : PacketData) (s : Store) : Store :=
  let same := fun r => bool_decide (pd_packet r = pd_packet row) in
  match first_where same (packet_data s) with
  | Some _ => set_packet_data (update_where same (fun _ => row) (packet_data s)) s
  | None => set_packet_data (packet_data s ++ [row]) s
  end.

Definition handle_decoded_packet (decoded_data : Data) (packet_obj : Packet)
    (now : Z) (s : Store) : Store * result Z :=
  let data_obj :=
    {| pd_packet := pkt_pk packet_obj;
       pd_portnum := Some (portnum decoded_data);
       pd_request_id := Some (request_id decoded_data);
       pd_reply_id := Some (reply_id decoded_data);
       pd_want_response := Some (want_response decoded_data);
       got_response := if want_response decoded_data then Some false else None |} in
  let s1 := upsert_packet_data data_obj s in
  let '(s2, r) :=
    if bool_decide (portnum decoded_data = NODEINFO_APP)
    then handle_nodeinfo (payload decoded_data) data_obj s1
    else handle_port (portnum decoded_data) (payload decoded_data) data_obj now s1 in
  match r with
  | Raise e => (s2, Raise e)
  | Ok _ =>
      let s3 := _process_probe_response data_obj now s2 in
      (mark_got_response (pkt_pk packet_obj) s3, Ok (portnum decoded_data))
  end.

(** *** Decryption branch of [handle_packet] *)

Inductive decrypt_path :=
| PathDecoded
| PathSymmetric (key : string) (decrypted : bool)
| PathNoKey
| PathPKI (decrypted : bool)
| PathNoPayload.

Definition with_raw (pki : bool) (raw : option string) (p : Packet) : Packet :=
  {| pkt_pk := pkt_pk p; packet_id := packet_id p; from_node := from_node p;
     to_node := to_node p; pkt_time := pkt_time p; pkt_rx_rssi := pkt_rx_rssi p;
     pkt_rx_snr := pkt_rx_snr p; pkt_hop_limit := pkt_hop_limit p;
     pkt_hop_start := pkt_hop_start p; pkt_want_ack := pkt_want_ack p;
     ackd := ackd p; pkt_pki_encrypted := pki; raw_data := raw |}.

(** [obj.save()]: the row with the object's key takes the object's fields. *)
Definition save_packet (obj : Packet) (s : Store) : Store :=
  set_packets (update_where (fun p => bool_decide (pkt_pk p = pkt_pk obj))
                            (fun _ => obj) (packets s)) s.

(** The tail of [handle_packet]: store the raw ciphertext, save, and return
    the locals; [decoded_data] and [portnum] are unbound when no payload was
    dispatched. *)
Definition finish_packet (packet : MeshPacket) (packet_obj : Packet)
    (pki : bool) (path : decrypt_path) (port : option Z) (s : Store)
    : Store * (decrypt_path * result Z) :=
  let raw :=
    match mp_payload packet with
    | Encrypted c => Some (b64encode c)
    | _ => None
    end in
  (save_packet (with_raw pki raw packet_obj) s,
   (path,
    match port with
    | Some n => Ok n
    | None => Raise "UnboundLocalError"
    end)).

Definition handle_packet (packet : MeshPacket) (packet_obj : Packet)
    (key : option string) (pki_encrypted : bool) (now : Z) (s : Store)
    : Store * (decrypt_path * result Z) :=
  let dispatch path pki data :=
    match handle_decoded_packet data packet_obj now s with
    | (s1, Ok n) => finish_packet packet packet_obj pki path (Some n) s1
    | (s1, Raise e) => (s1, (path, Raise e))
    end in
  match mp_payload packet with
  | Decoded d => dispatch PathDecoded (pkt_pki_encrypted packet_obj) d
  | Encrypted _ =>
      if negb pki_encrypted then
        match key with
        | Some k =>
            match decrypt_packet packet k with
            | Some data =>
                dispatch (PathSymmetric k true) (pkt_pki_encrypted packet_obj) data
            | None =>
                finish_packet packet packet_obj (pkt_pki_encrypted packet_obj)
                              (PathSymmetric k false) None s
            end
        | None =>
            finish_packet packet packet_obj (pkt_pki_encrypted packet_obj)
                          PathNoKey None s
        end
      else
        match pki_decrypt_packet packet (to_node packet_obj) with
        | Some plaintext =>
            match parse_data plaintext with
            | Ok data => dispatch (PathPKI true) true data
            | Raise e => (s, (PathPKI false, Raise e))
            end
        | None => finish_packet packet packet_obj true (PathPKI false) None s
        end
  | NoPayload =>
      finish_packet packet packet_obj (pkt_pki_encrypted packet_obj)
                    PathNoPayload None s
  end.

(** *** [on_message]: one inbound envelope *)

Record Interface := {
  iface_name : string;
  serial_node : option Node
}.

Record Normalized := {
  gateway_node_id : option string;
  n_channel_id : string;
  n_packet : MeshPacket
}.

(** [hops = 0 if hop_limit is None else (hop_start - hop_limit) if hop_start
    is not None else 0], on the two [getattr(packet, ..., None)] values. *)
Definition compute_hops (hop_limit hop_start : option Z) : Z :=
  match hop_limit with
  | None => 0
  | Some hl =>
      match hop_start with
      | Some hs => hs - hl
      | None => 0
      end
  end.

Definition same_channel (cid : string) (cnum : option Z) (c : Channel) : bool :=
  bool_decide (channel_id c = cid) && bool_decide (channel_num c = cnum).

(** [Channel.objects.get_or_create(channel_id=..., channel_num=...)]. *)
Definition get_or_create_channel (cid : string) (cnum : option Z) (s : Store)
    : Store * Channel :=
  match first_where (same_channel cid cnum) (channels s) with
  | Some c => (s, c)
  | None =>
      let c := {| channel_id := cid; channel_num := cnum;
                  psk := channel_default_psk |} in
      (set_channels (channels s ++ [c]) s, c)
  end.

Definition same_packet (pid : option Z) (f t : Z) (p : Packet) : bool :=
  bool_decide (packet_id p = pid) && bool_decide (from_node p = f)
  && bool_decide (to_node p = t).

(** [Packet.objects.get_or_create(packet_id=..., from_node=..., to_node=...)];
    a new row is stamped with the current time. *)
Definition get_or_create_packet (pid : option Z) (f t : Z) (now : Z) (s : Store)
    : Store * Packet :=
  match first_where (same_packet pid f t) (packets s) with
  | Some p => (s, p)
  | None =>
      let p := {| pkt_pk := next_pk pkt_pk (packets s); packet_id := pid;
                  from_node := f; to_node := t; pkt_time := Some now;
                  pkt_rx_rssi := None; pkt_rx_snr := None;
                  pkt_hop_limit := None; pkt_hop_start := None;
                  pkt_want_ack := None; ackd := None;
                  pkt_pki_encrypted := false; raw_data := None |} in
      (set_packets (packets s ++ [p]) s, p)
  end.

Definition same_edge (src tgt : Z) (e : Edge) : bool :=
  bool_decide (source_node e = src) && bool_decide (target_node e = tgt).

(** [Edge.objects.get_or_create(source_node=..., target_node=...)] followed by
    the assignment of the four [last_*] columns and [save()]. *)
Definition upsert_edge (src tgt : Z) (pkt : option nat) (rssi : option Z)
    (snr : option Q) (hops : option Z) (s : Store) : Store :=
  let row := {| source_node := src; target_node := tgt; last_packet := pkt;
                last_rx_rssi := rssi; last_rx_snr := snr; last_hops := hops |} in
  match first_where (same_edge src tgt) (edges s) with
  | Some _ => set_edges (update_where (same_edge src tgt) (fun _ => row) (edges s)) s
  | None => set_edges (edges s ++ [row]) s
  end.

Definition find_edge (src tgt : Z) (s : Store) : option Edge :=
  first_where (same_edge src tgt) (edges s).

(** The key handed to [handle_packet]: [channel.psk if channel.psk else "AQ=="]. *)
Definition channel_key (c : Channel) : option string :=
  Some (default "AQ==" (psk c ≫= nonempty)).

Inductive on_message_outcome :=
| GatewayIdError (e : string)
| Handled (path : decrypt_path) (r : result Z).

(** The gateway id that [on_message] works with: a SERIAL interface that
    is bound to a node overrides the id of the normalized message. *)
Definition effective_gateway_id (interface : Interface)
    (normalized : Normalized) : option string :=
  if bool_decide (iface_name interface = "SERIAL") then
    match serial_node interface with
    | Some sn => node_id sn
    | None => gateway_node_id normalized
    end
  else gateway_node_id normalized.

(** [on_message] up to the call of [handle_packet]: the upserts of the
    nodes, the channel, the packet row and the direct edge. The result is
    the store, the in-memory packet object, the channel and the PKI flag.
    [last_seen] stamps, interface and channel membership and the
    [NodeLink] activity record are left out. *)
Definition on_message_upserts (interface : Interface) (normalized : Normalized)
    (now : Z) (s : Store) : result (Store * Packet * Channel * bool) :=
  let packet := n_packet normalized in
  let gateway_node_id := effective_gateway_id interface normalized in
  gateway_node_num <-! match gateway_node_id ≫= nonempty with
                       | Some g => id_to_num g
                       | None => Ok 0
                       end;
  let gateway_node_mac := str_upper (num_to_mac gateway_node_num) in
  let from_node_num := mp_from packet in
  let to_node_num := mp_to packet in
  let rx_rssi := Some (mp_rx_rssi packet) in
  let rx_snr := quantize (mp_rx_snr packet) 2 in
  let hop_limit := Some (mp_hop_limit packet) in
  let hop_start := Some (mp_hop_start packet) in
  let hops := compute_hops hop_limit hop_start in
  let pki_encrypted :=
    mp_pki_encrypted packet || bool_decide (n_channel_id normalized = "PKI") in
  let want_ack := Some (mp_want_ack packet) in
  let ackd' := if mp_want_ack packet then Some false else None in
  let '(s1, from_node') :=
    _get_or_update_node from_node_num (Some (num_to_id from_node_num))
      (Some (str_upper (num_to_mac from_node_num))) s in
  let '(s2, gateway_node) :=
    match gateway_node_id with
    | Some g =>
        let '(s', n) :=
          _get_or_update_node gateway_node_num (Some g) (Some gateway_node_mac) s1 in
        (s', Some n)
    | None => (s1, None)
    end in
  let '(s3, to_node') :=
    _get_or_update_node to_node_num (Some (num_to_id to_node_num))
      (Some (str_upper (num_to_mac to_node_num))) s2 in
  let '(s4, channel) :=
    get_or_create_channel (n_channel_id normalized) (Some (mp_channel packet)) s3 in
  let '(s5, found) :=
    get_or_create_packet (Some (mp_id packet)) (node_num from_node')
      (node_num to_node') now s4 in
  let packet_obj :=
    {| pkt_pk := pkt_pk found; packet_id := packet_id found;
       from_node := from_node found; to_node := to_node found;
       pkt_time := pkt_time found; pkt_rx_rssi := rx_rssi;
       pkt_rx_snr := rx_snr; pkt_hop_limit := hop_limit;
       pkt_hop_start := hop_start; pkt_want_ack := want_ack;
       ackd := ackd'; pkt_pki_encrypted := pki_encrypted;
       raw_data := raw_data found |} in
  let s6 := save_packet packet_obj s5 in
  let s7 :=
    match gateway_node with
    | Some target_for_edge =>
        upsert_edge (node_num from_node') (node_num target_for_edge)
          (Some (pkt_pk packet_obj)) rx_rssi rx_snr (Some hops) s6
    | None => s6
    end in
  Ok (s7, packet_obj, channel, pki_encrypted).

(** The store that the upserts of [on_message] leave behind. *)
Definition record_envelope_store (interface : Interface) (normalized : Normalized)
    (now : Z) (s : Store) : Store :=
  match on_message_upserts interface normalized now s with
  | Ok (s7, _, _, _) => s7
  | Raise _ => s
  end.

(** [on_message]: the upserts, then [handle_packet] with the channel's key.
    The hand-over to the publisher service that follows is left out. *)
Definition on_message (interface : Interface) (normalized : Normalized)
    (now : Z) (s : Store) : Store * on_message_outcome :=
  match on_message_upserts interface normalized now s with
  | Raise e => (s, GatewayIdError e)
  | Ok (s7, packet_obj, channel, pki_encrypted) =>
      let '(s8, (path, r)) :=
        handle_packet (n_packet normalized) packet_obj (channel_key channel)
                      pki_encrypted now s7 in
      (s8, Handled path r)
  end.

End Handler.

(** ** Packet crafter (crafter.py) *)

Section Crafter.
Context `{!External}.

Definition with_payload (v : payload_variant) (m : MeshPacket) : MeshPacket :=
  {| mp_id := mp_id m; mp_from := mp_from m; mp_to := mp_to m;
     mp_channel := mp_channel m; mp_hop_limit := mp_hop_limit m;
     mp_hop_start := mp_hop_start m; mp_want_ack := mp_want_ack m;
     mp_pki_encrypted := mp_pki_encrypted m; mp_public_key := mp_public_key m;
     mp_rx_rssi := mp_rx_rssi m; mp_rx_snr := mp_rx_snr m;
     mp_rx_time := mp_rx_time m; mp_payload := v |}.

(** [craft_mesh_packet]. The assignments to the numeric fields of the
    protobuf message are range-checked by the protobuf runtime. *)
Definition craft_mesh_packet (from_id to_id : string)
    (channel_name channel_aes_key : string) (global_message_id : Z)
    (data_protobuf : Data) (hop_limit hop_start : Z)
    (want_ack pki_encrypted : bool) (public_key' : option string)
    (encrypted_payload : option bytes) : result MeshPacket :=
  from_num <-! id_to_num from_id;
  to_num <-! id_to_num to_id;
  id <-! uint32 global_message_id;
  from' <-! uint32 from_num;
  to' <-! uint32 to_num;
  channel <-! (if negb pki_encrypted
               then (h <-! generate_hash channel_name channel_aes_key; uint32 h)
               else Ok 0);
  hl <-! uint32 hop_limit;
  hs <-! uint32 hop_start;
  key_bytes <-! match public_key' ≫= nonempty with
                | Some k => load_public_key_bytes k
                | None => Ok []
                end;
  let mesh_packet :=
    {| mp_id := id; mp_from := from'; mp_to := to'; mp_channel := channel;
       mp_hop_limit := hl; mp_hop_start := hs; mp_want_ack := want_ack;
       mp_pki_encrypted := pki_encrypted; mp_public_key := key_bytes;
       mp_rx_rssi := 0; mp_rx_snr := 0%Q; mp_rx_time := 0;
       mp_payload := NoPayload |} in
  if pki_encrypted then
    match encrypted_payload with
    | None => Raise "ValueError: Encrypted payload must be provided for PKI packets"
    | Some ciphertext => Ok (with_payload (Encrypted ciphertext) mesh_packet)
    end
  else if bool_decide (channel_aes_key = "") then
    Ok (with_payload (Decoded data_protobuf) mesh_packet)
  else
    ciphertext <-! encrypt_message channel_name channel_aes_key mesh_packet
                                   data_protobuf from_num;
    Ok (with_payload (Encrypted ciphertext) mesh_packet).

Definition craft_service_envelope (mesh_packet : MeshPacket)
    (channel_name : string) (gateway_id : option string) : result bytes :=
  serialize_service_envelope mesh_packet channel_name gateway_id.

(** [craft_traceroute]: an empty [RouteDiscovery] serialises to no bytes. *)
Definition craft_traceroute : Data :=
  {| portnum := TRACEROUTE_APP; payload := []; want_response := true;
     request_id := 0; reply_id := 0; bitfield := 1 |}.

End Crafter.

(** ** Publisher service (publisher_service.py) *)

(** The [PublishableInterface] protocol: a transport, observed at the time
    of the call. *)
Record PublishableInterface := {
  is_connected : bool;
  transport_publish : string -> bytes -> bool
}.

(** One entry of [_reactive_attempts]. *)
Record Attempt := {
  count : Z;
  first : option Z;
  last : Z
}.

Record PublisherService := {
  global_message_id : Z;
  _publisher : option PublishableInterface;
  _reactive_attempts : gmap string Attempt;
  _attempt_window : Z
}.

Definition with_message_id (v : Z) (svc : PublisherService) : PublisherService :=
  {| global_message_id := v; _publisher := _publisher svc;
     _reactive_attempts := _reactive_attempts svc;
     _attempt_window := _attempt_window svc |}.

Definition with_attempts (v : gmap string Attempt) (svc : PublisherService)
    : PublisherService :=
  {| global_message_id := global_message_id svc; _publisher := _publisher svc;
     _reactive_attempts := v; _attempt_window := _attempt_window svc |}.

(** [s.rstrip('/')], [s.strip('/')] and ["/".join(parts)]. *)
Fixpoint rstrip_slash (s : string) : string :=
  match s with
  | EmptyString => EmptyString
  | String c rest =>
      let rest' := rstrip_slash rest in
      if bool_decide (rest' = "") && bool_decide (c = "/"%char) then ""
      else String c rest'
  end.

Fixpoint lstrip_slash (s : string) : string :=
  match s with
  | EmptyString => EmptyString
  | String c rest => if bool_decide (c = "/"%char) then lstrip_slash rest else s
  end.

Definition strip_slash (s : string) : string := lstrip_slash (rstrip_slash s).

Fixpoint join_slash (parts : list string) : string :=
  match parts with
  | [] => ""
  | [p] => p
  | p :: rest => p +:+ "/" +:+ join_slash rest
  end.

Section Publisher.
Context `{!External}.

Definition _get_publish_topic (base_topic gateway_node : option string)
    (channel_name : option string) : string :=
  let root :=
    default "msh" (match base_topic ≫= nonempty with
                   | Some b => Some b
                   | None => nonempty MQTT_BASE_TOPIC
                   end) in
  let root := rstrip_slash root in
  match gateway_node ≫= nonempty with
  | Some g =>
      let channel_segment := strip_slash (default "" channel_name) in
      let topic_parts :=
        [root] ++ (if bool_decide (channel_segment = "") then [] else [channel_segment])
               ++ [g] in
      join_slash topic_parts
  | None => root
  end.

(** [PublisherService.publish]. *)
Definition publish (svc : PublisherService) (payload' : bytes)
    (gateway_node : option string) (channel_name : option string)
    (publisher : option PublishableInterface) (base_topic : option string)
    : result bool :=
  let active_publisher :=
    match publisher with
    | Some p => Some p
    | None => _publisher svc
    end in
  match active_publisher with
  | None => Raise "RuntimeError: No publisher configured for PublisherService"
  | Some p =>
      if negb (is_connected p) then Ok false
      else
        let topic := _get_publish_topic base_topic gateway_node channel_name in
        if transport_publish p topic payload' then Ok true else Ok false
  end.

Definition first_node_with_id (nid : string) (s : Store) : option Node :=
  first_where (fun n => bool_decide (node_id n = Some nid)) (nodes s).

(** The pending probe recorded after a successful publish. *)
Definition record_pending_probe (to_node' : string) (message_id : Z) (now : Z)
    (s : Store) : Store :=
  match first_node_with_id to_node' s with
  | None => s
  | Some target =>
      let s1 :=
        set_nodes
          (update_where (has_node_num (node_num target))
                        (with_latency (Some false) None) (nodes s)) s in
      set_latency_history
        (latency_history s1 ++
         [{| h_pk := next_pk h_pk (latency_history s1);
             h_node := node_num target;
             probe_message_id := Some message_id; reachable := false;
             h_latency_ms := None; responded_at := None; h_time := now |}]) s1
  end.

(** [PublisherService.publish_traceroute]. The message id is drawn before
    anything can fail, so the service state advances in every case. *)
Definition publish_traceroute (svc : PublisherService) (from_node' to_node' : string)
    (channel_name channel_aes_key : string) (hop_limit hop_start : Z)
    (want_ack : bool) (gateway_node : option string)
    (publisher : option PublishableInterface) (base_topic : option string)
    (record_pending : bool) (now : Z) (s : Store)
    : PublisherService * Store * result (bool * option Z) :=
  let data_pb := craft_traceroute in
  let message_id := global_message_id svc + 1 in
  let svc' := with_message_id message_id svc in
  let published :=
    mesh_protobuf <-! craft_mesh_packet from_node' to_node' channel_name
                        channel_aes_key message_id data_pb hop_limit hop_start
                        want_ack false None None;
    payload' <-! craft_service_envelope mesh_protobuf channel_name gateway_node;
    publish svc' payload' gateway_node (Some channel_name) publisher base_topic in
  match published with
  | Raise e => (svc', s, Raise e)
  | Ok true =>
      (svc',
       if record_pending then record_pending_probe to_node' message_id now s else s,
       Ok (true, Some message_id))
  | Ok false => (svc', s, Ok (false, None))
  end.

(** [PublisherService._should_inject_for_node], with [config.max_tries] and
    the current time as arguments. *)
Definition _should_inject_for_node (svc : PublisherService) (node_id' : string)
    (config_max_tries : Z) (now : Z) : PublisherService * bool :=
  if bool_decide (node_id' = "") then (svc, false)
  else
    let max_tries := Z.max 0 config_max_tries in
    if bool_decide (max_tries = 0) then (svc, false)
    else
      match _reactive_attempts svc !! node_id' with
      | None =>
          (with_attempts
             (<[node_id' := {| count := 1; first := Some now; last := now |}]>
                (_reactive_attempts svc)) svc,
           true)
      | Some data =>
          let expired :=
            match first data with
            | None => true
            | Some first_attempt =>
                bool_decide (_attempt_window svc <= now - first_attempt)
            end in
          if expired then
            (with_attempts
               (<[node_id' := {| count := 1; first := Some now; last := now |}]>
                  (_reactive_attempts svc)) svc,
             true)
          else if bool_decide (count data < max_tries) then
            (with_attempts
               (<[node_id' := {| count := count data + 1; first := first data;
                                 last := now |}]>
                  (_reactive_attempts svc)) svc,
             true)
          else (svc, false)
      end.

(** A trigger at [now] opens a new window for [node]: no entry yet, or the
    window of its entry has run out. *)
Definition fresh_window (svc : PublisherService) (node : string) (now : Z) : Prop :=
  match _reactive_attempts svc !! node with
  | None => True
  | Some data =>
      match first data with
      | None => True
      | Some first_attempt => _attempt_window svc <= now - first_attempt
      end
  end.

End Publisher.

(** ** Periodic publishing jobs (publisher_models.py, publisher_tasks.py) *)

Inductive RunStatus := IDLE | SUCCESS | ERROR | SKIPPED.

(** The keys of [payload_options] that the engine reads. *)
Record PayloadOptions := {
  opt_message_text : option string;
  opt_lat : option Q;
  opt_lon : option Q;
  opt_alt : option Q;
  opt_want_response : option bool;
  opt_short_name : option string;
  opt_long_name : option string;
  opt_hw_model : option string;
  opt_public_key : option string;
  opt_telemetry_type : option string;
  opt_telemetry_options : list (string * Q)
}.

Record PublisherPeriodicJob := {
  job_pk : nat;
  job_name : string;
  enabled : bool;
  payload_type : string;
  job_from_node : string;
  job_to_node : string;
  job_channel_name : string;
  job_channel_key : string;
  job_gateway_node : string;
  job_hop_limit : Z;
  job_hop_start : Z;
  job_want_ack : bool;
  job_pki_encrypted : bool;
  interface_id : option nat;
  payload_options : PayloadOptions;
  period_seconds : Z;
  next_run_at : Z;
  last_run_at : option Z;
  last_status : RunStatus;
  last_error_message : string;
  updated_at : Z
}.

Definition MIN_PERIOD_SECONDS : Z := 30.
Definition MAX_JOBS_PER_TICK : nat := 100.

(** [timedelta(seconds=n)] in microseconds. *)
Definition seconds (n : Z) : Z := n * 1000000.

Definition get_period_timedelta (job : PublisherPeriodicJob) : Z :=
  seconds (Z.max (period_seconds job) MIN_PERIOD_SECONDS).

(** [objects.filter(pk=self.pk).update(last_run_at=..., last_status=...,
    last_error_message=...)]: three columns of one row. *)
Definition with_run (at' : Z) (st : RunStatus) (msg : string)
    (job : PublisherPeriodicJob) : PublisherPeriodicJob :=
  {| job_pk := job_pk job; job_name := job_name job; enabled := enabled job;
     payload_type := payload_type job; job_from_node := job_from_node job;
     job_to_node := job_to_node job; job_channel_name := job_channel_name job;
     job_channel_key := job_channel_key job;
     job_gateway_node := job_gateway_node job;
     job_hop_limit := job_hop_limit job; job_hop_start := job_hop_start job;
     job_want_ack := job_want_ack job; job_pki_encrypted := job_pki_encrypted job;
     interface_id := interface_id job; payload_options := payload_options job;
     period_seconds := period_seconds job; next_run_at := next_run_at job;
     last_run_at := Some at'; last_status := st; last_error_message := msg;
     updated_at := updated_at job |}.

Definition has_job_pk (pk : nat) (job : PublisherPeriodicJob) : bool :=
  bool_decide (job_pk job = pk).

Definition mark_success (job : PublisherPeriodicJob) (message : option string)
    (now : Z) (jobs : list PublisherPeriodicJob) : list PublisherPeriodicJob :=
  update_where (has_job_pk (job_pk job))
    (with_run now SUCCESS (default "" (message ≫= nonempty))) jobs.

Definition mark_failure (job : PublisherPeriodicJob) (error_message : string)
    (now : Z) (jobs : list PublisherPeriodicJob) : list PublisherPeriodicJob :=
  update_where (has_job_pk (job_pk job))
    (with_run now ERROR (String.substring 0 2048 error_message)) jobs.

Definition mark_skipped (job : PublisherPeriodicJob) (message : option string)
    (now : Z) (jobs : list PublisherPeriodicJob) : list PublisherPeriodicJob :=
  update_where (has_job_pk (job_pk job))
    (with_run now SKIPPED (default "" (message ≫= nonempty))) jobs.

(** [base_kwargs] of [execute_periodic_job]. *)
Record BaseKwargs := {
  kw_from_node : string;
  kw_to_node : string;
  kw_channel_name : string;
  kw_channel_aes_key : string;
  kw_hop_limit : Z;
  kw_hop_start : Z;
  kw_want_ack : bool;
  kw_gateway_node : option string;
  kw_publisher : option PublishableInterface;
  kw_base_topic : option string
}.

Section Periodic.
Context `{!External}.

(** The publish operations for text, position, node-info and telemetry
    payloads are not modelled one by one; each is an argument that may fail
    and may touch the service and the store, never the job table. *)
Variable publish_text_message :
  string -> bool -> BaseKwargs -> PublisherService -> Store ->
  PublisherService * Store * result bool.
Variable publish_position :
  Q -> Q -> Q -> bool -> bool -> BaseKwargs -> PublisherService -> Store ->
  PublisherService * Store * result bool.
Variable publish_nodeinfo :
  string -> string -> Z -> string -> BaseKwargs -> PublisherService -> Store ->
  PublisherService * Store * result bool.
Variable publish_telemetry :
  string -> list (string * Q) -> bool -> bool -> BaseKwargs ->
  PublisherService -> Store -> PublisherService * Store * result bool.

(** [ServiceManager.resolve_publish_context]: publisher, base topic, error. *)
Variable resolve_publish_context :
  nat -> option PublishableInterface * option string * option string.

Definition is_kind (job : PublisherPeriodicJob) (kind : string) : bool :=
  bool_decide (str_lower (payload_type job) = kind)
  || bool_decide (payload_type job = kind).

(** [PublisherService.execute_periodic_job]. *)
Definition execute_periodic_job (job : PublisherPeriodicJob)
    (publisher : option PublishableInterface) (base_topic : option string)
    (now : Z) (svc : PublisherService) (s : Store)
    : PublisherService * Store * result bool :=
  let options := payload_options job in
  let base_kwargs :=
    {| kw_from_node := job_from_node job; kw_to_node := job_to_node job;
       kw_channel_name := job_channel_name job;
       kw_channel_aes_key := job_channel_key job;
       kw_hop_limit := job_hop_limit job; kw_hop_start := job_hop_start job;
       kw_want_ack := job_want_ack job;
       kw_gateway_node := nonempty (job_gateway_node job);
       kw_publisher := publisher; kw_base_topic := base_topic |} in
  if is_kind job "text" then
    match opt_message_text options ≫= nonempty with
    | None => (svc, s, Raise "Message text is required for periodic text payloads")
    | Some message_text =>
        publish_text_message message_text (job_pki_encrypted job) base_kwargs svc s
    end
  else if is_kind job "position" then
    match opt_lat options, opt_lon options with
    | Some lat, Some lon =>
        let alt := default 0%Q (opt_alt options) in
        publish_position lat lon alt (default false (opt_want_response options))
                         (job_pki_encrypted job) base_kwargs svc s
    | _, _ =>
        (svc, s,
         Raise "Latitude and longitude are required for periodic position payloads")
    end
  else if is_kind job "nodeinfo" then
    match opt_short_name options ≫= nonempty, opt_long_name options ≫= nonempty,
          opt_hw_model options ≫= nonempty, opt_public_key options ≫= nonempty with
    | Some sn, Some ln, Some hw, Some pk =>
        match parse_int hw with
        | Raise e => (svc, s, Raise e)
        | Ok hw_model_int => publish_nodeinfo sn ln hw_model_int pk base_kwargs svc s
        end
    | _, _, _, _ =>
        (svc, s,
         Raise "Node info payload requires short_name, long_name, hw_model, and public_key")
    end
  else if is_kind job "traceroute" then
    let '(svc', s', r) :=
      publish_traceroute svc (job_from_node job) (job_to_node job)
        (job_channel_name job) (job_channel_key job) (job_hop_limit job)
        (job_hop_start job) (job_want_ack job) (nonempty (job_gateway_node job))
        publisher base_topic true now s in
    (svc', s', match r with Ok (success, _) => Ok success | Raise e => Raise e end)
  else if is_kind job "telemetry" then
    publish_telemetry
      (default "device" (opt_telemetry_type options ≫= nonempty))
      (opt_telemetry_options options)
      (default false (opt_want_response options))
      (job_pki_encrypted job) base_kwargs svc s
  else (svc, s, Raise "Unsupported periodic publish payload type").

(** The task [execute_periodic_publish_job]. *)
Definition execute_periodic_publish_job (job_id : nat) (now : Z)
    (jobs : list PublisherPeriodicJob) (svc : PublisherService) (s : Store)
    : list PublisherPeriodicJob * PublisherService * Store * bool :=
  match first_where (has_job_pk job_id) jobs with
  | None => (jobs, svc, s, false)
  | Some job =>
      if negb (enabled job) then
        (mark_skipped job (Some "Job disabled") now jobs, svc, s, false)
      else
        let '(publisher, base_topic, err) :=
          match interface_id job with
          | Some i =>
              if bool_decide (i = 0%nat) then (None, None, None)
              else resolve_publish_context i
          | None => (None, None, None)
          end in
        match err ≫= nonempty with
        | Some e => (mark_failure job e now jobs, svc, s, false)
        | None =>
            match execute_periodic_job job publisher base_topic now svc s with
            | (svc', s', Raise exc) => (mark_failure job exc now jobs, svc', s', false)
            | (svc', s', Ok true) => (mark_success job None now jobs, svc', s', true)
            | (svc', s', Ok false) =>
                (mark_failure job "Publisher publish returned False" now jobs,
                 svc', s', false)
            end
        end
  end.

(** *** Selection of due jobs: [process_periodic_publish_jobs] *)

Fixpoint insert_by_next_run (job : PublisherPeriodicJob)
    (sorted : list PublisherPeriodicJob) : list PublisherPeriodicJob :=
  match sorted with
  | [] => [job]
  | j :: rest =>
      if bool_decide (next_run_at job < next_run_at j) then job :: sorted
      else j :: insert_by_next_run job rest
  end.

Definition order_by_next_run (jobs : list PublisherPeriodicJob)
    : list PublisherPeriodicJob :=
  foldr (fun job acc => insert_by_next_run job acc) [] (reverse jobs).

Definition due_jobs (now : Z) (jobs : list PublisherPeriodicJob)
    : list PublisherPeriodicJob :=
  take MAX_JOBS_PER_TICK
    (order_by_next_run
       (filter (fun j => enabled j = true /\ next_run_at j <= now) jobs)).

Definition with_next_run (v : Z) (job : PublisherPeriodicJob) : PublisherPeriodicJob :=
  {| job_pk := job_pk job; job_name := job_name job; enabled := enabled job;
     payload_type := payload_type job; job_from_node := job_from_node job;
     job_to_node := job_to_node job; job_channel_name := job_channel_name job;
     job_channel_key := job_channel_key job;
     job_gateway_node := job_gateway_node job;
     job_hop_limit := job_hop_limit job; job_hop_start := job_hop_start job;
     job_want_ack := job_want_ack job; job_pki_encrypted := job_pki_encrypted job;
     interface_id := interface_id job; payload_options := payload_options job;
     period_seconds := period_seconds job; next_run_at := v;
     last_run_at := last_run_at job; last_status := last_status job;
     last_error_message := last_error_message job;
     updated_at := updated_at job |}.

(** The claim step: every due job gets [next_run_at = now + period] before
    its execution is queued. Returns the table and the queued ids. *)
Definition process_periodic_publish_jobs (now : Z)
    (jobs : list PublisherPeriodicJob) : list PublisherPeriodicJob * list nat :=
  let due := due_jobs now jobs in
  (foldl (fun table job =>
            update_where (has_job_pk (job_pk job))
              (with_next_run (now + get_period_timedelta job)) table)
         jobs due,
   map job_pk due).

(** What the claim step does to one row of the table: each due job with
    the row's key stamps it in turn. *)
Definition claim_row (now : Z) (due : list PublisherPeriodicJob)
    (row : PublisherPeriodicJob) : PublisherPeriodicJob :=
  foldl (fun r job =>
           if has_job_pk (job_pk job) r
           then with_next_run (now + get_period_timedelta job) r
           else r)
        row due.

End Periodic.

Definition example_job : PublisherPeriodicJob :=
  {| job_pk := 7; job_name := "hourly traceroute"; enabled := true;
     payload_type := "traceroute"; job_from_node := "!00000001";
     job_to_node := "!00000002"; job_channel_name := "LongFast";
     job_channel_key := "AQ=="; job_gateway_node := "!00000001";
     job_hop_limit := 3; job_hop_start := 3; job_want_ack := false;
     job_pki_encrypted := false; interface_id := None;
     payload_options :=
       {| opt_message_text := None; opt_lat := None; opt_lon := None;
          opt_alt := None; opt_want_response := None; opt_short_name := None;
          opt_long_name := None; opt_hw_model := None; opt_public_key := None;
          opt_telemetry_type := None; opt_telemetry_options := [] |};
     period_seconds := 3600; next_run_at := seconds 100;
     last_run_at := None; last_status := IDLE; last_error_message := "";
     updated_at := 0 |}.

Definition example_publish_kind (kw : BaseKwargs) (svc : PublisherService)
    (s : Store) : PublisherService * Store * result bool := (svc, s, Ok true).

(** ** Concrete collaborators and rows used in the examples *)

Definition node_A : Node :=
  {| node_num := 1; node_id := Some "!00000001"; mac_address := None;
     long_name := None; short_name := None; hw_model := None; role := None;
     public_key := None; latency_reachable := None; latency_ms := None |}.
Definition node_B : Node :=
  {| node_num := 2; node_id := Some "!00000002"; mac_address := None;
     long_name := None; short_name := None; hw_model := None; role := None;
     public_key := None; latency_reachable := None; latency_ms := None |}.
Definition node_C : Node :=
  {| node_num := 3; node_id := Some "!00000003"; mac_address := None;
     long_name := None; short_name := None; hw_model := None; role := None;
     public_key := None; latency_reachable := None; latency_ms := None |}.

Definition example_user : User :=
  {| user_id := "!00000002"; user_long_name := "Node Two";
     user_short_name := "N2"; user_hw_model := 43; user_role := 0;
     user_public_key := [] |}.

Definition example_external : External :=
  {| id_to_num := fun i =>
       if bool_decide (i = "!00000001") then Ok 1
       else if bool_decide (i = "!00000002") then Ok 2
       else if bool_decide (i = "!00000003") then Ok 3
       else Raise "ValueError";
     num_to_id := fun n =>
       if bool_decide (n = 1) then "!00000001"
       else if bool_decide (n = 2) then "!00000002"
       else if bool_decide (n = 3) then "!00000003"
       else "!00000000";
     num_to_mac := fun _ => "00:00:00:00:00:00";
     hw_num_to_model := fun n => if bool_decide (n = 43) then Some "HELTEC_V3" else None;
     role_num_ro_role := fun n => if bool_decide (n = 0) then Some "CLIENT" else None;
     generate_hash := fun _ _ => Ok 8;
     encrypt_message := fun _ _ _ d _ => Ok (payload d);
     decrypt_packet := fun _ _ => None;
     pki_decrypt_packet := fun _ _ => None;
     load_public_key_bytes := fun _ => Raise "PKIDecryptionError";
     parse_user := fun _ => Ok example_user;
     parse_data := fun _ => Raise "DecodeError";
     serialize_service_envelope := fun _ _ _ => Ok [];
     b64encode := fun _ => "AA==";
     str_upper := fun x => x;
     str_lower := fun x => x;
     parse_int := fun _ => Ok 0;
     quantize := fun q _ => Some q;
     timedelta_ms := fun us => Z.quot us 1000;
     MQTT_BASE_TOPIC := "msh";
     channel_default_psk := None |}.

Definition example_transport : PublishableInterface :=
  {| is_connected := true; transport_publish := fun _ _ => true |}.

Definition example_service : PublisherService :=
  {| global_message_id := 41; _publisher := Some example_transport;
     _reactive_attempts := ∅; _attempt_window := seconds 900 |}.

Definition example_store : Store :=
  {| nodes := [node_A; node_B]; packets := []; packet_data := [];
     nodeinfo_payloads := []; edges := []; latency_history := [];
     channels := [] |}.

Definition example_packet (pk : nat) (pid f t time' : Z) : Packet :=
  {| pkt_pk := pk; packet_id := Some pid; from_node := f; to_node := t;
     pkt_time := Some time'; pkt_rx_rssi := None; pkt_rx_snr := None;
     pkt_hop_limit := None; pkt_hop_start := None; pkt_want_ack := None;
     ackd := None; pkt_pki_encrypted := false; raw_data := None |}.

Definition example_reply_data : PacketData :=
  {| pd_packet := 2; pd_portnum := Some TRACEROUTE_APP;
     pd_request_id := Some 42; pd_reply_id := Some 0;
     pd_want_response := Some false; got_response := None |}.

(** The store when the reply to probe 42 arrives: the request went out at
    1.000000 s and the reply was stored at 1.250000 s. *)
Definition example_reply_store : Store :=
  {| nodes := [node_A; node_B];
     packets := [example_packet 1 42 1 2 1000000; example_packet 2 77 2 1 1250000];
     packet_data := [example_reply_data];
     nodeinfo_payloads := []; edges := [];
     latency_history :=
       [{| h_pk := 1; h_node := 2; probe_message_id := Some 42;
           reachable := false; h_latency_ms := None; responded_at := None;
           h_time := 1000000 |}];
     channels := [] |}.

Definition example_handle_port (port : Z) (payload' : bytes) (d : PacketData)
    (now : Z) (s : Store) : Store * result unit := (s, Ok ()).

(** An encrypted envelope from node 2, heard by gateway node 1, that left
    with [hop_limit = 3] from firmware that does not fill in [hop_start]. *)
Definition example_inbound : Normalized :=
  {| gateway_node_id := Some "!00000001";
     n_channel_id := "LongFast";
     n_packet :=
       {| mp_id := 77; mp_from := 2; mp_to := 4294967295; mp_channel := 8;
          mp_hop_limit := 3; mp_hop_start := 0; mp_want_ack := false;
          mp_pki_encrypted := false; mp_public_key := [];
          mp_rx_rssi := -90; mp_rx_snr := 0%Q; mp_rx_time := 0;
          mp_payload := Encrypted [Byte.x01; Byte.x02] |} |}.

Definition example_mqtt : Interface :=
  {| iface_name := "MQTT"; serial_node := None |}.

Definition example_disconnected : PublishableInterface :=
  {| is_connected := false; transport_publish := fun _ _ => true |}.

Definition example_service_without_publisher : PublisherService :=
  {| global_message_id := 41; _publisher := None;
     _reactive_attempts := ∅; _attempt_window := seconds 900 |}.

Definition example_text : Data :=
  {| portnum := TEXT_MESSAGE_APP; payload := [Byte.x68; Byte.x69];
     want_response := false; request_id := 0; reply_id := 0; bitfield := 1 |}.

(** Node 2 as it is stored before a node-info message without a key
    arrives: it has names and a public key on record. *)
Definition node_B_with_key : Node :=
  {| node_num := 2; node_id := Some "!00000002"; mac_address := None;
     long_name := Some "Old name"; short_name := Some "OLD";
     hw_model := Some "TBEAM"; role := Some "ROUTER";
     public_key := Some "c3RvcmVkIGtleQ=="; latency_reachable := None;
     latency_ms := None |}.

Definition example_store_with_key : Store :=
  {| nodes := [node_A; node_B_with_key]; packets := []; packet_data := [];
     nodeinfo_payloads := []; edges := []; latency_history := [];
     channels := [] |}.

Definition example_nodeinfo_data : PacketData :=
  {| pd_packet := 1; pd_portnum := Some NODEINFO_APP; pd_request_id := None;
     pd_reply_id := None; pd_want_response := Some false;
     got_response := None |}.


(** ** Route reconstruction: resolving hop ids and persisting segments
    (handle_route_discovery, handler.py) *)

Section RouteEdges.
Context `{!External}.

(** The loop that resolves the hop ids of one direction: the broadcast id
    becomes a placeholder, every other id is resolved to its number and
    the node is fetched or created. A malformed id raises out of the loop. *)
Fixpoint resolve_route_nodes (ids : list string) (s : Store)
    : Store * result (list (option Node)) :=
  match ids with
  | [] => (s, Ok [])
  | node_id' :: rest =>
      if bool_decide (node_id' = BROADCAST_NODE_ID) then
        match resolve_route_nodes rest s with
        | (s', Ok l) => (s', Ok (None :: l))
        | (s', Raise e) => (s', Raise e)
        end
      else
        match id_to_num node_id' with
        | Raise e => (s, Raise e)
        | Ok num =>
            let '(s1, node) :=
              _get_or_update_node num (Some (num_to_id num)) (Some (num_to_mac num)) s in
            match resolve_route_nodes rest s1 with
            | (s2, Ok l) => (s2, Ok (Some node :: l))
            | (s2, Raise e) => (s2, Raise e)
            end
        end
  end.

(** [persist_edge_segments]: every segment is upserted as the edge between
    its two nodes, with the acknowledged packet, RSSI 0, the segment's SNR
    (to two places) and its hop count. *)
Definition persist_segment (ackd_packet : Packet) (s : Store)
    (seg : Segments.segment) : Store :=
  let '(source_node', target_node', snr_value, hop_count) := seg in
  upsert_edge (node_num source_node') (node_num target_node')
    (Some (pkt_pk ackd_packet)) (Some 0)
    (snr_value ≫= (fun v => quantize v 2)) (Some (Z.of_nat hop_count)) s.

Definition persist_edge_segments (ackd_packet : Packet)
    (segments : list Segments.segment) (s : Store) : Store :=
  foldl (persist_segment ackd_packet) s segments.

(** The tail of the response branch: both directions are resolved, then
    the forward segments and the backward segments are built and persisted. *)
Definition reconstruct_routes (ackd_packet : Packet)
    (route_node_list route_node_back_list : list string)
    (route_snr_list snr_back_list : list Q) (s : Store) : Store * result unit :=
  match resolve_route_nodes route_node_list s with
  | (s1, Raise e) => (s1, Raise e)
  | (s1, Ok route_nodes) =>
      match resolve_route_nodes route_node_back_list s1 with
      | (s2, Raise e) => (s2, Raise e)
      | (s2, Ok route_back_nodes) =>
          let forward_segments :=
            Segments.build_edge_segments route_nodes route_snr_list in
          let s3 := persist_edge_segments ackd_packet forward_segments s2 in
          let backward_segments :=
            Segments.build_edge_segments route_back_nodes snr_back_list in
          (persist_edge_segments ackd_packet backward_segments s3, Ok ())
      end
  end.

(** The edge that a segment is written to, and what a row written by one of
    [segments] looks like. *)
Definition segment_key (seg : Segments.segment) : Z * Z :=
  let '(source_node', target_node', _, _) := seg in
  (node_num source_node', node_num target_node').

Definition written_by (ackd_packet : Packet) (segments : list Segments.segment)
    (key : Z * Z) (e : Edge) : Prop :=
  last_packet e = Some (pkt_pk ackd_packet) /\
  last_rx_rssi e = Some 0 /\
  exists seg, seg ∈ segments /\ segment_key seg = key /\
    last_hops e = Some (Z.of_nat seg.2) /\
    last_rx_snr e = seg.1.2 ≫= (fun v => quantize v 2).

End RouteEdges.

(** ** The reactive service: configuration, runtime and [on_packet_received]
    (publisher_service.py) *)

(** The columns of [PublisherReactiveConfig] that the service reads;
    [cfg_listen_interfaces] holds the keys of the listen interfaces. *)
Record ReactiveConfig := {
  cfg_enabled : bool;
  cfg_from_node : string;
  cfg_gateway_node : string;
  cfg_channel_key : string;
  cfg_hop_limit : Z;
  cfg_hop_start : Z;
  cfg_want_ack : bool;
  cfg_listen_interfaces : list Z;
  cfg_max_tries : Z;
  cfg_trigger_ports : list string
}.

(** The reactive part of a [PublisherService] around the part modelled
    above. [_reactive_config] is the configuration in force
    ([self._reactive_config or PublisherReactiveConfig.get_solo()]). *)
Record ReactiveService := {
  rs_service : PublisherService;
  _reactive_enabled : bool;
  _reactive_config : ReactiveConfig;
  _reactive_publisher : option PublishableInterface;
  _reactive_base_topic : option string
}.

Definition with_service (svc : PublisherService) (rs : ReactiveService)
    : ReactiveService :=
  {| rs_service := svc; _reactive_enabled := _reactive_enabled rs;
     _reactive_config := _reactive_config rs;
     _reactive_publisher := _reactive_publisher rs;
     _reactive_base_topic := _reactive_base_topic rs |}.

Definition with_config (config : ReactiveConfig) (rs : ReactiveService)
    : ReactiveService :=
  {| rs_service := rs_service rs; _reactive_enabled := _reactive_enabled rs;
     _reactive_config := config;
     _reactive_publisher := _reactive_publisher rs;
     _reactive_base_topic := _reactive_base_topic rs |}.

Definition with_cfg_enabled (v : bool) (c : ReactiveConfig) : ReactiveConfig :=
  {| cfg_enabled := v; cfg_from_node := cfg_from_node c;
     cfg_gateway_node := cfg_gateway_node c; cfg_channel_key := cfg_channel_key c;
     cfg_hop_limit := cfg_hop_limit c; cfg_hop_start := cfg_hop_start c;
     cfg_want_ack := cfg_want_ack c;
     cfg_listen_interfaces := cfg_listen_interfaces c;
     cfg_max_tries := cfg_max_tries c; cfg_trigger_ports := cfg_trigger_ports c |}.

(** [start_reactive_service] and [stop_reactive_service]: the flag and the
    stored [enabled] column are set, and the attempt map is cleared. *)
Definition start_reactive_service (rs : ReactiveService) : ReactiveService :=
  {| rs_service := with_attempts ∅ (rs_service rs);
     _reactive_enabled := true;
     _reactive_config := with_cfg_enabled true (_reactive_config rs);
     _reactive_publisher := _reactive_publisher rs;
     _reactive_base_topic := _reactive_base_topic rs |}.

Definition stop_reactive_service (rs : ReactiveService) : ReactiveService :=
  {| rs_service := with_attempts ∅ (rs_service rs);
     _reactive_enabled := false;
     _reactive_config := with_cfg_enabled false (_reactive_config rs);
     _reactive_publisher := _reactive_publisher rs;
     _reactive_base_topic := _reactive_base_topic rs |}.

(** A runtime interface of the service manager: its implementation, and
    the name and base topic of its database row. *)
Record InterfaceWrapper := {
  impl : option PublishableInterface;
  db_name : string;
  db_mqtt_base_topic : option string
}.

(** What [on_packet_received] reads through the relations of the packet row:
    the keys of its interfaces, its channels with the keys of the interfaces
    of each, and its gateway nodes. *)
Record ChannelLink := {
  cl_channel : Channel;
  cl_interfaces : list Z
}.

Record PacketLinks := {
  pl_interfaces : list Z;
  pl_channels : list ChannelLink;
  pl_gateway_nodes : list Node
}.

Section Reactive.
Context `{!External}.

(** [portnums_pb2.PortNum.Value(name)] and [PortNum.Name(number)], which
    raise [ValueError] on an unknown name or number; the runtime interfaces
    of the service manager; and the keys of the stored interfaces. *)
Variable port_value : string -> result Z.
Variable port_name : Z -> result string.
Variable get_runtime_interface : Z -> option InterfaceWrapper.
Variable stored_interfaces : list Z.

(** [update_reactive_config]: every argument that is given overwrites its
    column; [max_tries] is clamped at 0, empty and unknown port names are
    dropped, and only stored interfaces are listened on. *)
Definition sanitize_ports (trigger_ports : list string) : list string :=
  List.filter
    (fun name =>
       negb (bool_decide (name = ""))
       && match port_value name with Ok _ => true | Raise _ => false end)
    trigger_ports.

Definition update_reactive_config (rs : ReactiveService)
    (enabled' : option bool) (from_node' gateway_node channel_key' : option string)
    (hop_limit hop_start : option Z) (want_ack : option bool)
    (listen_interface_ids : option (list Z)) (max_tries : option Z)
    (trigger_ports : option (list string)) : ReactiveService :=
  let config := _reactive_config rs in
  with_config
    {| cfg_enabled := default (cfg_enabled config) enabled';
       cfg_from_node := default (cfg_from_node config) from_node';
       cfg_gateway_node := default (cfg_gateway_node config) gateway_node;
       cfg_channel_key := default (cfg_channel_key config) channel_key';
       cfg_hop_limit := default (cfg_hop_limit config) hop_limit;
       cfg_hop_start := default (cfg_hop_start config) hop_start;
       cfg_want_ack := default (cfg_want_ack config) want_ack;
       cfg_listen_interfaces :=
         match listen_interface_ids with
         | Some ids =>
             List.filter (fun i => bool_decide (i ∈ ids)) stored_interfaces
         | None => cfg_listen_interfaces config
         end;
       cfg_max_tries :=
         match max_tries with
         | Some m => Z.max 0 m
         | None => cfg_max_tries config
         end;
       cfg_trigger_ports :=
         match trigger_ports with
         | Some ports => sanitize_ports ports
         | None => cfg_trigger_ports config
         end |} rs.

(** [_resolve_publish_context]: the connected implementation of the
    packet's interface, else the reactive publisher, else the default one. *)
Definition _resolve_publish_context (rs : ReactiveService)
    (interface_obj : option Z) : option PublishableInterface * option string :=
  let fallback_publisher :=
    match _reactive_publisher rs with
    | Some p => Some p
    | None => _publisher (rs_service rs)
    end in
  let fallback_topic := _reactive_base_topic rs in
  match interface_obj with
  | None => (fallback_publisher, fallback_topic)
  | Some interface_pk =>
      match get_runtime_interface interface_pk with
      | None => (fallback_publisher, fallback_topic)
      | Some wrapper =>
          match impl wrapper with
          | None => (fallback_publisher, fallback_topic)
          | Some publisher =>
              if negb (is_connected publisher)
              then (fallback_publisher, fallback_topic)
              else
                (Some publisher,
                 if bool_decide (db_name wrapper = "MQTT")
                 then db_mqtt_base_topic wrapper else None)
          end
      end
  end.

(** The interface that the listener filter selects: [None] when the filter
    is set and matches none of the packet's interfaces. *)
Definition select_interface (listen_filter_ids interfaces : list Z)
    : option (option Z) :=
  if bool_decide (listen_filter_ids = []) then Some (head interfaces)
  else
    match List.find (fun i => bool_decide (i ∈ listen_filter_ids)) interfaces with
    | Some i => Some (Some i)
    | None => None
    end.

Definition select_channel (selected_interface : option Z)
    (packet_obj : option PacketLinks) : option Channel :=
  match packet_obj with
  | None => None
  | Some links =>
      let by_interface :=
        match selected_interface with
        | Some i =>
            first_where (fun c => bool_decide (i ∈ cl_interfaces c)) (pl_channels links)
        | None => None
        end in
      cl_channel <$> match by_interface with
                     | Some c => Some c
                     | None => head (pl_channels links)
                     end
  end.

(** The port filter: with a non-empty trigger list the packet must be
    decoded and its port name must be in the list. *)
Definition port_triggers (trigger_ports : list string)
    (decoded_data : option Data) (portnum' : option Z) : bool :=
  if bool_decide (trigger_ports = []) then true
  else
    match decoded_data, portnum' with
    | Some _, Some p =>
        match port_name p with
        | Ok name => bool_decide (name ∈ trigger_ports)
        | Raise _ => false
        end
    | _, _ => false
    end.

(** [on_packet_received]. [now] is the clock of the rate limiter, [now']
    the creation time of the pending history row. The body of the [try]
    around the publish only logs, so nothing is raised. *)
Definition on_packet_received (rs : ReactiveService)
    (decoded_data : option Data) (portnum' : option Z) (from_node' : Node)
    (packet_obj : option PacketLinks) (now now' : Z) (s : Store)
    : ReactiveService * Store :=
  if negb (_reactive_enabled rs) then (rs, s)
  else
    let config := _reactive_config rs in
    if bool_decide (cfg_from_node config = "") then (rs, s)
    else
      let interfaces :=
        match packet_obj with
        | Some links => pl_interfaces links
        | None => []
        end in
      match select_interface (cfg_listen_interfaces config) interfaces with
      | None => (rs, s)
      | Some selected_interface =>
          match select_channel selected_interface packet_obj with
          | None => (rs, s)
          | Some channel_obj =>
              if bool_decide (channel_id channel_obj = "") then (rs, s)
              else
                let channel_name := channel_id channel_obj in
                let channel_key' :=
                  match nonempty (cfg_channel_key config) with
                  | Some k => k
                  | None => default "" (psk channel_obj)
                  end in
                if bool_decide (channel_key' = "") then (rs, s)
                else
                  match node_id from_node' ≫= nonempty with
                  | None => (rs, s)
                  | Some target_node_id =>
                      if bool_decide (cfg_from_node config = target_node_id)
                      then (rs, s)
                      else if negb (port_triggers (cfg_trigger_ports config)
                                                  decoded_data portnum')
                      then (rs, s)
                      else
                        let '(svc1, allowed) :=
                          _should_inject_for_node (rs_service rs) target_node_id
                            (cfg_max_tries config) now in
                        let rs1 := with_service svc1 rs in
                        if negb allowed then (rs1, s)
                        else
                          let '(publisher, base_topic) :=
                            _resolve_publish_context rs1 selected_interface in
                          match publisher with
                          | None => (rs1, s)
                          | Some _ =>
                              let gateway_node_id :=
                                match nonempty (cfg_gateway_node config) with
                                | Some g => Some g
                                | None =>
                                    match packet_obj with
                                    | Some links =>
                                        head (pl_gateway_nodes links) ≫= node_id
                                    | None => None
                                    end
                                end in
                              let '(svc2, s1, r) :=
                                publish_traceroute svc1 (cfg_from_node config)
                                  target_node_id channel_name channel_key'
                                  (cfg_hop_limit config) (cfg_hop_start config)
                                  (cfg_want_ack config) gateway_node_id publisher
                                  base_topic false now' s in
                              (with_service svc2 rs1,
                               match r with
                               | Ok (true, Some message_id) =>
                                   record_pending_probe target_node_id message_id now' s1
                               | _ => s1
                               end)
                          end
                  end
          end
      end.

End Reactive.

(** ** Successive triggers of the rate limiter *)

Section Triggers.

(** The rate limiter asked once per trigger, in order; a trigger is the
    sender's node id and the time of the call. The answers come back with
    the node ids. *)
Fixpoint inject_each (svc : PublisherService) (config_max_tries : Z)
    (triggers : list (string * Z)) : PublisherService * list (string * bool) :=
  match triggers with
  | [] => (svc, [])
  | (node_id', now) :: rest =>
      let '(svc1, allowed) :=
        _should_inject_for_node svc node_id' config_max_tries now in
      let '(svc2, answers) := inject_each svc1 config_max_tries rest in
      (svc2, (node_id', allowed) :: answers)
  end.

Definition triggers_of (node : string) (triggers : list (string * Z)) : nat :=
  length (List.filter (fun t => bool_decide (t.1 = node)) triggers).

Definition allowed_for (node : string) (answers : list (string * bool)) : nat :=
  length (List.filter (fun a => bool_decide (a = (node, true))) answers).

End Triggers.

(** A running reactive service that injects from node 1, and a packet row
    with one interface, one channel and no gateway. *)
Definition example_reactive : ReactiveService :=
  {| rs_service := example_service; _reactive_enabled := true;
     _reactive_config :=
       {| cfg_enabled := true; cfg_from_node := "!00000001";
          cfg_gateway_node := ""; cfg_channel_key := "AQ=="; cfg_hop_limit := 3;
          cfg_hop_start := 3; cfg_want_ack := false; cfg_listen_interfaces := [];
          cfg_max_tries := 2; cfg_trigger_ports := [] |};
     _reactive_publisher := None; _reactive_base_topic := None |}.

Definition example_links : PacketLinks :=
  {| pl_interfaces := [1];
     pl_channels :=
       [{| cl_channel := {| channel_id := "LongFast"; channel_num := Some 8;
                            psk := None |};
           cl_interfaces := [1] |}];
     pl_gateway_nodes := [] |}.

(** ** Routing acknowledgements and reachability probes
    (handle_routing, handler.py; craft_reachability_probe, crafter.py;
    publish_reachability_probe, publisher_service.py) *)

Section Routing.
Context `{!External}.

(** The [error_reason] of a routing payload as [error_reason_num_to_str]
    names it (of the default message when the payload does not parse);
    [Raise] when the naming fails, which leaves the local unbound. The
    [RoutingPayload] row that the handler also writes is left out. *)
Variable routing_error_reason : bytes -> result (option string).

(** [handle_routing]: a routing payload without error that answers a stored
    request marks the request as acknowledged and answered, marks the reply
    as a response, and records the latency of the probed node. *)
Definition handle_routing (payload' : bytes) (d : PacketData) (now : Z) (s : Store)
    : Store * result unit :=
  match pd_request_id d with
  | None => (s, Ok ())
  | Some rid =>
      match routing_error_reason payload' with
      | Raise _ => (s, Raise "UnboundLocalError")
      | Ok error_reason =>
          match error_reason ≫= nonempty with
          | Some _ => (s, Ok ())
          | None =>
              match packet_of d s with
              | None => (s, Raise "DoesNotExist")
              | Some incoming =>
                  match find_request rid (from_node incoming) s with
                  | None => (s, Ok ())
                  | Some ackd_packet =>
                      let s1 := mark_ackd (pkt_pk ackd_packet) s in
                      let s2 := mark_got_response (pkt_pk ackd_packet) s1 in
                      let s3 := mark_got_response (pd_packet d) s2 in
                      let target_node := to_node ackd_packet in
                      let request_time := pkt_time ackd_packet in
                      let response_time := pkt_time incoming in
                      let lat := latency_of request_time response_time in
                      let resp := Some (default now response_time) in
                      let s4 := update_node_latency target_node (Some true) lat s3 in
                      (_update_latency_history target_node (packet_id ackd_packet)
                         lat resp request_time now s4,
                       Ok ())
                  end
              end
          end
      end
  end.

(** [craft_reachability_probe]: an empty [Routing] message serialises to no
    bytes. *)
Definition craft_reachability_probe : Data :=
  {| portnum := ROUTING_APP; payload := []; want_response := false;
     request_id := 0; reply_id := 0; bitfield := 1 |}.

(** [PublisherService.publish_reachability_probe]: the packet asks for an
    ack, and a published probe is always recorded as pending. *)
Definition publish_reachability_probe (svc : PublisherService)
    (from_node' to_node' : string) (channel_name channel_aes_key : string)
    (hop_limit hop_start : Z) (gateway_node : option string)
    (publisher : option PublishableInterface) (base_topic : option string)
    (now : Z) (s : Store) : PublisherService * Store * result bool :=
  let data_pb := craft_reachability_probe in
  let message_id := global_message_id svc + 1 in
  let svc' := with_message_id message_id svc in
  let published :=
    mesh_protobuf <-! craft_mesh_packet from_node' to_node' channel_name
                        channel_aes_key message_id data_pb hop_limit hop_start
                        true false None None;
    payload' <-! craft_service_envelope mesh_protobuf channel_name gateway_node;
    publish svc' payload' gateway_node (Some channel_name) publisher base_topic in
  match published with
  | Raise e => (svc', s, Raise e)
  | Ok true => (svc', record_pending_probe to_node' message_id now s, Ok true)
  | Ok false => (svc', s, Ok false)
  end.

End Routing.

(** * Properties *)

(** ** Route reconstruction *)

Example segments_one_unknown_hop :
  Segments.build_edge_segments [Some node_A; None; Some node_B] [(5 # 4)%Q]
  = [(node_A, node_B, None, 1%nat)].
Proof. reflexivity. Qed.

Example segments_adjacent_with_snr :
  Segments.build_edge_segments [Some node_A; Some node_B; None; Some node_C]
    [(5 # 4)%Q; (-3 # 4)%Q]
  = [(node_A, node_B, Some (5 # 4)%Q, 0%nat); (node_B, node_C, None, 1%nat)].
Proof. reflexivity. Qed.

Section SegmentFacts.
Import Segments.

Lemma take_drop_placeholders (nodes : list (option Node)) :
  forall (d m : nat),
    (forall k, (m <= k < m + d)%nat -> nodes !! k = Some None) ->
    take d (drop m nodes) = replicate d None.
Proof.
  induction d as [|d IH]; intros m Hall; [done|].
  assert (Hm : nodes !! m = Some None) by (apply Hall; lia).
  rewrite (drop_S _ _ _ Hm). cbn [take replicate]. f_equal.
  apply IH. intros k Hk. apply Hall. lia.
Qed.

Lemma filter_placeholders_replicate (d : nat) :
  length (filter (fun o => is_placeholder o = true) (replicate d (@None Node))) = d.
Proof.
  induction d as [|d IH]; [done|].
  cbn [replicate]. rewrite filter_cons_True by done. cbn. by rewrite IH.
Qed.

Lemma placeholders_between_all (nodes : list (option Node)) (j i : nat) :
  (forall k, (j < k < i)%nat -> nodes !! k = Some None) ->
  placeholders_between nodes j i = (i - j - 1)%nat.
Proof.
  intros Hall. unfold placeholders_between.
  rewrite (take_drop_placeholders nodes (i - j - 1) (S j)).
  - apply filter_placeholders_replicate.
  - intros k Hk. apply Hall. lia.
Qed.

Lemma loop_emits (nodes : list (option Node)) (snr_values : list Q) :
  forall (rest : list (option Node)) (index : nat) (prev : option (nat * Node))
         (st : loop_state),
    drop index nodes = rest ->
    (index + length rest = length nodes)%nat ->
    state_agrees nodes index (bool_decide (rest <> [])) prev st ->
    segments (loop nodes snr_values (length nodes) index rest st) =
    segments st ++
    concat (map (emitted_for nodes snr_values)
                (consecutive (with_prev prev (known_from index rest)))).
Proof.
  induction rest as [|node rest IH]; intros index prev st Hdrop Hlen [Hlk Hprev].
  - cbn. destruct prev as [[j s]|]; cbn; by rewrite app_nil_r.
  - assert (Hnode : nodes !! index = Some node).
    { rewrite <- (Nat.add_0_r index), <- lookup_drop, Hdrop. done. }
    assert (Hdrop' : drop (S index) nodes = rest).
    { rewrite (drop_S _ _ _ Hnode) in Hdrop. congruence. }
    cbn [length] in Hlen.
    cbn [loop]. destruct node as [t|].
    + (* a known node *)
      destruct prev as [[j s]|]; cbn in Hlk.
      * destruct Hprev as (Hj & Hs & Hbetween & Hub).
        specialize (Hub ltac:(by rewrite bool_decide_eq_true)).
        rewrite (IH (S index) (Some (index, t))); [| done | lia |].
        -- cbn [known_from with_prev consecutive map concat].
           rewrite app_assoc. f_equal.
           unfold loop_body. rewrite Hlk, Hub.
           unfold emitted_for.
           rewrite (placeholders_between_all nodes j index Hbetween).
           destruct (decide ((index - j - 1)%nat = 0%nat)) as [Hz|Hnz].
           ++ rewrite !(bool_decide_eq_true_2 _ Hz). cbn [andb].
              destruct (decide (length snr_values <= j)%nat) as [Hle|Hgt].
              ** rewrite (bool_decide_eq_true_2 _ Hle). cbn.
                 rewrite (lookup_ge_None_2 _ _ Hle). by rewrite app_nil_r.
              ** rewrite (bool_decide_eq_false_2 _ Hgt).
                 rewrite bool_decide_eq_true_2 by lia. cbn.
                 rewrite Hs.
                 destruct (lookup_lt_is_Some_2 snr_values j ltac:(lia)) as [v Hv].
                 rewrite Hv, Hz. done.
           ++ rewrite !(bool_decide_eq_false_2 _ Hnz). cbn. by rewrite Hs.
        -- split.
           ++ unfold loop_body. rewrite Hlk.
              repeat case_match; done.
           ++ split; [lia|]. split; [done|]. split; [intros; lia|].
              intros _. unfold loop_body. rewrite Hlk.
              repeat case_match; cbn; lia.
      * rewrite (IH (S index) (Some (index, t))); [| done | lia |].
        -- cbn [known_from with_prev]. unfold loop_body. by rewrite Hlk.
        -- unfold loop_body. rewrite Hlk. split; [done|].
           split; [lia|]. split; [done|]. split; [intros; lia|].
           intros _. cbn. lia.
    + (* a placeholder *)
      rewrite (IH (S index) prev); [| done | lia |].
      * cbn [known_from]. f_equal.
        unfold loop_body. by destruct (_ && _).
      * split.
        -- unfold loop_body. by destruct (_ && _).
        -- destruct prev as [[j s]|]; [|done].
           destruct Hprev as (Hj & Hs & Hbetween & Hub).
           specialize (Hub ltac:(by rewrite bool_decide_eq_true)).
           split; [lia|]. split; [done|]. split.
           ++ intros k Hk. destruct (decide (k = index)) as [->|]; [done|].
              apply Hbetween. lia.
           ++ intros Hmore. apply bool_decide_eq_true in Hmore.
              unfold loop_body. rewrite Hlk. cbn.
              rewrite bool_decide_eq_true_2; [cbn; lia|].
              destruct rest; [done|]. cbn in Hlen. lia.
Qed.

Lemma build_edge_segments_emitted (nodes : list (option Node)) (snr_values : list Q) :
  build_edge_segments nodes snr_values = emitted_segments nodes snr_values.
Proof.
  unfold build_edge_segments, emitted_segments, known_positions.
  rewrite (loop_emits nodes snr_values nodes 0%nat None initial_state); try done.
Qed.


Lemma known_from_app_placeholders (l : list (option Node)) (k : nat) :
  forall index, known_from index (l ++ replicate k None) = known_from index l.
Proof.
  induction l as [|[n|] l IH]; intros index; cbn.
  - revert index. induction k as [|k IHk]; intros index; cbn; [done|]. apply IHk.
  - by rewrite IH.
  - apply IH.
Qed.

Lemma known_from_bound (l : list (option Node)) :
  forall index,
    Forall (fun p => (fst p < index + length l)%nat) (known_from index l).
Proof.
  induction l as [|[n|] l IH]; intros index; cbn.
  - constructor.
  - constructor; [cbn; lia|].
    eapply Forall_impl; [apply (IH (S index))|]. cbn. intros; lia.
  - eapply Forall_impl; [apply (IH (S index))|]. cbn. intros; lia.
Qed.

Lemma consecutive_Forall_snd {A : Type} (P : A -> Prop) (l : list A) :
  Forall P l -> Forall (fun pq => P (snd pq)) (consecutive l).
Proof.
  induction 1 as [|a l Ha Hl IH]; [constructor|].
  destruct l as [|b l]; [constructor|].
  cbn. constructor; [|exact IH].
  cbn. by inversion Hl.
Qed.

Lemma placeholders_between_app (l l' : list (option Node)) (j i : nat) :
  (i <= length l)%nat ->
  placeholders_between (l ++ l') j i = placeholders_between l j i.
Proof.
  intros Hi. unfold placeholders_between.
  destruct (decide (S j <= length l)%nat) as [Hj|Hj].
  - rewrite drop_app_le by done.
    rewrite take_app_le; [done|]. rewrite length_drop. lia.
  - by replace (i - j - 1)%nat with 0%nat by lia.
Qed.

Lemma emitted_segments_trailing (nodes : list (option Node)) (snr_values : list Q)
    (k : nat) :
  emitted_segments (nodes ++ replicate k None) snr_values =
  emitted_segments nodes snr_values.
Proof.
  unfold emitted_segments, known_positions.
  rewrite known_from_app_placeholders. f_equal.
  apply map_ext_Forall.
  eapply Forall_impl;
    [apply consecutive_Forall_snd, (known_from_bound nodes 0%nat)|].
  intros [[j s] [i t]] Hi. cbn in Hi. unfold emitted_for.
  rewrite placeholders_between_app by lia. done.
Qed.

End SegmentFacts.

(** C1 (as amended). For every hop sequence and SNR list the builder emits,
    for each known node at index [i] with previous known node at index [j],
    what [emitted_for] says: with [hop_count] the number of placeholders
    between [j] and [i], the segment [(node j, node i, None, hop_count)] when
    [hop_count > 0]; the segment with the SNR value of index [j] attached when
    [hop_count = 0] and the SNR list has a value there; and no segment when
    [hop_count = 0] and the SNR list has no value at [j]. So [A; B; C] gives
    two segments with [hop_count = 0] when the SNR list has values at
    indices 0 and 1, and none when the SNR list is empty. *)
Theorem build_edge_segments_emission :
  (forall (nodes : list (option Node)) (snr_values : list Q),
     Segments.build_edge_segments nodes snr_values =
     Segments.emitted_segments nodes snr_values) /\
  (forall (A B C : Node) (v0 v1 : Q) (snr_values : list Q),
     Segments.build_edge_segments [Some A; Some B; Some C] (v0 :: v1 :: snr_values) =
     [(A, B, Some v0, 0%nat); (B, C, Some v1, 0%nat)]) /\
  (forall (A B C : Node),
     Segments.build_edge_segments [Some A; Some B; Some C] [] = []).
Proof.
  split; [exact build_edge_segments_emitted|]. split; reflexivity.
Qed.

(** With an empty SNR list the adjacent pairs of [A; B; C] are skipped. *)
Lemma build_edge_segments_no_snr_counterexample :
  Segments.build_edge_segments [Some node_A; Some node_B; Some node_C] [] = [] /\
  length (Segments.build_edge_segments [Some node_A; Some node_B; Some node_C] [])
    <> 2%nat.
Proof. split; [reflexivity | discriminate]. Qed.

(** C2. For every SNR list, [A; None; None; B] gives the single segment
    [(A, B, hop_count = 2)] without SNR, [None; A] gives no segment and
    [A; None] gives no segment; and placeholders after the last known node
    are dropped: appending any number of them to any hop sequence changes
    neither the segments nor their hop counts. *)
Theorem build_edge_segments_placeholders :
  (forall (A B : Node) (snr_values : list Q),
     Segments.build_edge_segments [Some A; None; None; Some B] snr_values =
     [(A, B, None, 2%nat)]) /\
  (forall (A : Node) (snr_values : list Q),
     Segments.build_edge_segments [None; Some A] snr_values = []) /\
  (forall (A : Node) (snr_values : list Q),
     Segments.build_edge_segments [Some A; None] snr_values = []) /\
  (forall (nodes : list (option Node)) (snr_values : list Q) (k : nat),
     Segments.build_edge_segments (nodes ++ replicate k None) snr_values =
     Segments.build_edge_segments nodes snr_values).
Proof.
  repeat split; try reflexivity.
  intros nodes snr_values k.
  rewrite !build_edge_segments_emitted. apply emitted_segments_trailing.
Qed.

(** ** Generic facts on table lookups and updates *)

Lemma first_where_update_where {A : Type} (p q : A -> bool) (f : A -> A)
    (rows : list A) :
  (forall x, p (f x) = p x) ->
  first_where p (update_where q f rows) =
  (fun x => if q x then f x else x) <$> first_where p rows.
Proof.
  intros Hp. unfold first_where, update_where.
  induction rows as [|x rows IH]; [done|].
  cbn. destruct (q x) eqn:Hq; rewrite ?Hp; destruct (p x); cbn; rewrite ?Hq; auto.
Qed.

Lemma first_where_holds {A : Type} (p : A -> bool) (rows : list A) (x : A) :
  first_where p rows = Some x -> p x = true /\ In x rows.
Proof.
  intros Hx. apply List.find_some in Hx. tauto.
Qed.

(** ** Probe correlation *)

Section ProbeFacts.
Context `{!External}.

Lemma latency_of_nonneg (t0 t1 : option Z) (ms : Z) :
  latency_of t0 t1 = Some ms -> 0 <= ms.
Proof.
  destruct t0, t1; cbn; intros [= <-]; lia.
Qed.

Lemma _update_latency_history_frame (node : Z) (pmid lat resp rt : option Z)
    (now : Z) (s : Store) :
  let s' := _update_latency_history node pmid lat resp rt now s in
  nodes s' = nodes s /\ packets s' = packets s /\ packet_data s' = packet_data s.
Proof.
  cbn. unfold _update_latency_history. by repeat case_match.
Qed.

Lemma publish_traceroute_success (svc svc' : PublisherService)
    (from_node' to_node' channel_name channel_aes_key : string)
    (hop_limit hop_start : Z) (want_ack : bool) (gateway_node : option string)
    (publisher : option PublishableInterface) (base_topic : option string)
    (record_pending : bool) (now : Z) (s s' : Store) (r : bool * option Z) :
  publish_traceroute svc from_node' to_node' channel_name channel_aes_key
    hop_limit hop_start want_ack gateway_node publisher base_topic
    record_pending now s = (svc', s', Ok r) ->
  fst r = true ->
  r = (true, Some (global_message_id svc + 1)) /\
  s' = (if record_pending
        then record_pending_probe to_node' (global_message_id svc + 1) now s
        else s).
Proof.
  unfold publish_traceroute. intros Hrun Hr.
  destruct (rbind _ _) as [[|]|e]; simplify_eq; cbn in *; done.
Qed.

Lemma record_pending_probe_history (to_node' : string) (mid now : Z)
    (s : Store) (target : Node) :
  first_node_with_id to_node' s = Some target ->
  latency_history (record_pending_probe to_node' mid now s) =
  latency_history s ++
  [{| h_pk := next_pk h_pk (latency_history s); h_node := node_num target;
      probe_message_id := Some mid; reachable := false;
      h_latency_ms := None; responded_at := None; h_time := now |}].
Proof.
  intros Ht. unfold record_pending_probe. by rewrite Ht.
Qed.

Lemma _process_probe_response_found (d : PacketData) (now rid : Z) (s : Store)
    (incoming orig : Packet) :
  pd_request_id d = Some rid ->
  packet_of d s = Some incoming ->
  find_request rid (from_node incoming) s = Some orig ->
  let s' := _process_probe_response d now s in
  let lat := latency_of (pkt_time orig) (pkt_time incoming) in
  packets s' =
    update_where (fun p => bool_decide (pkt_pk p = pkt_pk orig))
                 (with_ackd (Some true)) (packets s) /\
  packet_data s' =
    update_where (fun r => bool_decide (pd_packet r = pkt_pk orig))
                 with_got_response (packet_data s) /\
  nodes s' =
    update_where (has_node_num (to_node orig)) (with_latency (Some true) lat)
                 (nodes s).
Proof.
  intros Hrid Hin Horig. cbn. unfold _process_probe_response.
  rewrite Hrid, Hin, Horig.
  pose proof (_update_latency_history_frame (to_node orig) (packet_id orig)
    (latency_of (pkt_time orig) (pkt_time incoming))
    (Some (default now (pkt_time incoming))) (pkt_time orig) now
    (update_node_latency (to_node orig) (Some true)
       (latency_of (pkt_time orig) (pkt_time incoming))
       (mark_ackd (pkt_pk orig) (mark_got_response (pkt_pk orig) s))))
    as (Hn & Hp & Hd).
  cbn in Hn, Hp, Hd. rewrite Hn, Hp, Hd. done.
Qed.

End ProbeFacts.



(** ** Reactive rate limiting *)

Lemma should_inject_fresh (svc : PublisherService) (node : string)
    (max_tries now : Z) :
  node <> "" -> 0 < max_tries -> fresh_window svc node now ->
  _should_inject_for_node svc node max_tries now =
  (with_attempts
     (<[node := {| count := 1; first := Some now; last := now |}]>
        (_reactive_attempts svc)) svc, true).
Proof.
  intros Hnode Hmax Hfresh. unfold _should_inject_for_node, fresh_window in *.
  rewrite bool_decide_eq_false_2 by done.
  rewrite bool_decide_eq_false_2 by lia.
  destruct (_reactive_attempts svc !! node) as [data|]; [|done].
  destruct (first data) as [f|]; [|done].
  by rewrite bool_decide_eq_true_2.
Qed.

Lemma should_inject_within (svc : PublisherService) (node : string)
    (max_tries now : Z) (data : Attempt) (f : Z) :
  node <> "" ->
  _reactive_attempts svc !! node = Some data ->
  first data = Some f ->
  now - f < _attempt_window svc ->
  count data < max_tries ->
  0 < max_tries ->
  _should_inject_for_node svc node max_tries now =
  (with_attempts
     (<[node := {| count := count data + 1; first := Some f; last := now |}]>
        (_reactive_attempts svc)) svc, true).
Proof.
  intros Hnode Hdata Hfirst Hwin Hcount Hmax. unfold _should_inject_for_node.
  rewrite bool_decide_eq_false_2 by done.
  rewrite bool_decide_eq_false_2 by lia.
  rewrite Hdata, Hfirst.
  rewrite bool_decide_eq_false_2 by lia.
  by rewrite bool_decide_eq_true_2 by lia.
Qed.

Lemma should_inject_suppressed (svc : PublisherService) (node : string)
    (max_tries now : Z) (data : Attempt) (f : Z) :
  _reactive_attempts svc !! node = Some data ->
  first data = Some f ->
  now - f < _attempt_window svc ->
  Z.max 0 max_tries <= count data ->
  _should_inject_for_node svc node max_tries now = (svc, false).
Proof.
  intros Hdata Hfirst Hwin Hcount. unfold _should_inject_for_node.
  repeat case_bool_decide; try done.
  rewrite Hdata, Hfirst.
  rewrite bool_decide_eq_false_2 by lia.
  by rewrite bool_decide_eq_false_2 by lia.
Qed.

(** C4. With [max_tries = 2] and window [W]: of three triggers for one node
    within [W] of the first, the first two are allowed and the third is
    suppressed and leaves the tracking map as it is; a fourth trigger once
    [W] has elapsed since the first is allowed and resets the entry to
    [{count = 1, first = last = now}]. In general, while the window of an
    entry is open and its count has reached [max_tries], a trigger is
    suppressed and changes nothing. *)
Theorem reactive_rate_limiting (svc : PublisherService) (node : string)
    (t1 t2 t3 t4 : Z) :
  node <> "" ->
  fresh_window svc node t1 ->
  t2 - t1 < _attempt_window svc ->
  t3 - t1 < _attempt_window svc ->
  _attempt_window svc <= t4 - t1 ->
  let r1 := _should_inject_for_node svc node 2 t1 in
  let r2 := _should_inject_for_node r1.1 node 2 t2 in
  let r3 := _should_inject_for_node r2.1 node 2 t3 in
  let r4 := _should_inject_for_node r3.1 node 2 t4 in
  (r1.2 = true /\ r2.2 = true /\ r3.2 = false /\ r4.2 = true) /\
  _reactive_attempts r2.1 !! node
    = Some {| count := 2; first := Some t1; last := t2 |} /\
  r3.1 = r2.1 /\
  _reactive_attempts r4.1 !! node
    = Some {| count := 1; first := Some t4; last := t4 |} /\
  (forall (svc0 : PublisherService) (max_tries now : Z) (data : Attempt) (f : Z),
     _reactive_attempts svc0 !! node = Some data ->
     first data = Some f ->
     now - f < _attempt_window svc0 ->
     Z.max 0 max_tries <= count data ->
     _should_inject_for_node svc0 node max_tries now = (svc0, false)).
Proof.
  intros Hnode Hfresh H2 H3 H4. cbn zeta.
  rewrite (should_inject_fresh svc node 2 t1) by (done || lia). cbn [fst snd].
  rewrite (should_inject_within _ node 2 t2 {| count := 1; first := Some t1; last := t1 |} t1);
    [| done | apply lookup_insert_eq | done | done | cbn; lia | lia].
  cbn [fst snd count first _reactive_attempts with_attempts].
  rewrite insert_insert_eq.
  rewrite (should_inject_suppressed _ node 2 t3 {| count := 2; first := Some t1; last := t2 |} t1);
    [| apply lookup_insert_eq | done | done | cbn; lia].
  cbn [fst snd].
  rewrite (should_inject_fresh _ node 2 t4); [| done | lia |].
  - cbn [fst snd _reactive_attempts with_attempts].
    rewrite !lookup_insert_eq.
    repeat split; try done.
    intros svc0 max_tries now data f. apply should_inject_suppressed.
  - unfold fresh_window. cbn [_reactive_attempts with_attempts _attempt_window].
    rewrite lookup_insert_eq. cbn. done.
Qed.

Lemma reactive_rate_limiting_witness :
  "!00000002" <> "" /\
  fresh_window example_service "!00000002" 0 /\
  seconds 10 - 0 < _attempt_window example_service /\
  seconds 20 - 0 < _attempt_window example_service /\
  _attempt_window example_service <= seconds 900 - 0 /\
  let r1 := _should_inject_for_node example_service "!00000002" 2 0 in
  let r2 := _should_inject_for_node r1.1 "!00000002" 2 (seconds 10) in
  let r3 := _should_inject_for_node r2.1 "!00000002" 2 (seconds 20) in
  let r4 := _should_inject_for_node r3.1 "!00000002" 2 (seconds 900) in
  r1.2 = true /\ r2.2 = true /\ r3.2 = false /\ r4.2 = true.
Proof.
  assert (H0 : "!00000002" <> "") by discriminate.
  assert (H1 : fresh_window example_service "!00000002" 0) by exact I.
  assert (H2 : seconds 10 - 0 < _attempt_window example_service) by reflexivity.
  assert (H3 : seconds 20 - 0 < _attempt_window example_service) by reflexivity.
  assert (H4 : _attempt_window example_service <= seconds 900 - 0) by discriminate.
  repeat (split; [assumption|]).
  exact (proj1 (reactive_rate_limiting example_service "!00000002"
                  0 (seconds 10) (seconds 20) (seconds 900) H0 H1 H2 H3 H4)).
Defined.

(** ** Inbound envelopes: the direct edge and the decryption key *)

Lemma first_where_replace {A : Type} (p : A -> bool) (row x : A) (rows : list A) :
  first_where p rows = Some x -> p row = true ->
  first_where p (update_where p (fun _ => row) rows) = Some row.
Proof.
  unfold first_where, update_where. intros Hx Hrow.
  induction rows as [|y rows IH]; [done|].
  cbn in *. destruct (p y) eqn:Hy.
  - by rewrite Hrow.
  - rewrite Hy. auto.
Qed.

Lemma first_where_append {A : Type} (p : A -> bool) (row : A) (rows : list A) :
  first_where p rows = None -> p row = true ->
  first_where p (rows ++ [row]) = Some row.
Proof.
  unfold first_where. intros Hnone Hrow.
  induction rows as [|y rows IH]; cbn in *.
  - by rewrite Hrow.
  - destruct (p y); [done|]. auto.
Qed.

Lemma find_edge_upsert_edge (src tgt : Z) (pkt : option nat) (rssi : option Z)
    (snr : option Q) (hops : option Z) (s : Store) :
  find_edge src tgt (upsert_edge src tgt pkt rssi snr hops s) =
  Some {| source_node := src; target_node := tgt; last_packet := pkt;
          last_rx_rssi := rssi; last_rx_snr := snr; last_hops := hops |}.
Proof.
  unfold find_edge, upsert_edge.
  assert (Hrow : same_edge src tgt
            {| source_node := src; target_node := tgt; last_packet := pkt;
               last_rx_rssi := rssi; last_rx_snr := snr; last_hops := hops |} = true).
  { unfold same_edge. cbn. by rewrite !bool_decide_eq_true_2. }
  destruct (first_where (same_edge src tgt) (edges s)) as [e|] eqn:He; cbn.
  - by apply (first_where_replace _ _ e).
  - by apply first_where_append.
Qed.

Section InboundFacts.
Context `{!External}.
Variable handle_port : Z -> bytes -> PacketData -> Z -> Store -> Store * result unit.

Lemma _get_or_update_node_num (n : Z) (nid mac : option string) (s : Store) :
  node_num (_get_or_update_node n nid mac s).2 = n.
Proof.
  unfold _get_or_update_node.
  destruct (first_where (has_node_num n) (nodes s)) as [node|] eqn:Hnode; [|done].
  apply first_where_holds in Hnode as [Hn _].
  apply bool_decide_eq_true in Hn.
  cbn. repeat case_match; cbn; done.
Qed.

Lemma compute_hops_delta (hop_limit hop_start : Z) :
  compute_hops (Some hop_limit) (Some hop_start) = hop_start - hop_limit.
Proof. reflexivity. Qed.


Lemma handle_packet_symmetric (packet : MeshPacket) (packet_obj : Packet)
    (k : string) (now : Z) (s : Store) (c : bytes) :
  mp_payload packet = Encrypted c ->
  (handle_packet handle_port packet packet_obj (Some k) false now s).2.1 =
  PathSymmetric k (bool_decide (is_Some (decrypt_packet packet k))).
Proof.
  intros Hc. unfold handle_packet. rewrite Hc. cbn [negb].
  destruct (decrypt_packet packet k) as [data|].
  - rewrite bool_decide_eq_true_2 by eauto.
    by destruct (handle_decoded_packet _ _ _ _ _) as [s1 [n|e]].
  - rewrite bool_decide_eq_false_2 by (intros [? ?]; done). done.
Qed.

Lemma handle_packet_no_key (packet : MeshPacket) (packet_obj : Packet)
    (key : option string) (pki : bool) (now : Z) (s : Store) :
  (handle_packet handle_port packet packet_obj key pki now s).2.1 = PathNoKey ->
  key = None.
Proof.
  unfold handle_packet. unfold finish_packet.
  repeat (case_match; cbn [fst snd]); simplify_eq; try done.
Qed.

End InboundFacts.



Section DecryptionFacts.
Context `{!External}.
Variable handle_port : Z -> bytes -> PacketData -> Z -> Store -> Store * result unit.

(** C10. An encrypted envelope that is not PKI traffic and whose channel
    row has no key (null or empty [psk]) is handed to the symmetric
    decryption with the key ["AQ=="]. [handle_packet] reaches its "no key
    provided" branch only when its key argument is [None], and [on_message]
    never passes [None]. *)
Theorem default_key_decryption (interface : Interface) (normalized : Normalized)
    (now : Z) (s s7 : Store) (packet_obj : Packet) (channel : Channel)
    (c : bytes) :
  on_message_upserts interface normalized now s
    = Ok (s7, packet_obj, channel, false) ->
  mp_payload (n_packet normalized) = Encrypted c ->
  psk channel ≫= nonempty = None ->
  (exists r,
     (on_message handle_port interface normalized now s).2 =
     Handled (PathSymmetric "AQ=="
                (bool_decide (is_Some (decrypt_packet (n_packet normalized) "AQ=="))))
             r) /\
  (forall packet packet_obj' key pki now' s',
     (handle_packet handle_port packet packet_obj' key pki now' s').2.1 = PathNoKey ->
     key = None) /\
  (forall interface' normalized' now' s' r,
     (on_message handle_port interface' normalized' now' s').2 <> Handled PathNoKey r).
Proof.
  intros Hups Hc Hpsk. split; [|split].
  - unfold on_message. rewrite Hups.
    assert (Hkey : channel_key channel = Some "AQ==").
    { unfold channel_key. by rewrite Hpsk. }
    rewrite Hkey.
    pose proof (handle_packet_symmetric handle_port (n_packet normalized)
                  packet_obj "AQ==" now s7 c Hc) as Hpath.
    destruct (handle_packet _ _ _ _ _ _ _) as [s8 [path r]].
    cbn in *. subst path. by exists r.
  - intros. by eapply handle_packet_no_key.
  - intros interface' normalized' now' s' r. unfold on_message.
    destruct (on_message_upserts interface' normalized' now' s')
      as [[[[s7' po] ch] pki]|e]; [|done].
    pose proof (handle_packet_no_key handle_port (n_packet normalized') po
                  (channel_key ch) pki now' s7') as Hnone.
    destruct (handle_packet _ _ _ _ _ _ _) as [s8 [path r']].
    cbn in *. intros Heq. simplify_eq. by specialize (Hnone eq_refl).
Qed.

End DecryptionFacts.

Lemma default_key_decryption_witness :
  mp_payload (n_packet example_inbound) = Encrypted [Byte.x01; Byte.x02] /\
  exists r,
    (@on_message example_external example_handle_port example_mqtt example_inbound
       0 example_store).2 =
    Handled (PathSymmetric "AQ==" false) r.
Proof.
  split; [reflexivity|].
  destruct (@default_key_decryption example_external example_handle_port
              example_mqtt example_inbound 0 example_store _ _ _
              [Byte.x01; Byte.x02] eq_refl eq_refl eq_refl)
    as [[r Hr] _].
  exists r. exact Hr.
Defined.

(** ** Envelope crafting *)

Section CrafterFacts.
Context `{!External}.

Lemma rbind_Ok {A B : Type} (r : result A) (k : A -> result B) (b : B) :
  rbind r k = Ok b -> exists a, r = Ok a /\ k a = Ok b.
Proof. destruct r as [a|e]; cbn; [eauto | done]. Qed.

Lemma rbind_Raise {A B : Type} (r : result A) (k : A -> result B) :
  (forall a, exists e, k a = Raise e) -> exists e, rbind r k = Raise e.
Proof. intros Hk. destruct r as [a|e]; cbn; eauto. Qed.

Lemma uint32_Ok (v w : Z) : uint32 v = Ok w -> w = v.
Proof. unfold uint32. case_bool_decide; congruence. Qed.


End CrafterFacts.


(** ** Outbound publish *)

Example publish_topic_with_gateway :
  @_get_publish_topic example_external (Some "msh/US/2/e/") (Some "!00000001")
    (Some "/LongFast/")
  = "msh/US/2/e/LongFast/!00000001".
Proof. reflexivity. Qed.

Example publish_topic_default_root :
  @_get_publish_topic example_external None None (Some "LongFast") = "msh".
Proof. reflexivity. Qed.

Section PublishFacts.
Context `{!External}.

(** C7 (as amended). When the publisher in force (the explicit one, else
    the service's default) is not connected, [publish] returns [false] and
    does not raise; when there is no publisher at all, [publish] raises. *)
Theorem publish_without_connection (svc : PublisherService) (payload' : bytes)
    (gateway_node channel_name : option string)
    (publisher : option PublishableInterface) (base_topic : option string)
    (p : PublishableInterface) :
  (publisher = Some p \/ (publisher = None /\ _publisher svc = Some p)) ->
  is_connected p = false ->
  publish svc payload' gateway_node channel_name publisher base_topic = Ok false /\
  (forall svc0,
     _publisher svc0 = None ->
     publish svc0 payload' gateway_node channel_name None base_topic
     = Raise "RuntimeError: No publisher configured for PublisherService").
Proof.
  intros Hactive Hdown. split.
  - unfold publish.
    destruct Hactive as [-> | [-> ->]]; by rewrite Hdown.
  - intros svc0 Hnone. unfold publish. by rewrite Hnone.
Qed.

End PublishFacts.

Lemma publish_without_connection_witness :
  is_connected example_disconnected = false /\
  @publish example_external example_service [] None (Some "LongFast")
    (Some example_disconnected) None = Ok false.
Proof.
  split; [reflexivity|].
  exact (proj1 (@publish_without_connection example_external example_service []
                  None (Some "LongFast") (Some example_disconnected) None
                  example_disconnected (or_introl eq_refl) eq_refl)).
Defined.

(** Without any publisher the call raises instead of returning [false]. *)
Lemma publish_without_publisher_counterexample :
  @publish example_external example_service_without_publisher [] None
    (Some "LongFast") None None
  = Raise "RuntimeError: No publisher configured for PublisherService" /\
  @publish example_external example_service_without_publisher [] None
    (Some "LongFast") None None <> Ok false.
Proof. split; [reflexivity | discriminate]. Qed.

(** ** Node-info payloads *)

Section NodeInfoFacts.
Context `{!External}.

Lemma nodes_upsert_nodeinfo_payload (row : NodeInfoPayload) (s : Store) :
  nodes (upsert_nodeinfo_payload row s) = nodes s.
Proof. unfold upsert_nodeinfo_payload. by case_match. Qed.

(** The public key column that [handle_nodeinfo] writes. *)
Lemma handle_nodeinfo_nodes (payload' : bytes) (d : PacketData) (s : Store)
    (user : User) (num : Z) (node : Node) :
  parse_user payload' = Ok user ->
  id_to_num (user_id user) = Ok num ->
  first_where (has_node_num num) (nodes s) = Some node ->
  nodes (handle_nodeinfo payload' d s).1 =
  update_where (has_node_num num)
    (fun _ =>
       {| node_num := node_num node; node_id := node_id node;
          mac_address :=
            match nonempty (str_upper (num_to_mac num)) with
            | Some m => Some m
            | None => mac_address node
            end;
          long_name := nonempty (user_long_name user);
          short_name := nonempty (user_short_name user);
          hw_model := hw_num_to_model (user_hw_model user) ≫= nonempty;
          role := Some (default "CLIENT"
                          (role_num_ro_role (user_role user) ≫= nonempty));
          public_key :=
            (if bool_decide (user_public_key user = []) then None
             else Some (b64encode (user_public_key user))) ≫= nonempty;
          latency_reachable := latency_reachable node;
          latency_ms := latency_ms node |})
    (nodes s).
Proof.
  intros Hparse Hnum Hnode. unfold handle_nodeinfo.
  rewrite Hparse, Hnum. rewrite nodes_upsert_nodeinfo_payload, Hnode.
  repeat case_match; cbn; by rewrite ?nodes_upsert_nodeinfo_payload.
Qed.

(** C9. When a node-info payload is processed and the node it names is
    already stored, the node's [long_name], [short_name], [hw_model] and
    [public_key] are overwritten from the payload, each with null when the
    payload's value is empty, whatever was stored before; a payload without
    a public key leaves the node with no public key. *)
Theorem handle_nodeinfo_overwrites (payload' : bytes) (d : PacketData)
    (s : Store) (user : User) (num : Z) (node : Node) :
  parse_user payload' = Ok user ->
  id_to_num (user_id user) = Ok num ->
  first_where (has_node_num num) (nodes s) = Some node ->
  exists node',
    first_where (has_node_num num) (nodes (handle_nodeinfo payload' d s).1)
      = Some node' /\
    long_name node' = nonempty (user_long_name user) /\
    short_name node' = nonempty (user_short_name user) /\
    hw_model node' = hw_num_to_model (user_hw_model user) ≫= nonempty /\
    public_key node' =
      (if bool_decide (user_public_key user = []) then None
       else nonempty (b64encode (user_public_key user))) /\
    (user_long_name user = "" -> long_name node' = None) /\
    (user_short_name user = "" -> short_name node' = None) /\
    (user_public_key user = [] -> public_key node' = None).
Proof.
  intros Hparse Hnum Hnode.
  rewrite (handle_nodeinfo_nodes payload' d s user num node Hparse Hnum Hnode).
  eexists. split.
  - eapply first_where_replace; [exact Hnode|].
    apply first_where_holds in Hnode as [Hn _]. exact Hn.
  - cbn. repeat split.
    + by case_bool_decide.
    + by intros ->.
    + by intros ->.
    + by intros ->.
Qed.

End NodeInfoFacts.

Lemma handle_nodeinfo_overwrites_witness :
  first_where (has_node_num 2) (nodes example_store_with_key)
    = Some node_B_with_key /\
  public_key node_B_with_key = Some "c3RvcmVkIGtleQ==" /\
  exists node',
    first_where (has_node_num 2)
      (nodes (@handle_nodeinfo example_external [] example_nodeinfo_data
                example_store_with_key).1) = Some node' /\
    public_key node' = None.
Proof.
  split; [reflexivity|]. split; [reflexivity|].
  destruct (@handle_nodeinfo_overwrites example_external [] example_nodeinfo_data
              example_store_with_key example_user 2 node_B_with_key
              eq_refl eq_refl eq_refl)
    as (node' & Hfind & _ & _ & _ & _ & _ & _ & Hkey).
  exists node'. split; [exact Hfind | exact (Hkey eq_refl)].
Defined.

(** ** Periodic jobs *)

Lemma first_where_fmap {A : Type} (p : A -> bool) (f : A -> A) (rows : list A) :
  (forall x, p (f x) = p x) ->
  first_where p (map f rows) = f <$> first_where p rows.
Proof.
  intros Hp. unfold first_where.
  induction rows as [|x rows IH]; [done|].
  cbn. rewrite Hp. destruct (p x); cbn; auto.
Qed.

Lemma submseteq_NoDup {A : Type} (l k : list A) : l ⊆+ k -> NoDup k -> NoDup l.
Proof.
  intros Hsub Hk. apply submseteq_sublist_l in Hsub as (k' & Hsl & Hperm).
  eapply sublist_NoDup; [|exact Hsl]. by rewrite Hperm.
Qed.

Lemma next_run_at_with_run (now : Z) (st : RunStatus) (msg : string)
    (jobs : list PublisherPeriodicJob) (p : PublisherPeriodicJob -> bool) :
  next_run_at <$> update_where p (with_run now st msg) jobs = next_run_at <$> jobs.
Proof.
  unfold update_where. induction jobs as [|j jobs IH]; [done|].
  cbn. rewrite <- IH. by destruct (p j).
Qed.

Lemma insert_by_next_run_Permutation (job : PublisherPeriodicJob)
    (sorted : list PublisherPeriodicJob) :
  insert_by_next_run job sorted ≡ₚ job :: sorted.
Proof.
  induction sorted as [|j rest IH]; [done|].
  cbn. case_bool_decide; [done|].
  rewrite IH. apply Permutation_swap.
Qed.

Lemma order_by_next_run_Permutation (jobs : list PublisherPeriodicJob) :
  order_by_next_run jobs ≡ₚ jobs.
Proof.
  unfold order_by_next_run. rewrite <- (reverse_Permutation jobs) at 2.
  induction (reverse jobs) as [|j rest IH]; [done|].
  cbn. rewrite insert_by_next_run_Permutation. by rewrite IH.
Qed.

Lemma due_jobs_submseteq (now : Z) (jobs : list PublisherPeriodicJob) :
  due_jobs now jobs ⊆+ jobs.
Proof.
  unfold due_jobs.
  etrans; [apply submseteq_take|].
  rewrite order_by_next_run_Permutation.
  apply sublist_submseteq, sublist_filter.
Qed.

Lemma foldl_claim (now : Z) (due table : list PublisherPeriodicJob) :
  foldl (fun table job =>
           update_where (has_job_pk (job_pk job))
             (with_next_run (now + get_period_timedelta job)) table)
        table due
  = map (claim_row now due) table.
Proof.
  revert table. induction due as [|j due IH]; intros table.
  - cbn. unfold claim_row. cbn. by rewrite map_id.
  - cbn [foldl]. rewrite IH. unfold update_where. rewrite map_map.
    apply map_ext. intros r. unfold claim_row. cbn [foldl]. done.
Qed.

Lemma claim_row_frame (now : Z) (due : list PublisherPeriodicJob)
    (row : PublisherPeriodicJob) :
  with_next_run 0 (claim_row now due row) = with_next_run 0 row /\
  job_pk (claim_row now due row) = job_pk row.
Proof.
  unfold claim_row. revert row. induction due as [|j due IH]; intros row; [done|].
  cbn [foldl]. destruct (has_job_pk (job_pk j) row).
  - destruct (IH (with_next_run (now + get_period_timedelta j) row)) as [-> ->]. done.
  - apply IH.
Qed.

Lemma claim_row_other (now : Z) (due : list PublisherPeriodicJob)
    (row : PublisherPeriodicJob) :
  job_pk row ∉ job_pk <$> due -> claim_row now due row = row.
Proof.
  unfold claim_row. revert row. induction due as [|j due IH]; intros row Hnot; [done|].
  cbn [foldl]. rewrite fmap_cons, not_elem_of_cons in Hnot. destruct Hnot as [Hne Hnot].
  destruct (has_job_pk (job_pk j) row) eqn:Hpk; [|by apply IH].
  apply bool_decide_eq_true in Hpk. done.
Qed.

Lemma claim_row_due (now : Z) (due : list PublisherPeriodicJob)
    (row : PublisherPeriodicJob) :
  NoDup (job_pk <$> due) -> row ∈ due ->
  claim_row now due row = with_next_run (now + get_period_timedelta row) row.
Proof.
  revert row. induction due as [|j due IH]; intros row Hnodup Hin.
  - by apply elem_of_nil in Hin.
  - rewrite fmap_cons in Hnodup. apply NoDup_cons in Hnodup as [Hj Hnodup].
    apply elem_of_cons in Hin as [->|Hin].
    + unfold claim_row. cbn [foldl].
      destruct (has_job_pk (job_pk j) j) eqn:Hpk.
      * by apply (claim_row_other now due (with_next_run _ j)).
      * apply bool_decide_eq_false in Hpk. done.
    + unfold claim_row. cbn [foldl].
      destruct (has_job_pk (job_pk j) row) eqn:Hpk.
      * apply bool_decide_eq_true in Hpk. exfalso. apply Hj.
        rewrite <- Hpk. by apply list_elem_of_fmap_2.
      * by apply IH.
Qed.

Lemma first_where_unique_pk (jobs : list PublisherPeriodicJob)
    (job : PublisherPeriodicJob) :
  NoDup (job_pk <$> jobs) -> job ∈ jobs ->
  first_where (has_job_pk (job_pk job)) jobs = Some job.
Proof.
  unfold first_where. induction jobs as [|j jobs IH]; intros Hnodup Hin.
  - by apply elem_of_nil in Hin.
  - rewrite fmap_cons in Hnodup. apply NoDup_cons in Hnodup as [Hj Hnodup].
    cbn. apply elem_of_cons in Hin as [->|Hin].
    + unfold has_job_pk. by rewrite bool_decide_eq_true_2.
    + destruct (has_job_pk (job_pk job) j) eqn:Hpk; [|by apply IH].
      apply bool_decide_eq_true in Hpk. exfalso. apply Hj.
      rewrite Hpk. by apply list_elem_of_fmap_2.
Qed.

Section PeriodicFacts.
Context `{!External}.
Variable publish_text_message :
  string -> bool -> BaseKwargs -> PublisherService -> Store ->
  PublisherService * Store * result bool.
Variable publish_position :
  Q -> Q -> Q -> bool -> bool -> BaseKwargs -> PublisherService -> Store ->
  PublisherService * Store * result bool.
Variable publish_nodeinfo :
  string -> string -> Z -> string -> BaseKwargs -> PublisherService -> Store ->
  PublisherService * Store * result bool.
Variable publish_telemetry :
  string -> list (string * Q) -> bool -> bool -> BaseKwargs ->
  PublisherService -> Store -> PublisherService * Store * result bool.
Variable resolve_publish_context :
  nat -> option PublishableInterface * option string * option string.

Lemma execute_periodic_publish_job_outcome (job_id : nat) (now : Z)
    (jobs : list PublisherPeriodicJob) (svc : PublisherService) (s : Store)
    (job : PublisherPeriodicJob) :
  first_where (has_job_pk job_id) jobs = Some job ->
  let run :=
    execute_periodic_publish_job publish_text_message publish_position
      publish_nodeinfo publish_telemetry resolve_publish_context
      job_id now jobs svc s in
  exists status msg,
    (status = SUCCESS \/ status = ERROR \/ status = SKIPPED) /\
    run.1.1.1 = update_where (has_job_pk job_id) (with_run now status msg) jobs /\
    (status = SKIPPED <-> enabled job = false) /\
    (run.2 = true <-> status = SUCCESS).
Proof.
  intros Hjob. cbn zeta. unfold execute_periodic_publish_job. rewrite Hjob.
  destruct (first_where_holds _ _ _ Hjob) as [Hpk _].
  apply bool_decide_eq_true in Hpk.
  unfold mark_skipped, mark_failure, mark_success. rewrite Hpk.
  destruct (enabled job) eqn:Hen; cbn [negb].
  - destruct (match interface_id job with
              | Some i => if bool_decide (i = 0%nat) then (None, None, None)
                          else resolve_publish_context i
              | None => (None, None, None)
              end) as [[publisher base_topic] err].
    destruct (err ≫= nonempty) as [e|].
    + exists ERROR, (String.substring 0 2048 e). cbn. naive_solver.
    + destruct (execute_periodic_job _ _ _ _ _ _ _ _ _ _) as [[svc' s'] [[|]|exc]].
      * exists SUCCESS, "". cbn. naive_solver.
      * exists ERROR, (String.substring 0 2048 "Publisher publish returned False").
        cbn. naive_solver.
      * exists ERROR, (String.substring 0 2048 exc). cbn. naive_solver.
  - exists SKIPPED, "Job disabled". cbn. naive_solver.
Qed.


End PeriodicFacts.


(** * Further properties of the modelled code *)

(** ** Table lookups and replacements *)

Lemma first_where_None_Forall {A : Type} (p : A -> bool) (rows : list A) :
  first_where p rows = None -> Forall (fun x => p x = false) rows.
Proof.
  unfold first_where. induction rows as [|x rows IH]; [constructor|].
  cbn. destruct (p x) eqn:Hx; [done|]. intros Hnone. constructor; auto.
Qed.

Lemma update_where_none {A : Type} (p : A -> bool) (f : A -> A) (rows : list A) :
  Forall (fun x => p x = false) rows -> update_where p f rows = rows.
Proof.
  unfold update_where. induction 1 as [|x rows Hx _ IH]; [done|].
  cbn. by rewrite Hx, IH.
Qed.

Lemma update_where_const_twice {A : Type} (p : A -> bool) (x : A) (rows : list A) :
  update_where p (fun _ => x) (update_where p (fun _ => x) rows)
  = update_where p (fun _ => x) rows.
Proof.
  unfold update_where. induction rows as [|y rows IH]; [done|].
  cbn. rewrite IH. destruct (p y) eqn:Hy; [|by rewrite Hy].
  by destruct (p x).
Qed.

Lemma update_where_length {A : Type} (p : A -> bool) (f : A -> A) (rows : list A) :
  length (update_where p f rows) = length rows.
Proof. unfold update_where. apply length_map. Qed.

Lemma first_where_update_other {A : Type} (p q : A -> bool) (x : A) (rows : list A) :
  q x = false -> (forall y, p y = true -> q y = false) ->
  first_where q (update_where p (fun _ => x) rows) = first_where q rows.
Proof.
  intros Hx Hdisj. unfold first_where, update_where.
  induction rows as [|y rows IH]; [done|].
  cbn. destruct (p y) eqn:Hy.
  - rewrite Hx, (Hdisj y Hy). exact IH.
  - destruct (q y); [done | exact IH].
Qed.

Lemma first_where_snoc_other {A : Type} (q : A -> bool) (x : A) (rows : list A) :
  q x = false -> first_where q (rows ++ [x]) = first_where q rows.
Proof.
  intros Hx. unfold first_where. induction rows as [|y rows IH]; cbn.
  - by rewrite Hx.
  - destruct (q y); [done | exact IH].
Qed.

Lemma set_nodes_same (s : Store) : set_nodes (nodes s) s = s.
Proof. by destruct s. Qed.

(** ** [_get_or_update_node] *)

Section NodeUpsertFacts.
Context `{!External}.

Lemma _get_or_update_node_found (n : Z) (nid mac : option string) (s : Store) :
  first_where (has_node_num n) (nodes (_get_or_update_node n nid mac s).1)
  = Some (_get_or_update_node n nid mac s).2.
Proof.
  pose proof (_get_or_update_node_num n nid mac s) as Hnum.
  unfold _get_or_update_node in *.
  destruct (first_where (has_node_num n) (nodes s)) as [node|] eqn:Hnode.
  - cbn [fst snd nodes set_nodes] in *.
    eapply first_where_replace; [exact Hnode|].
    unfold has_node_num. by rewrite bool_decide_eq_true_2.
  - cbn [fst snd nodes set_nodes] in *.
    apply first_where_append; [exact Hnode|].
    unfold has_node_num. by rewrite bool_decide_eq_true_2.
Qed.

Lemma _get_or_update_node_other (n m : Z) (nid mac : option string) (s : Store) :
  m <> n ->
  first_where (has_node_num m) (nodes (_get_or_update_node n nid mac s).1)
  = first_where (has_node_num m) (nodes s).
Proof.
  intros Hne.
  pose proof (_get_or_update_node_num n nid mac s) as Hnum.
  unfold _get_or_update_node in *.
  destruct (first_where (has_node_num n) (nodes s)) as [node|] eqn:Hnode;
    cbn [fst snd nodes set_nodes] in *.
  - apply first_where_update_other.
    + unfold has_node_num. rewrite bool_decide_eq_false_2; [done | congruence].
    + intros y Hy. apply bool_decide_eq_true in Hy. unfold has_node_num.
      rewrite bool_decide_eq_false_2; [done | congruence].
  - apply first_where_snoc_other.
    unfold has_node_num. cbn. rewrite bool_decide_eq_false_2; [done | congruence].
Qed.

Lemma _get_or_update_node_tables (n : Z) (nid mac : option string) (s : Store) :
  let s' := (_get_or_update_node n nid mac s).1 in
  packets s' = packets s /\ packet_data s' = packet_data s /\
  nodeinfo_payloads s' = nodeinfo_payloads s /\ edges s' = edges s /\
  latency_history s' = latency_history s /\ channels s' = channels s.
Proof.
  cbn zeta. unfold _get_or_update_node.
  destruct (first_where (has_node_num n) (nodes s)); done.
Qed.

Lemma _get_or_update_node_identity (n : Z) (nid mac : option string) (s : Store) :
  (forall i, nid = Some i -> node_id (_get_or_update_node n nid mac s).2 = Some i) /\
  (forall m, (mac ≫= nonempty) = Some m ->
             mac_address (_get_or_update_node n nid mac s).2 = Some (str_upper m)).
Proof.
  unfold _get_or_update_node.
  destruct (first_where (has_node_num n) (nodes s)) as [node|]; cbn [snd].
  - split.
    + intros i ->. destruct (mac ≫= nonempty) as [m|]; cbn;
        repeat case_bool_decide; cbn; done.
    + intros m ->. cbn. repeat case_match; cbn; try done;
        repeat case_bool_decide; simplify_eq; done.
  - split.
    + by intros i ->.
    + by intros m ->.
Qed.

(** X1. After [_get_or_update_node] the node is stored under its number:
    looking the number up gives the node that was returned, which carries
    the supplied id and the upper-cased MAC. Nodes with other numbers are
    found as before, at most one row is added (none when the number was
    already stored), and no other table changes. *)
Theorem get_or_update_node_lookup (n : Z) (nid mac : option string) (s : Store) :
  let r := _get_or_update_node n nid mac s in
  first_where (has_node_num n) (nodes r.1) = Some r.2 /\
  node_num r.2 = n /\
  (forall i, nid = Some i -> node_id r.2 = Some i) /\
  (forall m, (mac ≫= nonempty) = Some m -> mac_address r.2 = Some (str_upper m)) /\
  (forall m, m <> n ->
     first_where (has_node_num m) (nodes r.1) = first_where (has_node_num m) (nodes s)) /\
  length (nodes r.1) =
    (length (nodes s) +
     (if first_where (has_node_num n) (nodes s) is Some _ then 0 else 1))%nat /\
  packets r.1 = packets s /\ packet_data r.1 = packet_data s /\
  nodeinfo_payloads r.1 = nodeinfo_payloads s /\ edges r.1 = edges s /\
  latency_history r.1 = latency_history s /\ channels r.1 = channels s.
Proof.
  cbn zeta.
  split; [apply _get_or_update_node_found|].
  split; [apply _get_or_update_node_num|].
  destruct (_get_or_update_node_identity n nid mac s) as [Hid Hmac].
  split; [exact Hid|]. split; [exact Hmac|].
  split; [intros m Hm; by apply _get_or_update_node_other|].
  split; [|apply _get_or_update_node_tables].
  unfold _get_or_update_node.
  destruct (first_where (has_node_num n) (nodes s)); cbn [fst nodes set_nodes].
  - rewrite update_where_length. lia.
  - rewrite length_app. cbn. lia.
Qed.

(** X2. [_get_or_update_node] is idempotent: a second call with the same
    arguments returns the same node and leaves the store as the first call
    left it. *)
Theorem get_or_update_node_idempotent (n : Z) (nid mac : option string) (s : Store) :
  let r := _get_or_update_node n nid mac s in
  _get_or_update_node n nid mac r.1 = r.
Proof.
  cbn zeta.
  pose proof (_get_or_update_node_found n nid mac s) as Hfound.
  destruct (_get_or_update_node_identity n nid mac s) as [Hid Hmac].
  assert (Hrows :
    update_where (has_node_num n) (fun _ => (_get_or_update_node n nid mac s).2)
      (nodes (_get_or_update_node n nid mac s).1)
    = nodes (_get_or_update_node n nid mac s).1).
  { unfold _get_or_update_node.
    destruct (first_where (has_node_num n) (nodes s)) as [node|] eqn:Hnode;
      cbn [fst snd nodes set_nodes].
    - apply update_where_const_twice.
    - unfold update_where. rewrite map_app. cbn.
      fold (update_where (has_node_num n)
              (fun _ => {| node_num := n; node_id := nid;
                           mac_address := (mac ≫= nonempty) ≫= (fun m => Some (str_upper m));
                           long_name := None; short_name := None; hw_model := None;
                           role := None; public_key := None;
                           latency_reachable := None; latency_ms := None |})
              (nodes s)).
      rewrite update_where_none by (by apply first_where_None_Forall).
      unfold has_node_num. cbn. by rewrite bool_decide_eq_true_2. }
  destruct (_get_or_update_node n nid mac s) as [s' node'] eqn:Hr.
  cbn [fst snd] in *.
  unfold _get_or_update_node at 1. rewrite Hfound.
  assert (H1 : match nid with
               | Some i =>
                   if bool_decide (node_id node' = Some i) then node'
                   else {| node_num := node_num node'; node_id := Some i;
                           mac_address := mac_address node';
                           long_name := long_name node'; short_name := short_name node';
                           hw_model := hw_model node'; role := role node';
                           public_key := public_key node';
                           latency_reachable := latency_reachable node';
                           latency_ms := latency_ms node' |}
               | None => node'
               end = node').
  { destruct nid as [i|]; [|done]. by rewrite bool_decide_eq_true_2 by auto. }
  rewrite H1.
  destruct (mac ≫= nonempty) as [m|] eqn:Hm; cbn [mbind option_bind].
  - rewrite bool_decide_eq_true_2 by auto.
    rewrite Hrows. by rewrite set_nodes_same.
  - rewrite Hrows. by rewrite set_nodes_same.
Qed.

End NodeUpsertFacts.

(** ** Route reconstruction: invariants of the emitted segments *)

Lemma known_from_members (l : list (option Node)) :
  forall index, Forall (fun p => Some p.2 ∈ l) (Segments.known_from index l).
Proof.
  induction l as [|[n|] l IH]; intros index; cbn.
  - constructor.
  - constructor; [cbn; apply list_elem_of_here|].
    eapply Forall_impl; [apply (IH (S index))|]. cbn. intros p Hp.
    by apply list_elem_of_further.
  - eapply Forall_impl; [apply (IH (S index))|]. cbn. intros p Hp.
    by apply list_elem_of_further.
Qed.

Lemma consecutive_Forall_both {A : Type} (P : A -> Prop) (l : list A) :
  Forall P l -> Forall (fun pq => P pq.1 /\ P pq.2) (Segments.consecutive l).
Proof.
  induction 1 as [|a l Ha Hl IH]; [constructor|].
  destruct l as [|b l]; [constructor|].
  cbn. constructor; [|exact IH].
  cbn. split; [done|]. by inversion Hl.
Qed.

Lemma consecutive_length {A : Type} (l : list A) :
  length (Segments.consecutive l) = (length l - 1)%nat.
Proof.
  induction l as [|a l IH]; [done|].
  destruct l as [|b l]; [done|].
  cbn [Segments.consecutive length] in *. lia.
Qed.

Lemma concat_length_le {A B : Type} (f : A -> list B) (l : list A) :
  (forall x, length (f x) <= 1)%nat ->
  (length (concat (map f l)) <= length l)%nat.
Proof.
  intros Hf. induction l as [|x l IH]; [done|].
  cbn. rewrite length_app. specialize (Hf x). lia.
Qed.

Lemma emitted_for_length (nodes : list (option Node)) (snr_values : list Q)
    (p : (nat * Node) * (nat * Node)) :
  (length (Segments.emitted_for nodes snr_values p) <= 1)%nat.
Proof.
  destruct p as [[j s] [i t]]. unfold Segments.emitted_for.
  repeat case_match; cbn; lia.
Qed.

(** X3. Every segment that [build_edge_segments] emits joins two known
    nodes of the hop sequence, and carries an SNR value exactly when its hop
    count is 0; there are fewer segments than known nodes. *)
Theorem build_edge_segments_invariants (nodes : list (option Node))
    (snr_values : list Q) :
  Forall (fun seg : Segments.segment =>
            Some seg.1.1.1 ∈ nodes /\ Some seg.1.1.2 ∈ nodes /\
            (is_Some seg.1.2 <-> seg.2 = 0%nat))
         (Segments.build_edge_segments nodes snr_values) /\
  (length (Segments.build_edge_segments nodes snr_values)
   <= length (Segments.known_positions nodes) - 1)%nat.
Proof.
  rewrite build_edge_segments_emitted. unfold Segments.emitted_segments. split.
  - apply Forall_concat, List.Forall_map.
    eapply Forall_impl;
      [apply consecutive_Forall_both, (known_from_members nodes 0%nat)|].
    intros [[j s] [i t]] [Hs Ht]. cbn in Hs, Ht.
    unfold Segments.emitted_for.
    case_bool_decide as Hhop.
    + destruct (snr_values !! j) as [v|]; [|constructor].
      constructor; [|constructor]. cbn. split; [done|]. split; [done|].
      split; [done | eauto].
    + constructor; [|constructor]. cbn. split; [done|]. split; [done|].
      split; [by intros [? ?] | done].
  - etrans; [apply concat_length_le, emitted_for_length|].
    by rewrite consecutive_length.
Qed.

Lemma known_from_placeholders (n : nat) (l : list (option Node)) :
  forall index,
    Segments.known_from index (replicate n None ++ l)
    = Segments.known_from (index + n) l.
Proof.
  induction n as [|n IH]; intros index; cbn.
  - by rewrite Nat.add_0_r.
  - rewrite IH. f_equal. lia.
Qed.

Lemma build_edge_segments_run (A B : Node) (n : nat)
    (snr_values : list Q) :
  Segments.build_edge_segments ([Some A] ++ replicate n None ++ [Some B]) snr_values
  = match n with
    | O =>
        match snr_values !! 0%nat with
        | Some v => [(A, B, Some v, 0%nat)]
        | None => []
        end
    | S _ => [(A, B, None, n)]
    end.
Proof.
  rewrite build_edge_segments_emitted.
  unfold Segments.emitted_segments, Segments.known_positions.
  cbn [app Segments.known_from].
  rewrite known_from_placeholders. cbn [Segments.known_from Segments.consecutive map concat].
  rewrite app_nil_r. unfold Segments.emitted_for.
  rewrite placeholders_between_all.
  - replace (1 + n - 0 - 1)%nat with n by lia.
    destruct n as [|n]; [done|]. by rewrite bool_decide_eq_false_2.
  - intros k Hk. rewrite lookup_cons_ne_0 by lia.
    rewrite lookup_app_l by (rewrite length_replicate; lia).
    apply lookup_replicate_2. lia.
Qed.

(** X4. A run of [n] unresolved hops between two known nodes [A] and [B]
    gives, for [n >= 1], exactly the one segment [(A, B, no SNR, n)], for
    every SNR list; for [n = 0] it gives the segment with the SNR value of
    index 0, or no segment when the SNR list is empty. *)
Theorem build_edge_segments_unknown_run (A B : Node) (n : nat)
    (snr_values : list Q) :
  Segments.build_edge_segments ([Some A] ++ replicate n None ++ [Some B]) snr_values
  = match n with
    | O =>
        match snr_values !! 0%nat with
        | Some v => [(A, B, Some v, 0%nat)]
        | None => []
        end
    | S _ => [(A, B, None, n)]
    end.
Proof. apply build_edge_segments_run. Qed.

(** ** Route reconstruction: resolving ids and persisting edges *)

Lemma find_edge_upsert_edge_other (src tgt src' tgt' : Z) (pkt : option nat)
    (rssi : option Z) (snr : option Q) (hops : option Z) (s : Store) :
  (src', tgt') <> (src, tgt) ->
  find_edge src' tgt' (upsert_edge src tgt pkt rssi snr hops s)
  = find_edge src' tgt' s.
Proof.
  intros Hne. unfold find_edge, upsert_edge.
  assert (Hrow : forall e, source_node e = src -> target_node e = tgt ->
                           same_edge src' tgt' e = false).
  { intros e Hs Ht. unfold same_edge.
    destruct (decide (src = src')) as [->|]; destruct (decide (tgt = tgt')) as [->|];
      try done; rewrite ?Hs, ?Ht;
      repeat case_bool_decide; simplify_eq; done. }
  destruct (first_where (same_edge src tgt) (edges s)) as [e|]; cbn [edges set_edges].
  - apply first_where_update_other; [by apply Hrow|].
    intros y Hy. apply andb_prop in Hy as [Hs Ht].
    apply bool_decide_eq_true in Hs, Ht. by apply Hrow.
  - apply first_where_snoc_other. by apply Hrow.
Qed.

Lemma upsert_edge_tables (src tgt : Z) (pkt : option nat) (rssi : option Z)
    (snr : option Q) (hops : option Z) (s : Store) :
  let s' := upsert_edge src tgt pkt rssi snr hops s in
  nodes s' = nodes s /\ packets s' = packets s /\ packet_data s' = packet_data s /\
  nodeinfo_payloads s' = nodeinfo_payloads s /\
  latency_history s' = latency_history s /\ channels s' = channels s.
Proof. cbn zeta. unfold upsert_edge. by case_match. Qed.

Section RouteFacts.
Context `{!External}.

Lemma _get_or_update_node_keeps (n m : Z) (nid mac : option string) (s : Store) :
  is_Some (first_where (has_node_num m) (nodes s)) ->
  is_Some (first_where (has_node_num m) (nodes (_get_or_update_node n nid mac s).1)).
Proof.
  intros Hm. destruct (decide (m = n)) as [->|Hne].
  - rewrite _get_or_update_node_found. eauto.
  - by rewrite _get_or_update_node_other.
Qed.

Lemma resolve_route_nodes_keeps (ids : list string) :
  forall (s s' : Store) (r : result (list (option Node))) (m : Z),
    resolve_route_nodes ids s = (s', r) ->
    is_Some (first_where (has_node_num m) (nodes s)) ->
    is_Some (first_where (has_node_num m) (nodes s')).
Proof.
  induction ids as [|i ids IH]; intros s s' r m Hrun Hm; cbn in Hrun.
  - by simplify_eq.
  - case_bool_decide.
    + destruct (resolve_route_nodes ids s) as [s1 [l|e]] eqn:Hrest;
        simplify_eq; eapply IH; eauto.
    + destruct (id_to_num i) as [num|e]; [|by simplify_eq].
      pose proof (_get_or_update_node_keeps num m (Some (num_to_id num))
                    (Some (num_to_mac num)) s Hm) as Hkeep.
      destruct (_get_or_update_node num _ _ s) as [s1 node].
      destruct (resolve_route_nodes ids s1) as [s2 [l|e]] eqn:Hrest;
        simplify_eq; eapply IH; eauto.
Qed.

Lemma resolve_route_nodes_edges (ids : list string) :
  forall (s s' : Store) (r : result (list (option Node))),
    resolve_route_nodes ids s = (s', r) ->
    edges s' = edges s /\ packets s' = packets s /\
    latency_history s' = latency_history s.
Proof.
  induction ids as [|i ids IH]; intros s s' r Hrun; cbn in Hrun.
  - by simplify_eq.
  - case_bool_decide.
    + destruct (resolve_route_nodes ids s) as [s1 [l|e]] eqn:Hrest;
        simplify_eq; eapply IH; eauto.
    + destruct (id_to_num i) as [num|e]; [|by simplify_eq].
      pose proof (_get_or_update_node_tables num (Some (num_to_id num))
                    (Some (num_to_mac num)) s) as (Hp & _ & _ & He & Hh & _).
      destruct (_get_or_update_node num _ _ s) as [s1 node].
      cbn [fst] in *.
      destruct (resolve_route_nodes ids s1) as [s2 [l|e]] eqn:Hrest;
        simplify_eq; destruct (IH _ _ _ Hrest) as (-> & -> & ->); done.
Qed.

Lemma resolve_route_nodes_resolved (ids : list string) :
  forall (s s' : Store) (l : list (option Node)),
    resolve_route_nodes ids s = (s', Ok l) ->
    length l = length ids /\
    (forall i, l !! i = Some None <-> ids !! i = Some BROADCAST_NODE_ID) /\
    (forall node, Some node ∈ l ->
       is_Some (first_where (has_node_num (node_num node)) (nodes s')) /\
       node_id node = Some (num_to_id (node_num node)) /\
       exists i, i ∈ ids /\ i <> BROADCAST_NODE_ID /\ id_to_num i = Ok (node_num node)).
Proof.
  induction ids as [|i ids IH]; intros s s' l Hrun; cbn in Hrun.
  - simplify_eq. split; [done|]. split.
    + intros i. by rewrite !lookup_nil.
    + intros node Hin. by apply elem_of_nil in Hin.
  - case_bool_decide as Hb.
    + destruct (resolve_route_nodes ids s) as [s1 [l1|e]] eqn:Hrest; simplify_eq.
      destruct (IH _ _ _ Hrest) as (Hlen & Hpos & Hnodes).
      split; [cbn; by rewrite Hlen|]. split.
      * intros [|k]; cbn; [done | apply Hpos].
      * intros node Hin. apply elem_of_cons in Hin as [|Hin]; [done|].
        destruct (Hnodes node Hin) as (? & ? & j & ? & ? & ?).
        repeat split; try done. exists j. split; [by apply list_elem_of_further | done].
    + destruct (id_to_num i) as [num|e] eqn:Hnum; [|by simplify_eq].
      pose proof (_get_or_update_node_found num (Some (num_to_id num))
                    (Some (num_to_mac num)) s) as Hfound.
      pose proof (_get_or_update_node_num num (Some (num_to_id num))
                    (Some (num_to_mac num)) s) as Hnn.
      destruct (_get_or_update_node_identity num (Some (num_to_id num))
                  (Some (num_to_mac num)) s) as [Hid _].
      specialize (Hid _ eq_refl).
      destruct (_get_or_update_node num _ _ s) as [s1 node1].
      cbn [fst snd] in *.
      destruct (resolve_route_nodes ids s1) as [s2 [l1|e]] eqn:Hrest; simplify_eq.
      destruct (IH _ _ _ Hrest) as (Hlen & Hpos & Hnodes).
      split; [cbn; by rewrite Hlen|]. split.
      * intros [|k]; cbn; [|apply Hpos]. split; intros Heq; simplify_eq.
      * intros node Hin. apply elem_of_cons in Hin as [Heq|Hin].
        -- simplify_eq. split.
           ++ eapply resolve_route_nodes_keeps; [exact Hrest|]. rewrite Hfound. eauto.
           ++ split; [done|]. exists i. split; [apply list_elem_of_here | done].
        -- destruct (Hnodes node Hin) as (? & ? & j & ? & ? & ?).
           repeat split; try done. exists j.
           split; [by apply list_elem_of_further | done].
Qed.

(** X5. When the hop ids of a route resolve, the resolved sequence is as
    long as the id list, has a placeholder exactly where the id is the
    broadcast id, and every other entry is a node that is in the store
    afterwards under the number of a non-broadcast id of the list; resolving
    touches neither edges nor packets nor the latency history. *)
Theorem resolve_route_nodes_placeholders (ids : list string) (s s' : Store)
    (l : list (option Node)) :
  resolve_route_nodes ids s = (s', Ok l) ->
  length l = length ids /\
  (forall i, l !! i = Some None <-> ids !! i = Some BROADCAST_NODE_ID) /\
  (forall node, Some node ∈ l ->
     is_Some (first_where (has_node_num (node_num node)) (nodes s')) /\
     node_id node = Some (num_to_id (node_num node)) /\
     exists i, i ∈ ids /\ i <> BROADCAST_NODE_ID /\ id_to_num i = Ok (node_num node)) /\
  edges s' = edges s /\ packets s' = packets s /\
  latency_history s' = latency_history s.
Proof.
  intros Hrun.
  destruct (resolve_route_nodes_resolved ids s s' l Hrun) as (Hlen & Hpos & Hnodes).
  repeat (split; [assumption|]).
  by eapply resolve_route_nodes_edges.
Qed.

Lemma persist_segment_find (pkt : Packet) (all : list Segments.segment)
    (seg : Segments.segment) (s : Store) :
  seg ∈ all ->
  exists e, find_edge (segment_key seg).1 (segment_key seg).2
              (persist_segment pkt s seg) = Some e /\
            written_by pkt all (segment_key seg) e.
Proof.
  intros Hin. destruct seg as [[[src tgt] snr] hop]. cbn [segment_key fst snd].
  unfold persist_segment. rewrite find_edge_upsert_edge.
  eexists. split; [done|].
  split; [done|]. split; [done|].
  exists (src, tgt, snr, hop). done.
Qed.

Lemma persist_edge_segments_keeps (pkt : Packet) (all : list Segments.segment)
    (key : Z * Z) :
  forall (segs : list Segments.segment) (s : Store),
    segs ⊆ all ->
    (exists e, find_edge key.1 key.2 s = Some e /\ written_by pkt all key e) ->
    exists e, find_edge key.1 key.2 (persist_edge_segments pkt segs s) = Some e /\
              written_by pkt all key e.
Proof.
  induction segs as [|seg segs IH]; intros s Hsub Hs; [done|].
  unfold persist_edge_segments. cbn [foldl].
  apply IH; [intros x Hx; apply Hsub; by apply list_elem_of_further|].
  destruct (decide (segment_key seg = key)) as [<-|Hne].
  - apply persist_segment_find. apply Hsub, list_elem_of_here.
  - destruct seg as [[[src tgt] snr] hop]. cbn [segment_key] in Hne.
    unfold persist_segment. rewrite find_edge_upsert_edge_other; [done|].
    destruct key. cbn. congruence.
Qed.

Lemma persist_edge_segments_written (pkt : Packet) (all : list Segments.segment) :
  forall (segs : list Segments.segment) (s : Store) (seg : Segments.segment),
    segs ⊆ all -> seg ∈ segs ->
    exists e, find_edge (segment_key seg).1 (segment_key seg).2
                (persist_edge_segments pkt segs s) = Some e /\
              written_by pkt all (segment_key seg) e.
Proof.
  induction segs as [|seg0 segs IH]; intros s seg Hsub Hin.
  - by apply elem_of_nil in Hin.
  - apply elem_of_cons in Hin as [->|Hin].
    + unfold persist_edge_segments. cbn [foldl].
      apply (persist_edge_segments_keeps pkt all (segment_key seg0) segs);
        [intros x Hx; apply Hsub; by apply list_elem_of_further|].
      apply persist_segment_find. apply Hsub, list_elem_of_here.
    + unfold persist_edge_segments. cbn [foldl].
      apply IH; [intros x Hx; apply Hsub; by apply list_elem_of_further | done].
Qed.

Lemma persist_edge_segments_other (pkt : Packet) (src tgt : Z) :
  forall (segs : list Segments.segment) (s : Store),
    (src, tgt) ∉ segment_key <$> segs ->
    find_edge src tgt (persist_edge_segments pkt segs s) = find_edge src tgt s.
Proof.
  induction segs as [|seg segs IH]; intros s Hnot; [done|].
  rewrite fmap_cons, not_elem_of_cons in Hnot. destruct Hnot as [Hne Hnot].
  unfold persist_edge_segments. cbn [foldl].
  fold (persist_edge_segments pkt segs (persist_segment pkt s seg)).
  rewrite IH by done.
  destruct seg as [[[src0 tgt0] snr] hop]. cbn [segment_key] in Hne.
  unfold persist_segment. by rewrite find_edge_upsert_edge_other.
Qed.

Lemma persist_edge_segments_tables (pkt : Packet) :
  forall (segs : list Segments.segment) (s : Store),
    nodes (persist_edge_segments pkt segs s) = nodes s /\
    packets (persist_edge_segments pkt segs s) = packets s /\
    latency_history (persist_edge_segments pkt segs s) = latency_history s.
Proof.
  induction segs as [|seg segs IH]; intros s; [done|].
  unfold persist_edge_segments. cbn [foldl].
  fold (persist_edge_segments pkt segs (persist_segment pkt s seg)).
  destruct (IH (persist_segment pkt s seg)) as (-> & -> & ->).
  destruct seg as [[[src0 tgt0] snr] hop]. unfold persist_segment.
  pose proof (upsert_edge_tables (node_num src0) (node_num tgt0)
    (Some (pkt_pk pkt)) (Some 0) (snr ≫= (fun v => quantize v 2))
    (Some (Z.of_nat hop)) s) as (? & ? & _ & _ & ? & _).
  done.
Qed.

(** X6. After [persist_edge_segments] every segment has an edge between its
    two nodes that refers to the acknowledged packet, has RSSI 0 and holds
    the hop count and SNR of a segment of the list with the same two nodes;
    edges between other pairs of nodes are as before, and nodes, packets and
    latency history are untouched. *)
Theorem persist_edge_segments_edges (pkt : Packet)
    (segs : list Segments.segment) (s : Store) :
  let s' := persist_edge_segments pkt segs s in
  (forall seg, seg ∈ segs ->
     exists e, find_edge (segment_key seg).1 (segment_key seg).2 s' = Some e /\
               written_by pkt segs (segment_key seg) e) /\
  (forall src tgt, (src, tgt) ∉ segment_key <$> segs ->
     find_edge src tgt s' = find_edge src tgt s) /\
  nodes s' = nodes s /\ packets s' = packets s /\
  latency_history s' = latency_history s.
Proof.
  cbn zeta. split; [|split].
  - intros seg Hin. by apply persist_edge_segments_written.
  - intros src tgt. apply persist_edge_segments_other.
  - apply persist_edge_segments_tables.
Qed.

Lemma resolve_route_nodes_broadcast_run (n : nat) (rest : list string) (s : Store) :
  resolve_route_nodes (replicate n BROADCAST_NODE_ID ++ rest) s =
  match resolve_route_nodes rest s with
  | (s', Ok l) => (s', Ok (replicate n None ++ l))
  | (s', Raise e) => (s', Raise e)
  end.
Proof.
  induction n as [|n IH]; cbn.
  - by destruct (resolve_route_nodes rest s) as [s' [l|e]].
  - rewrite IH. by destruct (resolve_route_nodes rest s) as [s' [l|e]].
Qed.


End RouteFacts.

Lemma resolve_route_nodes_placeholders_witness :
  exists (s' : Store) (l : list (option Node)),
    @resolve_route_nodes example_external
      ["!00000001"; BROADCAST_NODE_ID; "!00000003"] example_store = (s', Ok l) /\
    length l = 3%nat /\
    (forall i, l !! i = Some None <->
               ["!00000001"; BROADCAST_NODE_ID; "!00000003"] !! i
               = Some BROADCAST_NODE_ID) /\
    edges s' = edges example_store.
Proof.
  destruct (@resolve_route_nodes example_external
              ["!00000001"; BROADCAST_NODE_ID; "!00000003"] example_store)
    as [s' [l|e]] eqn:Hrun; [|vm_compute in Hrun; discriminate].
  exists s', l. split; [reflexivity|].
  destruct (@resolve_route_nodes_placeholders example_external _ _ _ _ Hrun)
    as (Hlen & Hpos & _ & Hedges & _).
  split; [exact Hlen|]. split; [exact Hpos | exact Hedges].
Defined.


(** ** Latency history and probe correlation: what is written and what is not *)

Lemma first_where_In_Some {A : Type} (p : A -> bool) (rows : list A) (x : A) :
  In x rows -> p x = true -> is_Some (first_where p rows).
Proof.
  intros Hin Hx. destruct (first_where p rows) as [y|] eqn:Hy; [eauto|].
  exfalso. eapply List.find_none in Hy; [|exact Hin]. congruence.
Qed.

Section HistoryFacts.
Context `{!External}.

Lemma earliest_In (rows : list NodeLatencyHistory) (h : NodeLatencyHistory) :
  earliest rows = Some h -> In h rows.
Proof.
  revert h. induction rows as [|r rows IH]; intros h; cbn; [done|].
  destruct (earliest rows) as [h'|].
  - case_bool_decide; intros [= <-]; auto.
  - intros [= <-]. auto.
Qed.

Lemma earliest_is_Some (rows : list NodeLatencyHistory) :
  rows <> [] -> is_Some (earliest rows).
Proof.
  destruct rows as [|r rows]; [done|]. intros _. cbn.
  destruct (earliest rows); [case_bool_decide|]; eauto.
Qed.

(** The row that [_update_latency_history] picks to update, if any. *)
Lemma _update_latency_history_cases (node : Z) (pmid lat resp rt : option Z)
    (now : Z) (s : Store) :
  (exists h,
     In h (latency_history s) /\ h_node h = node /\
     latency_history (_update_latency_history node pmid lat resp rt now s) =
       update_where (fun r => bool_decide (h_pk r = h_pk h))
                    (fun r => resolve_history r pmid lat resp) (latency_history s)) \/
  ((forall h, In h (latency_history s) -> h_node h = node ->
      is_pending h = false /\
      (forall m, pmid = Some m -> probe_message_id h <> Some m)) /\
   latency_history (_update_latency_history node pmid lat resp rt now s) =
     latency_history s ++
     [{| h_pk := next_pk h_pk (latency_history s); h_node := node;
         probe_message_id := pmid; reachable := true; h_latency_ms := lat;
         responded_at := resp; h_time := default now rt |}]).
Proof.
  unfold _update_latency_history.
  set (qs := List.filter (fun h => bool_decide (h_node h = node)) (latency_history s)).
  assert (Hqs : forall h, In h qs <-> In h (latency_history s) /\ h_node h = node).
  { intros h. unfold qs. rewrite List.filter_In. by rewrite bool_decide_eq_true. }
  destruct (match pmid with
            | Some m => first_where (fun h => eqb_opt_Z (probe_message_id h) m) qs
            | None => None
            end) as [h|] eqn:Hprobe.
  - left. exists h.
    destruct pmid as [m|]; [|done].
    apply first_where_holds in Hprobe as [_ Hin]. apply Hqs in Hin as [Hin Hnode].
    done.
  - destruct (earliest (List.filter is_pending qs)) as [h|] eqn:Hearly.
    + left. exists h. apply earliest_In in Hearly.
      apply List.filter_In in Hearly as [Hin _]. apply Hqs in Hin as [Hin Hnode].
      done.
    + right. split; [|done].
      intros h Hin Hnode. split.
      * destruct (is_pending h) eqn:Hpend; [|done]. exfalso.
        assert (Hne : List.filter is_pending qs <> []).
        { intros Hnil.
          assert (Hmem : In h (List.filter is_pending qs)).
          { apply List.filter_In. split; [by apply Hqs | done]. }
          rewrite Hnil in Hmem. done. }
        apply earliest_is_Some in Hne as [? Hsome]. congruence.
      * intros m -> Heq.
        assert (Hsome : is_Some (first_where
                  (fun h => eqb_opt_Z (probe_message_id h) m) qs)).
        { apply (first_where_In_Some _ _ h); [by apply Hqs|].
          unfold eqb_opt_Z. rewrite Heq. by rewrite bool_decide_eq_true_2. }
        rewrite Hprobe in Hsome. by destruct Hsome.
Qed.

Lemma update_latency_history_resolves_length (node : Z)
    (pmid lat resp rt : option Z) (now : Z) (s : Store) :
  (length (latency_history s)
   <= length (latency_history (_update_latency_history node pmid lat resp rt now s))
   <= S (length (latency_history s)))%nat.
Proof.
  destruct (_update_latency_history_cases node pmid lat resp rt now s)
    as [(h & Hin & Hnode & ->) | [_ ->]].
  - rewrite update_where_length. lia.
  - rewrite length_app. cbn. lia.
Qed.

(** X8. After [_update_latency_history] the node has a history row that is
    reachable with the given latency and response time. The history never
    shrinks and grows by at most one row: a row is added only when no row of
    the node carries the probe id or is still pending. Nodes, packets and
    packet data are not touched. *)
Theorem update_latency_history_resolves (node : Z) (pmid lat resp rt : option Z)
    (now : Z) (s : Store) :
  let s' := _update_latency_history node pmid lat resp rt now s in
  (exists h, In h (latency_history s') /\ h_node h = node /\
             reachable h = true /\ h_latency_ms h = lat /\ responded_at h = resp) /\
  (length (latency_history s') = length (latency_history s) \/
   (length (latency_history s') = S (length (latency_history s)) /\
    forall h, In h (latency_history s) -> h_node h = node ->
      is_pending h = false /\
      (forall m, pmid = Some m -> probe_message_id h <> Some m))) /\
  nodes s' = nodes s /\ packets s' = packets s /\ packet_data s' = packet_data s.
Proof.
  cbn zeta. split; [|split; [|apply _update_latency_history_frame]].
  - destruct (_update_latency_history_cases node pmid lat resp rt now s)
      as [(h & Hin & Hnode & ->) | [_ ->]].
    + exists (resolve_history h pmid lat resp). split; [|done].
      unfold update_where. apply List.in_map_iff. exists h.
      split; [|done]. by rewrite bool_decide_eq_true_2.
    + eexists. split; [apply List.in_or_app; right; left; reflexivity|]. done.
  - destruct (_update_latency_history_cases node pmid lat resp rt now s)
      as [(h & Hin & Hnode & ->) | [Hnone ->]].
    + left. apply update_where_length.
    + right. split; [|exact Hnone]. rewrite length_app. cbn. lia.
Qed.

Lemma _update_latency_history_rest (node : Z) (pmid lat resp rt : option Z)
    (now : Z) (s : Store) :
  let s' := _update_latency_history node pmid lat resp rt now s in
  edges s' = edges s /\ channels s' = channels s /\
  nodeinfo_payloads s' = nodeinfo_payloads s.
Proof. cbn. unfold _update_latency_history. by repeat case_match. Qed.

Lemma update_where_erase {A B : Type} (p : A -> bool) (f : A -> A) (g : A -> B)
    (rows : list A) :
  (forall x, g (f x) = g x) -> map g (update_where p f rows) = map g rows.
Proof.
  intros Hg. unfold update_where. rewrite map_map. apply map_ext.
  intros x. by destruct (p x).
Qed.

(** X9. [_process_probe_response] never adds or removes a packet, a
    packet-data row or a node: on packets it can only set [ackd], on packet
    data only [got_response], on nodes only the latency snapshot. It leaves
    edges, channels and node-info payloads alone, and adds at most one
    history row. Without a request id, or when no stored packet matches it,
    the store is unchanged. *)
Theorem process_probe_response_frame (d : PacketData) (now : Z) (s : Store) :
  let s' := _process_probe_response d now s in
  map (with_ackd None) (packets s') = map (with_ackd None) (packets s) /\
  map (fun r => (pd_packet r, pd_portnum r, pd_request_id r, pd_reply_id r,
                 pd_want_response r)) (packet_data s')
  = map (fun r => (pd_packet r, pd_portnum r, pd_request_id r, pd_reply_id r,
                   pd_want_response r)) (packet_data s) /\
  map (with_latency None None) (nodes s') = map (with_latency None None) (nodes s) /\
  edges s' = edges s /\ channels s' = channels s /\
  nodeinfo_payloads s' = nodeinfo_payloads s /\
  (length (latency_history s) <= length (latency_history s')
   <= S (length (latency_history s)))%nat /\
  (pd_request_id d = None -> s' = s) /\
  (forall rid incoming,
     pd_request_id d = Some rid -> packet_of d s = Some incoming ->
     find_request rid (from_node incoming) s = None -> s' = s).
Proof.
  cbn zeta. unfold _process_probe_response.
  destruct (pd_request_id d) as [rid|]; [|by repeat split; try lia].
  destruct (packet_of d s) as [incoming|]; [|by repeat split; try lia].
  destruct (find_request rid (from_node incoming) s) as [orig|] eqn:Horig;
    [|by repeat split; try lia].
  set (s3 := update_node_latency _ _ _ _).
  pose proof (_update_latency_history_frame (to_node orig) (packet_id orig)
    (latency_of (pkt_time orig) (pkt_time incoming))
    (Some (default now (pkt_time incoming))) (pkt_time orig) now s3) as (Hn & Hp & Hd).
  pose proof (_update_latency_history_rest (to_node orig) (packet_id orig)
    (latency_of (pkt_time orig) (pkt_time incoming))
    (Some (default now (pkt_time incoming))) (pkt_time orig) now s3) as (He & Hc & Hi).
  pose proof (update_latency_history_resolves_length (to_node orig) (packet_id orig)
    (latency_of (pkt_time orig) (pkt_time incoming))
    (Some (default now (pkt_time incoming))) (pkt_time orig) now s3) as Hlen.
  cbn zeta in *. rewrite Hn, Hp, Hd, He, Hc, Hi. subst s3. cbn in Hlen |- *.
  split; [by apply update_where_erase|].
  split; [by apply update_where_erase|].
  split; [by apply update_where_erase|].
  do 3 (split; [done|]). split; [lia|]. split; [done|].
  intros rid' incoming' Hrid Hinc Hnone. congruence.
Qed.

End HistoryFacts.

(** ** Node-info handling and the dispatch of decoded payloads *)

Lemma upsert_nodeinfo_payload_tables (row : NodeInfoPayload) (s : Store) :
  let s' := upsert_nodeinfo_payload row s in
  packets s' = packets s /\ packet_data s' = packet_data s /\
  edges s' = edges s /\ latency_history s' = latency_history s /\
  channels s' = channels s /\
  (length (nodeinfo_payloads s) <= length (nodeinfo_payloads s')
   <= S (length (nodeinfo_payloads s)))%nat.
Proof.
  cbn zeta. unfold upsert_nodeinfo_payload. case_match; cbn.
  - rewrite update_where_length. repeat split; lia.
  - rewrite length_app. cbn. repeat split; lia.
Qed.

Lemma update_where_const_erase {A B : Type} (p : A -> bool) (x : A) (g : A -> B)
    (rows : list A) :
  (forall y, p y = true -> g x = g y) ->
  map g (update_where p (fun _ => x) rows) = map g rows.
Proof.
  intros Hg. unfold update_where. rewrite map_map. apply map_ext_in.
  intros y _. destruct (p y) eqn:Hy; auto.
Qed.

Lemma first_where_mark_got_response (pk pk' : nat) (s : Store) :
  first_where (fun r => bool_decide (pd_packet r = pk))
              (packet_data (mark_got_response pk' s))
  = (fun r => if bool_decide (pd_packet r = pk') then with_got_response r else r)
    <$> first_where (fun r => bool_decide (pd_packet r = pk)) (packet_data s).
Proof. unfold mark_got_response. cbn. by apply first_where_update_where. Qed.

Section NodeInfoFacts.
Context `{!External}.

(** X10. [handle_nodeinfo] never creates or removes a node, and it leaves
    packets, edges, latency history and channels alone; it adds at most one
    node-info payload row. When the payload does not parse, or the id in it
    is not a node id, the exception comes out and the store is unchanged. *)
Theorem handle_nodeinfo_frame (payload' : bytes) (d : PacketData) (s : Store) :
  let r := handle_nodeinfo payload' d s in
  node_num <$> nodes r.1 = node_num <$> nodes s /\
  packets r.1 = packets s /\ edges r.1 = edges s /\
  latency_history r.1 = latency_history s /\ channels r.1 = channels s /\
  (length (nodeinfo_payloads s) <= length (nodeinfo_payloads r.1)
   <= S (length (nodeinfo_payloads s)))%nat /\
  (forall e, parse_user payload' = Raise e -> r = (s, Raise e)) /\
  (forall user e, parse_user payload' = Ok user ->
                  id_to_num (user_id user) = Raise e -> r = (s, Raise e)).
Proof.
  cbn zeta. unfold handle_nodeinfo.
  destruct (parse_user payload') as [user|e]; [|by (cbn [fst]; repeat split; try lia; intros; simplify_eq)].
  destruct (id_to_num (user_id user)) as [num|e] eqn:Hid;
    [|by (cbn [fst]; repeat split; try lia; intros; simplify_eq; congruence)].
  set (row := {| nip_packet_data := pd_packet d |}).
  pose proof (upsert_nodeinfo_payload_tables row s) as (Hp & Hd & He & Hh & Hc & Hlen).
  pose proof (nodes_upsert_nodeinfo_payload row s) as Hn.
  cbn zeta in *.
  destruct (first_where (has_node_num num) (nodes (upsert_nodeinfo_payload row s)))
    as [node|] eqn:Hnode.
  - assert (Hnums :
      node_num <$> update_where (has_node_num num)
        (fun _ => {| node_num := node_num node; node_id := node_id node;
                     mac_address :=
                       match nonempty (str_upper (num_to_mac num)) with
                       | Some m => Some m
                       | None => mac_address node
                       end;
                     long_name := nonempty (user_long_name user);
                     short_name := nonempty (user_short_name user);
                     hw_model := hw_num_to_model (user_hw_model user) ≫= nonempty;
                     role := Some (default "CLIENT"
                                     (role_num_ro_role (user_role user) ≫= nonempty));
                     public_key :=
                       (if bool_decide (user_public_key user = []) then None
                        else Some (b64encode (user_public_key user))) ≫= nonempty;
                     latency_reachable := latency_reachable node;
                     latency_ms := latency_ms node |})
        (nodes (upsert_nodeinfo_payload row s))
      = node_num <$> nodes s).
    { rewrite <- Hn. apply update_where_const_erase.
      intros y Hy. apply first_where_holds in Hnode as [Hnode _].
      apply bool_decide_eq_true in Hy, Hnode. cbn. congruence. }
    repeat case_match; cbn [fst snd nodes packets edges latency_history channels
      nodeinfo_payloads set_nodes mark_got_response set_packet_data];
      (split; [exact Hnums|]); do 4 (split; [done|]); (split; [lia|]);
      split; intros; simplify_eq; congruence.
  - cbn [fst snd]. rewrite Hn. do 5 (split; [done|]). split; [lia|].
    split; intros; simplify_eq; congruence.
Qed.

Variable handle_port : Z -> bytes -> PacketData -> Z -> Store -> Store * result unit.

Lemma handle_nodeinfo_packet_data (payload' : bytes) (d : PacketData) (s : Store)
    (pk : nat) :
  exists q : PacketData -> bool,
    first_where (fun r => bool_decide (pd_packet r = pk))
                (packet_data (handle_nodeinfo payload' d s).1)
    = (fun r => if q r then with_got_response r else r)
      <$> first_where (fun r => bool_decide (pd_packet r = pk)) (packet_data s).
Proof.
  assert (Hsame : forall s0 : Store,
    packet_data s0 = packet_data s ->
    exists q : PacketData -> bool,
      first_where (fun r => bool_decide (pd_packet r = pk)) (packet_data s0)
      = (fun r => if q r then with_got_response r else r)
        <$> first_where (fun r => bool_decide (pd_packet r = pk)) (packet_data s)).
  { intros s0 ->. exists (fun _ => false).
    by destruct (first_where _ (packet_data s)). }
  unfold handle_nodeinfo.
  destruct (parse_user payload') as [user|e]; [|by apply Hsame].
  destruct (id_to_num (user_id user)) as [num|e]; [|by apply Hsame].
  set (row := {| nip_packet_data := pd_packet d |}).
  pose proof (upsert_nodeinfo_payload_tables row s) as (_ & Hd & _).
  cbn zeta in Hd.
  repeat case_match; cbn [fst]; try (apply Hsame; cbn; exact Hd).
  all: eexists; rewrite first_where_mark_got_response; cbn; by rewrite Hd.
Qed.

Lemma _process_probe_response_packet_data (d : PacketData) (now : Z) (s : Store)
    (pk : nat) :
  exists q : PacketData -> bool,
    first_where (fun r => bool_decide (pd_packet r = pk))
                (packet_data (_process_probe_response d now s))
    = (fun r => if q r then with_got_response r else r)
      <$> first_where (fun r => bool_decide (pd_packet r = pk)) (packet_data s).
Proof.
  assert (Hsame : exists q : PacketData -> bool,
      first_where (fun r => bool_decide (pd_packet r = pk)) (packet_data s)
      = (fun r => if q r then with_got_response r else r)
        <$> first_where (fun r => bool_decide (pd_packet r = pk)) (packet_data s)).
  { exists (fun _ => false). by destruct (first_where _ (packet_data s)). }
  unfold _process_probe_response.
  destruct (pd_request_id d) as [rid|]; [|done].
  destruct (packet_of d s) as [incoming|]; [|done].
  destruct (find_request rid (from_node incoming) s) as [orig|]; [|done].
  set (s3 := update_node_latency _ _ _ _).
  pose proof (_update_latency_history_frame (to_node orig) (packet_id orig)
    (latency_of (pkt_time orig) (pkt_time incoming))
    (Some (default now (pkt_time incoming))) (pkt_time orig) now s3) as (_ & _ & Hd).
  cbn zeta in Hd. rewrite Hd. subst s3. cbn [packet_data update_node_latency set_nodes
    mark_ackd set_packets].
  eexists. apply first_where_mark_got_response.
Qed.

Lemma first_where_upsert_packet_data (row : PacketData) (s : Store) :
  first_where (fun r => bool_decide (pd_packet r = pd_packet row))
              (packet_data (upsert_packet_data row s)) = Some row.
Proof.
  unfold upsert_packet_data.
  destruct (first_where _ (packet_data s)) eqn:Hrow; cbn [packet_data set_packet_data].
  - eapply first_where_replace; [exact Hrow|]. by rewrite bool_decide_eq_true_2.
  - apply first_where_append; [exact Hrow|]. by rewrite bool_decide_eq_true_2.
Qed.

Lemma handle_decoded_packet_port (decoded_data : Data) (packet_obj : Packet)
    (now : Z) (s s' : Store) (n : Z) :
  handle_decoded_packet handle_port decoded_data packet_obj now s = (s', Ok n) ->
  n = portnum decoded_data.
Proof.
  unfold handle_decoded_packet.
  destruct (if bool_decide (portnum decoded_data = NODEINFO_APP) then _ else _)
    as [s2 [[]|e]]; [|done].
  by intros [= _ <-].
Qed.

(** X11. When [handle_decoded_packet] returns, it returns the payload's port
    number, and every packet-data row of the packet says
    [got_response = True], whatever the port and whether or not the payload
    answered a request. For a node-info payload the packet's row is there
    and carries the payload's port, request id, reply id and
    [want_response]. *)
Theorem handle_decoded_packet_marks_response (decoded_data : Data)
    (packet_obj : Packet) (now : Z) (s s' : Store) (n : Z) :
  handle_decoded_packet handle_port decoded_data packet_obj now s = (s', Ok n) ->
  n = portnum decoded_data /\
  (forall row, In row (packet_data s') -> pd_packet row = pkt_pk packet_obj ->
               got_response row = Some true) /\
  (portnum decoded_data = NODEINFO_APP ->
   first_where (fun r => bool_decide (pd_packet r = pkt_pk packet_obj)) (packet_data s')
   = Some {| pd_packet := pkt_pk packet_obj;
             pd_portnum := Some NODEINFO_APP;
             pd_request_id := Some (request_id decoded_data);
             pd_reply_id := Some (reply_id decoded_data);
             pd_want_response := Some (want_response decoded_data);
             got_response := Some true |}).
Proof.
  unfold handle_decoded_packet.
  set (data_obj := {| pd_packet := pkt_pk packet_obj |}).
  set (s1 := upsert_packet_data data_obj s).
  intros Hrun.
  destruct (bool_decide (portnum decoded_data = NODEINFO_APP)) eqn:Hport.
  - apply bool_decide_eq_true in Hport.
    destruct (handle_nodeinfo_packet_data (payload decoded_data) data_obj s1
                (pkt_pk packet_obj)) as [q1 Hq1].
    destruct (handle_nodeinfo (payload decoded_data) data_obj s1) as [s2 [[]|e]];
      [|done].
    destruct (_process_probe_response_packet_data data_obj now s2
                (pkt_pk packet_obj)) as [q2 Hq2].
    injection Hrun as <- <-. split; [done|]. split.
    + intros row Hin Hpk. cbn in Hin. unfold update_where in Hin.
      apply List.in_map_iff in Hin as (r0 & <- & _).
      destruct (bool_decide (pd_packet r0 = pkt_pk packet_obj)) eqn:Hr0; [done|].
      apply bool_decide_eq_false in Hr0. done.
    + intros _. rewrite first_where_mark_got_response, Hq2. cbn [fst] in Hq1.
      rewrite Hq1. subst s1.
      pose proof (first_where_upsert_packet_data data_obj s) as Hrow.
      change (pd_packet data_obj) with (pkt_pk packet_obj) in Hrow.
      rewrite Hrow. cbn.
      destruct (q1 data_obj); destruct (q2 _); subst data_obj; cbn;
        rewrite bool_decide_eq_true_2 by done; unfold with_got_response; cbn;
        by rewrite Hport.
  - apply bool_decide_eq_false in Hport.
    destruct (handle_port _ _ _ _ _) as [s2 [[]|e]]; [|done].
    injection Hrun as <- <-. split; [done|]. split; [|done].
    intros row Hin Hpk. cbn in Hin. unfold update_where in Hin.
    apply List.in_map_iff in Hin as (r0 & <- & _).
    destruct (bool_decide (pd_packet r0 = pkt_pk packet_obj)) eqn:Hr0; [done|].
    apply bool_decide_eq_false in Hr0. done.
Qed.


End NodeInfoFacts.

Lemma handle_decoded_packet_marks_response_witness :
  exists (s' : Store),
    @handle_decoded_packet example_external example_handle_port example_text
      (example_packet 2 77 2 1 1250000) 0 example_reply_store
      = (s', Ok TEXT_MESSAGE_APP) /\
    forall row, In row (packet_data s') -> pd_packet row = 2%nat ->
                got_response row = Some true.
Proof.
  destruct (@handle_decoded_packet example_external example_handle_port example_text
              (example_packet 2 77 2 1 1250000) 0 example_reply_store)
    as [s' [n|e]] eqn:Hrun; [|vm_compute in Hrun; discriminate].
  destruct (@handle_decoded_packet_marks_response example_external
              example_handle_port _ _ _ _ _ _ Hrun) as (-> & Hrows & _).
  exists s'. split; [reflexivity | exact Hrows].
Defined.

(** ** The upserts of [on_message] *)

Lemma save_packet_tables (obj : Packet) (s : Store) :
  let s' := save_packet obj s in
  nodes s' = nodes s /\ packet_data s' = packet_data s /\ edges s' = edges s /\
  channels s' = channels s /\ latency_history s' = latency_history s /\
  length (packets s') = length (packets s).
Proof. cbn. by rewrite update_where_length. Qed.

(** Saving an object over the row that a lookup found leaves the lookup
    with the object, when the object still satisfies the lookup. *)
Lemma first_where_save {A : Type} (p : A -> bool) (pk : A -> nat) (obj found : A)
    (rows : list A) :
  first_where p rows = Some found -> p obj = true -> pk obj = pk found ->
  first_where p (update_where (fun r => bool_decide (pk r = pk obj)) (fun _ => obj) rows)
  = Some obj.
Proof.
  unfold first_where, update_where. intros Hfound Hobj Hpk.
  induction rows as [|y rows IH]; cbn in *; [done|].
  case_bool_decide as Hy.
  - by rewrite Hobj.
  - destruct (p y) eqn:Hpy; [simplify_eq; try congruence | auto].
Qed.

Section UpsertFacts.
Context `{!External}.

Lemma get_or_create_channel_found (cid : string) (cnum : option Z) (s : Store) :
  let r := get_or_create_channel cid cnum s in
  first_where (same_channel cid cnum) (channels r.1) = Some r.2 /\
  nodes r.1 = nodes s /\ packets r.1 = packets s /\ edges r.1 = edges s.
Proof.
  cbn zeta. unfold get_or_create_channel.
  destruct (first_where (same_channel cid cnum) (channels s)) as [c|] eqn:Hc; [done|].
  cbn. split; [|done]. apply first_where_append; [done|].
  unfold same_channel. cbn. by rewrite !bool_decide_eq_true_2.
Qed.

Lemma get_or_create_packet_found (pid : option Z) (f t now : Z) (s : Store) :
  let r := get_or_create_packet pid f t now s in
  first_where (same_packet pid f t) (packets r.1) = Some r.2 /\
  packet_id r.2 = pid /\ from_node r.2 = f /\ to_node r.2 = t /\
  nodes r.1 = nodes s /\ channels r.1 = channels s /\ edges r.1 = edges s /\
  (forall old, first_where (same_packet pid f t) (packets s) = Some old ->
               r.2 = old /\ packets r.1 = packets s) /\
  (first_where (same_packet pid f t) (packets s) = None ->
   pkt_time r.2 = Some now /\ length (packets r.1) = S (length (packets s))).
Proof.
  cbn zeta. unfold get_or_create_packet.
  destruct (first_where (same_packet pid f t) (packets s)) as [p|] eqn:Hp.
  - cbn. split; [done|].
    apply first_where_holds in Hp as [Hp _].
    apply andb_prop in Hp as [Hp Ht]. apply andb_prop in Hp as [Hi Hf].
    apply bool_decide_eq_true in Hi, Hf, Ht.
    do 6 (split; [done|]). split; [|done]. by intros old [= <-].
  - cbn. split.
    + apply first_where_append; [done|].
      unfold same_packet. cbn. by rewrite !bool_decide_eq_true_2.
    + do 6 (split; [done|]). split; [done|]. intros _. split; [done|].
      rewrite length_app. cbn. lia.
Qed.

(** The steps of [on_message_upserts], for a run that succeeded. *)
Lemma on_message_upserts_steps (interface : Interface) (normalized : Normalized)
    (now : Z) (s s7 : Store) (packet_obj : Packet) (channel : Channel) (pki : bool) :
  on_message_upserts interface normalized now s = Ok (s7, packet_obj, channel, pki) ->
  let packet := n_packet normalized in
  let gid := effective_gateway_id interface normalized in
  exists gnum : Z,
    match gid ≫= nonempty with Some g => id_to_num g | None => Ok 0 end = Ok gnum /\
    let r1 := _get_or_update_node (mp_from packet) (Some (num_to_id (mp_from packet)))
                (Some (str_upper (num_to_mac (mp_from packet)))) s in
    let s2 := match gid with
              | Some g => (_get_or_update_node gnum (Some g)
                             (Some (str_upper (num_to_mac gnum))) r1.1).1
              | None => r1.1
              end in
    let r3 := _get_or_update_node (mp_to packet) (Some (num_to_id (mp_to packet)))
                (Some (str_upper (num_to_mac (mp_to packet)))) s2 in
    let r4 := get_or_create_channel (n_channel_id normalized)
                (Some (mp_channel packet)) r3.1 in
    let r5 := get_or_create_packet (Some (mp_id packet)) (mp_from packet)
                (mp_to packet) now r4.1 in
    channel = r4.2 /\
    pki = (mp_pki_encrypted packet || bool_decide (n_channel_id normalized = "PKI")) /\
    packet_obj =
      {| pkt_pk := pkt_pk r5.2; packet_id := packet_id r5.2;
         from_node := from_node r5.2; to_node := to_node r5.2;
         pkt_time := pkt_time r5.2; pkt_rx_rssi := Some (mp_rx_rssi packet);
         pkt_rx_snr := quantize (mp_rx_snr packet) 2;
         pkt_hop_limit := Some (mp_hop_limit packet);
         pkt_hop_start := Some (mp_hop_start packet);
         pkt_want_ack := Some (mp_want_ack packet);
         ackd := if mp_want_ack packet then Some false else None;
         pkt_pki_encrypted := pki; raw_data := raw_data r5.2 |} /\
    s7 = match gid with
         | Some _ =>
             upsert_edge (mp_from packet) gnum (Some (pkt_pk packet_obj))
               (Some (mp_rx_rssi packet)) (quantize (mp_rx_snr packet) 2)
               (Some (compute_hops (Some (mp_hop_limit packet))
                                   (Some (mp_hop_start packet))))
               (save_packet packet_obj r5.1)
         | None => save_packet packet_obj r5.1
         end.
Proof.
  intros Hups. cbn zeta. unfold on_message_upserts in Hups.
  destruct (match effective_gateway_id interface normalized ≫= nonempty with
            | Some g => id_to_num g
            | None => Ok 0
            end) as [gnum|err]; [|done].
  exists gnum. split; [done|]. cbn [rbind] in Hups.
  pose proof (_get_or_update_node_num (mp_from (n_packet normalized))
    (Some (num_to_id (mp_from (n_packet normalized))))
    (Some (str_upper (num_to_mac (mp_from (n_packet normalized))))) s) as Hfrom.
  destruct (_get_or_update_node (mp_from (n_packet normalized)) _ _ s)
    as [s1 from_node'].
  cbn [fst snd] in *.
  destruct (effective_gateway_id interface normalized) as [g|].
  - pose proof (_get_or_update_node_num gnum (Some g)
      (Some (str_upper (num_to_mac gnum))) s1) as Hgw.
    destruct (_get_or_update_node gnum _ _ s1) as [s2 gw]. cbn [fst snd] in *.
    pose proof (_get_or_update_node_num (mp_to (n_packet normalized))
      (Some (num_to_id (mp_to (n_packet normalized))))
      (Some (str_upper (num_to_mac (mp_to (n_packet normalized))))) s2) as Hto.
    destruct (_get_or_update_node (mp_to (n_packet normalized)) _ _ s2)
      as [s3 to_node']. cbn [fst snd] in *.
    destruct (get_or_create_channel _ _ s3) as [s4 ch]. cbn [fst snd].
    rewrite Hfrom, Hto, Hgw in Hups.
    destruct (get_or_create_packet _ _ _ _ s4) as [s5 found]. cbn [fst snd].
    by injection Hups as <- <- <- <-.
  - pose proof (_get_or_update_node_num (mp_to (n_packet normalized))
      (Some (num_to_id (mp_to (n_packet normalized))))
      (Some (str_upper (num_to_mac (mp_to (n_packet normalized))))) s1) as Hto.
    destruct (_get_or_update_node (mp_to (n_packet normalized)) _ _ s1)
      as [s3 to_node']. cbn [fst snd] in *.
    destruct (get_or_create_channel _ _ s3) as [s4 ch]. cbn [fst snd].
    rewrite Hfrom, Hto in Hups.
    destruct (get_or_create_packet _ _ _ _ s4) as [s5 found]. cbn [fst snd].
    by injection Hups as <- <- <- <-.
Qed.

(** X13. After the upserts of [on_message] the sender, the recipient and,
    when the envelope names one, the gateway are stored as nodes, and the
    channel that is handed on is the stored channel with the envelope's
    channel id and the packet's channel number. *)
Theorem on_message_upserts_nodes (interface : Interface) (normalized : Normalized)
    (now : Z) (s s7 : Store) (packet_obj : Packet) (channel : Channel) (pki : bool) :
  on_message_upserts interface normalized now s = Ok (s7, packet_obj, channel, pki) ->
  is_Some (first_where (has_node_num (mp_from (n_packet normalized))) (nodes s7)) /\
  is_Some (first_where (has_node_num (mp_to (n_packet normalized))) (nodes s7)) /\
  (forall g, effective_gateway_id interface normalized = Some g ->
     exists gnum,
       match nonempty g with Some g' => id_to_num g' | None => Ok 0 end = Ok gnum /\
       is_Some (first_where (has_node_num gnum) (nodes s7))) /\
  first_where (same_channel (n_channel_id normalized)
                 (Some (mp_channel (n_packet normalized)))) (channels s7)
    = Some channel /\
  (forall m, is_Some (first_where (has_node_num m) (nodes s)) ->
             is_Some (first_where (has_node_num m) (nodes s7))).
Proof.
  intros Hups.
  destruct (on_message_upserts_steps _ _ _ _ _ _ _ _ Hups)
    as (gnum & Hgnum & Hch & _ & _ & Hs7).
  cbn zeta in *.
  set (packet := n_packet normalized) in *.
  set (r1 := _get_or_update_node (mp_from packet) _ _ s) in *.
  set (s2 := match effective_gateway_id interface normalized with
             | Some g => (_get_or_update_node _ _ _ _).1
             | None => _
             end) in *.
  set (r3 := _get_or_update_node (mp_to packet) _ _ s2) in *.
  set (r4 := get_or_create_channel _ _ r3.1) in *.
  set (r5 := get_or_create_packet _ _ _ _ r4.1) in *.
  destruct (get_or_create_channel_found (n_channel_id normalized)
              (Some (mp_channel packet)) r3.1) as (Hc4 & Hn4 & _).
  destruct (get_or_create_packet_found (Some (mp_id packet)) (mp_from packet)
              (mp_to packet) now r4.1) as (_ & _ & _ & _ & Hn5 & Hc5 & _).
  fold r4 in Hc4, Hn4. fold r5 in Hn5, Hc5.
  assert (Hnodes : nodes s7 = nodes r3.1).
  { rewrite Hs7. destruct (effective_gateway_id interface normalized);
      [destruct (upsert_edge_tables (mp_from packet) gnum (Some (pkt_pk packet_obj))
         (Some (mp_rx_rssi packet)) (quantize (mp_rx_snr packet) 2)
         (Some (compute_hops (Some (mp_hop_limit packet)) (Some (mp_hop_start packet))))
         (save_packet packet_obj r5.1)) as (-> & _)|];
      cbn [nodes save_packet set_packets]; congruence. }
  assert (Hchannels : channels s7 = channels r4.1).
  { rewrite Hs7. destruct (effective_gateway_id interface normalized);
      [destruct (upsert_edge_tables (mp_from packet) gnum (Some (pkt_pk packet_obj))
         (Some (mp_rx_rssi packet)) (quantize (mp_rx_snr packet) 2)
         (Some (compute_hops (Some (mp_hop_limit packet)) (Some (mp_hop_start packet))))
         (save_packet packet_obj r5.1)) as (_ & _ & _ & _ & _ & ->)|];
      cbn [channels save_packet set_packets]; congruence. }
  assert (Hs2 : forall m, is_Some (first_where (has_node_num m) (nodes r1.1)) ->
                          is_Some (first_where (has_node_num m) (nodes s2))).
  { intros m Hm. subst s2.
    destruct (effective_gateway_id interface normalized); [|done].
    by apply _get_or_update_node_keeps. }
  rewrite Hnodes, Hchannels.
  split; [|split; [|split; [|split]]].
  - apply _get_or_update_node_keeps, Hs2.
    subst r1. rewrite _get_or_update_node_found. eauto.
  - subst r3. rewrite _get_or_update_node_found. eauto.
  - intros g Hg. exists gnum. subst r3 s2. rewrite Hg in Hgnum |- *.
    cbn [mbind option_bind] in Hgnum. split; [done|].
    apply _get_or_update_node_keeps. cbv iota.
    rewrite _get_or_update_node_found. eauto.
  - by rewrite Hch.
  - intros m Hm. apply _get_or_update_node_keeps, Hs2.
    by apply _get_or_update_node_keeps.
Qed.

Lemma on_message_upserts_packet_row_facts (interface : Interface)
    (normalized : Normalized) (now : Z) (s s7 : Store) (packet_obj : Packet)
    (channel : Channel) (pki : bool) :
  on_message_upserts interface normalized now s = Ok (s7, packet_obj, channel, pki) ->
  let packet := n_packet normalized in
  first_where (same_packet (Some (mp_id packet)) (mp_from packet) (mp_to packet))
              (packets s7) = Some packet_obj /\
  packet_id packet_obj = Some (mp_id packet) /\
  from_node packet_obj = mp_from packet /\ to_node packet_obj = mp_to packet.
Proof.
  intros Hups.
  destruct (on_message_upserts_steps _ _ _ _ _ _ _ _ Hups)
    as (gnum & Hgnum & _ & _ & Hobj & Hs7).
  cbn zeta in *.
  set (packet := n_packet normalized) in *.
  set (r1 := _get_or_update_node (mp_from packet) _ _ s) in *.
  set (s2 := match effective_gateway_id interface normalized with
             | Some g => (_get_or_update_node _ _ _ _).1
             | None => _
             end) in *.
  set (r3 := _get_or_update_node (mp_to packet) _ _ s2) in *.
  set (r4 := get_or_create_channel _ _ r3.1) in *.
  set (r5 := get_or_create_packet _ _ _ _ r4.1) in *.
  destruct (get_or_create_packet_found (Some (mp_id packet)) (mp_from packet)
              (mp_to packet) now r4.1)
    as (Hfound & Hid & Hfrom & Hto & _).
  fold r5 in Hfound, Hid, Hfrom, Hto.
  assert (Hpackets : packets s7 = packets (save_packet packet_obj r5.1)).
  { rewrite Hs7. destruct (effective_gateway_id interface normalized); [|done].
    by destruct (upsert_edge_tables (mp_from packet) gnum (Some (pkt_pk packet_obj))
         (Some (mp_rx_rssi packet)) (quantize (mp_rx_snr packet) 2)
         (Some (compute_hops (Some (mp_hop_limit packet)) (Some (mp_hop_start packet))))
         (save_packet packet_obj r5.1)) as (_ & -> & _). }
  split.
  - rewrite Hpackets. cbn [packets save_packet set_packets].
    apply (first_where_save _ pkt_pk packet_obj r5.2); [exact Hfound| |by rewrite Hobj].
    rewrite Hobj. unfold same_packet. cbn. rewrite Hid, Hfrom, Hto.
    by rewrite !bool_decide_eq_true_2.
  - rewrite Hobj. cbn. done.
Qed.

(** X14. After the upserts of [on_message] the packet row is found under
    (packet id, sender, recipient) and equals the object that is handed on:
    it carries the envelope's signal and hop values, and [ackd] is [False]
    when the packet wants an ack and null otherwise, also when the row was
    already there and had been acknowledged. A known packet keeps its row,
    key and time; an unknown one gets one new row stamped with the current
    time. *)
Theorem on_message_upserts_packet_row (interface : Interface)
    (normalized : Normalized) (now : Z) (s s7 : Store) (packet_obj : Packet)
    (channel : Channel) (pki : bool) :
  on_message_upserts interface normalized now s = Ok (s7, packet_obj, channel, pki) ->
  let packet := n_packet normalized in
  let same := same_packet (Some (mp_id packet)) (mp_from packet) (mp_to packet) in
  first_where same (packets s7) = Some packet_obj /\
  packet_id packet_obj = Some (mp_id packet) /\
  from_node packet_obj = mp_from packet /\ to_node packet_obj = mp_to packet /\
  pkt_rx_rssi packet_obj = Some (mp_rx_rssi packet) /\
  pkt_rx_snr packet_obj = quantize (mp_rx_snr packet) 2 /\
  pkt_hop_limit packet_obj = Some (mp_hop_limit packet) /\
  pkt_hop_start packet_obj = Some (mp_hop_start packet) /\
  pkt_want_ack packet_obj = Some (mp_want_ack packet) /\
  ackd packet_obj = (if mp_want_ack packet then Some false else None) /\
  (forall old, first_where same (packets s) = Some old ->
     pkt_pk packet_obj = pkt_pk old /\ pkt_time packet_obj = pkt_time old /\
     raw_data packet_obj = raw_data old /\
     length (packets s7) = length (packets s)) /\
  (first_where same (packets s) = None ->
     pkt_time packet_obj = Some now /\
     length (packets s7) = S (length (packets s))).
Proof.
  intros Hups.
  destruct (on_message_upserts_steps _ _ _ _ _ _ _ _ Hups)
    as (gnum & Hgnum & _ & _ & Hobj & Hs7).
  cbn zeta in *.
  set (packet := n_packet normalized) in *.
  set (r1 := _get_or_update_node (mp_from packet) _ _ s) in *.
  set (s2 := match effective_gateway_id interface normalized with
             | Some g => (_get_or_update_node _ _ _ _).1
             | None => _
             end) in *.
  set (r3 := _get_or_update_node (mp_to packet) _ _ s2) in *.
  set (r4 := get_or_create_channel _ _ r3.1) in *.
  set (r5 := get_or_create_packet _ _ _ _ r4.1) in *.
  destruct (get_or_create_channel_found (n_channel_id normalized)
              (Some (mp_channel packet)) r3.1) as (_ & _ & Hp4 & _).
  destruct (get_or_create_packet_found (Some (mp_id packet)) (mp_from packet)
              (mp_to packet) now r4.1)
    as (Hfound & Hid & Hfrom & Hto & _ & _ & _ & Hold & Hnew).
  fold r4 in Hp4, Hfound, Hid, Hfrom, Hto, Hold, Hnew.
  fold r5 in Hfound, Hid, Hfrom, Hto, Hold, Hnew.
  assert (Hp0 : packets r4.1 = packets s).
  { rewrite Hp4. subst r3.
    destruct (_get_or_update_node_tables (mp_to packet) (Some (num_to_id (mp_to packet)))
      (Some (str_upper (num_to_mac (mp_to packet)))) s2) as (-> & _).
    subst s2. destruct (effective_gateway_id interface normalized) as [g|].
    - destruct (_get_or_update_node_tables gnum (Some g)
        (Some (str_upper (num_to_mac gnum))) r1.1) as (-> & _).
      subst r1. by destruct (_get_or_update_node_tables (mp_from packet)
        (Some (num_to_id (mp_from packet)))
        (Some (str_upper (num_to_mac (mp_from packet)))) s) as (-> & _).
    - subst r1. by destruct (_get_or_update_node_tables (mp_from packet)
        (Some (num_to_id (mp_from packet)))
        (Some (str_upper (num_to_mac (mp_from packet)))) s) as (-> & _). }
  assert (Hpackets : packets s7 = packets (save_packet packet_obj r5.1)).
  { rewrite Hs7. destruct (effective_gateway_id interface normalized); [|done].
    by destruct (upsert_edge_tables (mp_from packet) gnum (Some (pkt_pk packet_obj))
         (Some (mp_rx_rssi packet)) (quantize (mp_rx_snr packet) 2)
         (Some (compute_hops (Some (mp_hop_limit packet)) (Some (mp_hop_start packet))))
         (save_packet packet_obj r5.1)) as (_ & -> & _). }
  assert (Hlen : length (packets s7) = length (packets r5.1)).
  { rewrite Hpackets. cbn. apply update_where_length. }
  split.
  - rewrite Hpackets. cbn [packets save_packet set_packets].
    apply (first_where_save _ pkt_pk packet_obj r5.2); [exact Hfound| |by rewrite Hobj].
    rewrite Hobj. unfold same_packet. cbn. rewrite Hid, Hfrom, Hto.
    by rewrite !bool_decide_eq_true_2.
  - subst packet_obj. cbn [packet_id from_node to_node pkt_rx_rssi pkt_rx_snr
      pkt_hop_limit pkt_hop_start pkt_want_ack ackd pkt_pk pkt_time raw_data].
    do 9 (split; [done|]). split.
    + intros old Hsome. rewrite <- Hp0 in Hsome.
      destruct (Hold old Hsome) as [Heq Hrows].
      rewrite Hlen, Hrows, Hp0. by rewrite Heq.
    + intros Hnone. rewrite <- Hp0 in Hnone.
      destruct (Hnew Hnone) as [Htime Hlen'].
      by rewrite Hlen, Hlen', Hp0.
Qed.

(** X15. The upserts of [on_message] write at most one edge, and only from
    the sender: an envelope without a gateway id (as from an interface that
    has none, and no bound serial node) leaves the edge table exactly as it
    was, and with a gateway every edge whose source is not the sender is
    found as before. *)
Theorem on_message_upserts_edges (interface : Interface) (normalized : Normalized)
    (now : Z) (s s7 : Store) (packet_obj : Packet) (channel : Channel) (pki : bool) :
  on_message_upserts interface normalized now s = Ok (s7, packet_obj, channel, pki) ->
  (effective_gateway_id interface normalized = None -> edges s7 = edges s) /\
  (forall src tgt, src <> mp_from (n_packet normalized) ->
                   find_edge src tgt s7 = find_edge src tgt s) /\
  (length (edges s) <= length (edges s7) <= S (length (edges s)))%nat.
Proof.
  intros Hups.
  destruct (on_message_upserts_steps _ _ _ _ _ _ _ _ Hups)
    as (gnum & Hgnum & _ & _ & _ & Hs7).
  cbn zeta in *.
  set (packet := n_packet normalized) in *.
  set (r1 := _get_or_update_node (mp_from packet) _ _ s) in *.
  set (s2 := match effective_gateway_id interface normalized with
             | Some g => (_get_or_update_node _ _ _ _).1
             | None => _
             end) in *.
  set (r3 := _get_or_update_node (mp_to packet) _ _ s2) in *.
  set (r4 := get_or_create_channel _ _ r3.1) in *.
  set (r5 := get_or_create_packet _ _ _ _ r4.1) in *.
  destruct (get_or_create_channel_found (n_channel_id normalized)
              (Some (mp_channel packet)) r3.1) as (_ & _ & _ & He4).
  destruct (get_or_create_packet_found (Some (mp_id packet)) (mp_from packet)
              (mp_to packet) now r4.1) as (_ & _ & _ & _ & _ & _ & He5 & _).
  fold r4 in He4, He5. fold r5 in He5.
  assert (He0 : edges (save_packet packet_obj r5.1) = edges s).
  { cbn [edges save_packet set_packets]. rewrite He5, He4. subst r3.
    destruct (_get_or_update_node_tables (mp_to packet) (Some (num_to_id (mp_to packet)))
      (Some (str_upper (num_to_mac (mp_to packet)))) s2) as (_ & _ & _ & -> & _).
    subst s2. destruct (effective_gateway_id interface normalized) as [g|].
    - destruct (_get_or_update_node_tables gnum (Some g)
        (Some (str_upper (num_to_mac gnum))) r1.1) as (_ & _ & _ & -> & _).
      subst r1. by destruct (_get_or_update_node_tables (mp_from packet)
        (Some (num_to_id (mp_from packet)))
        (Some (str_upper (num_to_mac (mp_from packet)))) s) as (_ & _ & _ & -> & _).
    - subst r1. by destruct (_get_or_update_node_tables (mp_from packet)
        (Some (num_to_id (mp_from packet)))
        (Some (str_upper (num_to_mac (mp_from packet)))) s) as (_ & _ & _ & -> & _). }
  destruct (effective_gateway_id interface normalized) as [g|].
  - split; [done|]. rewrite Hs7. split.
    + intros src tgt Hsrc. rewrite find_edge_upsert_edge_other by congruence.
      unfold find_edge. by rewrite He0.
    + unfold upsert_edge. rewrite He0.
      destruct (first_where _ (edges s)); cbn [edges set_edges].
      * rewrite update_where_length. lia.
      * rewrite length_app. cbn. lia.
  - rewrite Hs7, He0. split; [done|]. split; [|lia].
    intros src tgt _. unfold find_edge. by rewrite He0.
Qed.

End UpsertFacts.

Lemma on_message_upserts_nodes_witness :
  exists (s7 : Store) (packet_obj : Packet) (channel : Channel) (pki : bool),
    @on_message_upserts example_external example_mqtt example_inbound 0 example_store
      = Ok (s7, packet_obj, channel, pki) /\
    is_Some (first_where (has_node_num 2) (nodes s7)) /\
    is_Some (first_where (has_node_num 4294967295) (nodes s7)) /\
    first_where (same_channel "LongFast" (Some 8)) (channels s7) = Some channel.
Proof.
  destruct (@on_message_upserts example_external example_mqtt example_inbound 0
              example_store) as [[[[s7 packet_obj] channel] pki]|e] eqn:Hups;
    [|vm_compute in Hups; discriminate].
  exists s7, packet_obj, channel, pki. split; [reflexivity|].
  destruct (@on_message_upserts_nodes example_external _ _ _ _ _ _ _ _ Hups)
    as (Hfrom & Hto & _ & Hchannel & _).
  split; [exact Hfrom|]. split; [exact Hto | exact Hchannel].
Defined.

Lemma on_message_upserts_packet_row_witness :
  exists (s7 : Store) (packet_obj : Packet) (channel : Channel) (pki : bool),
    @on_message_upserts example_external example_mqtt example_inbound 0 example_store
      = Ok (s7, packet_obj, channel, pki) /\
    first_where (same_packet (Some 77) 2 4294967295) (packets s7) = Some packet_obj /\
    ackd packet_obj = None.
Proof.
  destruct (@on_message_upserts example_external example_mqtt example_inbound 0
              example_store) as [[[[s7 packet_obj] channel] pki]|e] eqn:Hups;
    [|vm_compute in Hups; discriminate].
  exists s7, packet_obj, channel, pki. split; [reflexivity|].
  destruct (@on_message_upserts_packet_row example_external _ _ _ _ _ _ _ _ Hups)
    as (Hrow & _ & _ & _ & _ & _ & _ & _ & _ & Hackd & _).
  split; [exact Hrow | exact Hackd].
Defined.

Lemma on_message_upserts_edges_witness :
  exists (s7 : Store) (packet_obj : Packet) (channel : Channel) (pki : bool),
    @on_message_upserts example_external example_mqtt example_inbound 0 example_store
      = Ok (s7, packet_obj, channel, pki) /\
    (length (edges example_store) <= length (edges s7)
     <= S (length (edges example_store)))%nat.
Proof.
  destruct (@on_message_upserts example_external example_mqtt example_inbound 0
              example_store) as [[[[s7 packet_obj] channel] pki]|e] eqn:Hups;
    [|vm_compute in Hups; discriminate].
  exists s7, packet_obj, channel, pki. split; [reflexivity|].
  destruct (@on_message_upserts_edges example_external _ _ _ _ _ _ _ _ Hups)
    as (_ & _ & Hlen).
  exact Hlen.
Defined.

(** ** Publishing a traceroute and reacting to received packets *)

Section PublishTracerouteFacts.
Context `{!External}.

Lemma publish_traceroute_cases (svc : PublisherService)
    (from_node' to_node' channel_name channel_aes_key : string)
    (hop_limit hop_start : Z) (want_ack : bool) (gateway_node : option string)
    (publisher : option PublishableInterface) (base_topic : option string)
    (record_pending : bool) (now : Z) (s : Store) :
  let mid := global_message_id svc + 1 in
  let run := publish_traceroute svc from_node' to_node' channel_name channel_aes_key
               hop_limit hop_start want_ack gateway_node publisher base_topic
               record_pending now s in
  run.1.1 = with_message_id mid svc /\
  ((exists e, run.2 = Raise e /\ run.1.2 = s) \/
   (run.2 = Ok (false, None) /\ run.1.2 = s) \/
   (run.2 = Ok (true, Some mid) /\
    run.1.2 = if record_pending then record_pending_probe to_node' mid now s else s)).
Proof.
  cbn zeta. unfold publish_traceroute.
  destruct (rbind _ _) as [[|]|e]; cbn; eauto 6.
Qed.

Lemma record_pending_probe_tables (to_node' : string) (mid now : Z) (s : Store) :
  let s' := record_pending_probe to_node' mid now s in
  packets s' = packets s /\ packet_data s' = packet_data s /\ edges s' = edges s /\
  channels s' = channels s /\ nodeinfo_payloads s' = nodeinfo_payloads s /\
  node_num <$> nodes s' = node_num <$> nodes s /\
  (length (latency_history s) <= length (latency_history s')
   <= S (length (latency_history s)))%nat.
Proof.
  cbn zeta. unfold record_pending_probe.
  destruct (first_node_with_id to_node' s) as [target|].
  - cbn. rewrite length_app. cbn.
    do 5 (split; [done|]). split; [|lia].
    by apply update_where_erase.
  - do 6 (split; [done|]). lia.
Qed.

Lemma record_pending_probe_nodes (to_node' : string) (mid now : Z) (s : Store)
    (target : Node) :
  first_node_with_id to_node' s = Some target ->
  nodes (record_pending_probe to_node' mid now s) =
  update_where (has_node_num (node_num target)) (with_latency (Some false) None)
               (nodes s).
Proof. intros Ht. unfold record_pending_probe. by rewrite Ht. Qed.


End PublishTracerouteFacts.

Section ReactiveFacts.
Context `{!External}.
Variable port_value : string -> result Z.
Variable port_name : Z -> result string.
Variable get_runtime_interface : Z -> option InterfaceWrapper.
Variable stored_interfaces : list Z.

Lemma _should_inject_for_node_frame (svc : PublisherService) (node : string)
    (max_tries now : Z) :
  let r := _should_inject_for_node svc node max_tries now in
  global_message_id r.1 = global_message_id svc /\
  _publisher r.1 = _publisher svc /\
  _attempt_window r.1 = _attempt_window svc /\
  (forall k, k <> node -> _reactive_attempts r.1 !! k = _reactive_attempts svc !! k) /\
  (r.2 = false -> r.1 = svc).
Proof.
  cbn zeta. unfold _should_inject_for_node.
  repeat case_match; cbn; repeat split; try done;
    intros k Hk; by rewrite lookup_insert_ne.
Qed.

(** X17. [on_packet_received] does nothing at all (no attempt is counted, no
    message id is drawn, the store is untouched) when reactions are not
    running, when the configuration names no source node, when the packet
    row is missing, when the sender has no node id, or when the sender is
    the configured source node itself. *)
Theorem on_packet_received_gates (rs : ReactiveService)
    (decoded_data : option Data) (portnum' : option Z) (from_node' : Node)
    (packet_obj : option PacketLinks) (now now' : Z) (s : Store) :
  _reactive_enabled rs = false \/
  cfg_from_node (_reactive_config rs) = "" \/
  packet_obj = None \/
  node_id from_node' ≫= nonempty = None \/
  node_id from_node' = Some (cfg_from_node (_reactive_config rs)) ->
  on_packet_received port_name get_runtime_interface rs decoded_data portnum'
    from_node' packet_obj now now' s = (rs, s).
Proof.
  intros Hgate. unfold on_packet_received.
  destruct (_reactive_enabled rs); cbn [negb]; [|done].
  case_bool_decide as Hfrom; [done|].
  destruct Hgate as [? | [? | [-> | [Hid | Hid]]]]; try done.
  - cbn. destruct (select_interface _ _); done.
  - destruct (select_interface _ _) as [sel|]; [|done].
    destruct (select_channel sel packet_obj) as [ch|]; [|done].
    case_bool_decide; [done|]. case_bool_decide; [done|].
    by rewrite Hid.
  - destruct (select_interface _ _) as [sel|]; [|done].
    destruct (select_channel sel packet_obj) as [ch|]; [|done].
    case_bool_decide; [done|]. case_bool_decide; [done|].
    rewrite Hid. cbn. unfold nonempty.
    rewrite bool_decide_eq_false_2 by done.
    by rewrite bool_decide_eq_true_2.
Qed.

(** X18. Whatever the packet, [on_packet_received] keeps the reactive flag,
    the configuration and the publishers; it draws at most one message id
    and touches the attempt entry of the sender only. Anything changes only
    for a sender with a node id other than the source node that the rate
    limiter lets through; the attempt is then counted even if nothing gets
    published. The store changes only by the pending probe of a published
    traceroute, exactly as [publish_traceroute] records it when asked to:
    packets, packet data, edges and channels are never touched. *)
Theorem on_packet_received_frame (rs : ReactiveService)
    (decoded_data : option Data) (portnum' : option Z) (from_node' : Node)
    (packet_obj : option PacketLinks) (now now' : Z) (s : Store) :
  let run := on_packet_received port_name get_runtime_interface rs decoded_data
               portnum' from_node' packet_obj now now' s in
  let config := _reactive_config rs in
  let gid := global_message_id (rs_service rs) in
  (_reactive_enabled run.1 = _reactive_enabled rs /\
   _reactive_config run.1 = config /\
   _reactive_publisher run.1 = _reactive_publisher rs /\
   _reactive_base_topic run.1 = _reactive_base_topic rs /\
   _publisher (rs_service run.1) = _publisher (rs_service rs)) /\
  (global_message_id (rs_service run.1) = gid \/
   global_message_id (rs_service run.1) = gid + 1) /\
  (forall k, node_id from_node' <> Some k ->
     _reactive_attempts (rs_service run.1) !! k
     = _reactive_attempts (rs_service rs) !! k) /\
  (run <> (rs, s) ->
   exists target svc1,
     node_id from_node' = Some target /\ target <> cfg_from_node config /\
     _should_inject_for_node (rs_service rs) target (cfg_max_tries config) now
       = (svc1, true) /\
     _reactive_attempts (rs_service run.1) = _reactive_attempts svc1) /\
  (run.2 = s \/
   exists target,
     node_id from_node' = Some target /\
     global_message_id (rs_service run.1) = gid + 1 /\
     run.2 = record_pending_probe target (gid + 1) now' s) /\
  (packets run.2 = packets s /\ packet_data run.2 = packet_data s /\
   edges run.2 = edges s /\ channels run.2 = channels s).
Proof.
  cbn zeta.
  assert (Hsame :
    (_reactive_enabled rs = _reactive_enabled rs /\
     _reactive_config rs = _reactive_config rs /\
     _reactive_publisher rs = _reactive_publisher rs /\
     _reactive_base_topic rs = _reactive_base_topic rs /\
     _publisher (rs_service rs) = _publisher (rs_service rs)) /\
    (global_message_id (rs_service rs) = global_message_id (rs_service rs) \/
     global_message_id (rs_service rs) = global_message_id (rs_service rs) + 1) /\
    (forall k, node_id from_node' <> Some k ->
       _reactive_attempts (rs_service rs) !! k
       = _reactive_attempts (rs_service rs) !! k) /\
    ((rs, s) <> (rs, s) ->
     exists target svc1,
       node_id from_node' = Some target /\
       target <> cfg_from_node (_reactive_config rs) /\
       _should_inject_for_node (rs_service rs) target
         (cfg_max_tries (_reactive_config rs)) now = (svc1, true) /\
       _reactive_attempts (rs_service rs) = _reactive_attempts svc1) /\
    (s = s \/
     exists target,
       node_id from_node' = Some target /\
       global_message_id (rs_service rs) = global_message_id (rs_service rs) + 1 /\
       s = record_pending_probe target (global_message_id (rs_service rs) + 1) now' s) /\
    (packets s = packets s /\ packet_data s = packet_data s /\
     edges s = edges s /\ channels s = channels s)).
  { repeat split; auto. done. }
  unfold on_packet_received.
  destruct (negb (_reactive_enabled rs)); [exact Hsame|].
  case_bool_decide as Hfrom; [exact Hsame|].
  destruct (select_interface _ _) as [sel|]; [|exact Hsame].
  destruct (select_channel sel packet_obj) as [ch|]; [|exact Hsame].
  case_bool_decide as Hcid; [exact Hsame|].
  case_bool_decide as Hkey; [exact Hsame|].
  destruct (node_id from_node' ≫= nonempty) as [target|] eqn:Htarget; [|exact Hsame].
  assert (Hid : node_id from_node' = Some target).
  { destruct (node_id from_node') as [i|]; [|done]. cbn in Htarget.
    unfold nonempty in Htarget. case_bool_decide; congruence. }
  case_bool_decide as Hecho; [exact Hsame|].
  destruct (port_triggers _ _ _ _); cbn [negb]; [|exact Hsame].
  pose proof (_should_inject_for_node_frame (rs_service rs) target
                (cfg_max_tries (_reactive_config rs)) now)
    as (Hg1 & Hp1 & _ & Hk1 & Hno1).
  destruct (_should_inject_for_node (rs_service rs) target
              (cfg_max_tries (_reactive_config rs)) now) as [svc1 allowed] eqn:Hinj.
  cbn [fst snd] in *.
  destruct allowed; cbn [negb].
  2:{ rewrite (Hno1 eq_refl).
      replace (with_service (rs_service rs) rs) with rs by (by destruct rs).
      exact Hsame. }
  destruct (_resolve_publish_context get_runtime_interface (with_service svc1 rs) sel)
    as [[pub|] base_topic].
  2:{ cbn. repeat split; auto.
      - intros k Hk. apply Hk1. congruence.
      - intros _. exists target, svc1. repeat split; auto. }
  set (gw := match nonempty (cfg_gateway_node (_reactive_config rs)) with
             | Some g => Some g
             | None => _
             end).
  destruct (publish_traceroute_cases svc1 (cfg_from_node (_reactive_config rs))
              target (channel_id ch)
              (match nonempty (cfg_channel_key (_reactive_config rs)) with
               | Some k => k
               | None => default "" (psk ch)
               end)
              (cfg_hop_limit (_reactive_config rs))
              (cfg_hop_start (_reactive_config rs))
              (cfg_want_ack (_reactive_config rs)) gw (Some pub) base_topic false
              now' s) as [Hsvc2 Hcases].
  cbn zeta in Hsvc2, Hcases.
  destruct (publish_traceroute svc1 _ _ _ _ _ _ _ _ _ _ _ _ _) as [[svc2 s1] r].
  cbn [fst snd] in *. subst svc2.
  pose proof (record_pending_probe_tables target (global_message_id svc1 + 1) now' s)
    as (Hp & Hd & He & Hc & _).
  cbn zeta in Hp, Hd, He, Hc.
  cbn [with_service with_message_id rs_service _reactive_enabled _reactive_config
       _reactive_publisher _reactive_base_topic _publisher global_message_id
       _reactive_attempts fst snd].
  rewrite Hg1 in Hp, Hd, He, Hc |- *.
  split; [by rewrite Hp1|]. split; [by right|].
  split; [intros k Hk; apply Hk1; congruence|].
  split; [intros _; exists target, svc1; repeat split; auto|].
  destruct Hcases as [(e & -> & ->) | [[-> ->] | [-> ->]]].
  - split; [by left | done].
  - split; [by left | done].
  - rewrite Hg1. split; [right; by exists target | done].
Qed.

(** X19. Stopping the reactive service turns [on_packet_received] into a
    no-op, and [update_reactive_config] with [enabled = True] does not turn
    it back on: only the stored flag changes, not the running one. Starting
    the service sets the running flag and forgets every counted attempt, so
    the first trigger of any node after a start is let through exactly when
    the node id is not empty and [max_tries] is at least 1. *)
Theorem reactive_start_stop (rs : ReactiveService)
    (decoded_data : option Data) (portnum' : option Z) (from_node' : Node)
    (packet_obj : option PacketLinks) (now now' : Z) (s : Store)
    (from_arg gateway_arg key_arg : option string) (hop_limit hop_start : option Z)
    (want_ack : option bool) (listen : option (list Z)) (max_tries : option Z)
    (ports : option (list string)) (node : string) (tries : Z) :
  let stopped := stop_reactive_service rs in
  let reconfigured :=
    update_reactive_config port_value stored_interfaces stopped (Some true)
      from_arg gateway_arg key_arg hop_limit hop_start want_ack listen max_tries
      ports in
  let started := start_reactive_service rs in
  on_packet_received port_name get_runtime_interface stopped decoded_data portnum'
    from_node' packet_obj now now' s = (stopped, s) /\
  cfg_enabled (_reactive_config reconfigured) = true /\
  on_packet_received port_name get_runtime_interface reconfigured decoded_data
    portnum' from_node' packet_obj now now' s = (reconfigured, s) /\
  _reactive_enabled started = true /\
  _reactive_attempts (rs_service started) = ∅ /\
  (_should_inject_for_node (rs_service started) node tries now).2
  = negb (bool_decide (node = "")) && bool_decide (1 <= tries).
Proof.
  cbn zeta. split; [done|]. split; [done|]. split; [done|].
  split; [done|]. split; [done|].
  unfold _should_inject_for_node.
  case_bool_decide as Hnode; [done|]. cbn [negb andb].
  case_bool_decide as Hmax.
  - rewrite bool_decide_eq_false_2 by lia. done.
  - cbn. rewrite lookup_empty. cbn. rewrite bool_decide_eq_true_2 by lia. done.
Qed.

(** X20. [update_reactive_config] never stores a negative [max_tries], an
    empty or unknown port name, or a listen interface that is not stored;
    the port names and interfaces it keeps come from the arguments, in the
    given order for the ports. Columns whose argument is not given keep
    their value, and the running flag, the attempt map and the message
    counter are not touched. *)
Theorem update_reactive_config_sanitizes (rs : ReactiveService)
    (enabled' : option bool) (from_arg gateway_arg key_arg : option string)
    (hop_limit hop_start : option Z) (want_ack : option bool)
    (listen : option (list Z)) (max_tries : option Z)
    (ports : option (list string)) :
  let rs' := update_reactive_config port_value stored_interfaces rs enabled'
               from_arg gateway_arg key_arg hop_limit hop_start want_ack listen
               max_tries ports in
  let config := _reactive_config rs in
  let config' := _reactive_config rs' in
  (forall m, max_tries = Some m ->
     0 <= cfg_max_tries config' /\ cfg_max_tries config' = Z.max 0 m) /\
  (forall given, ports = Some given ->
     sublist (cfg_trigger_ports config') given /\
     forall name, name ∈ cfg_trigger_ports config' <->
       name ∈ given /\ name <> "" /\ exists v, port_value name = Ok v) /\
  (forall ids, listen = Some ids ->
     forall i, i ∈ cfg_listen_interfaces config' <-> i ∈ stored_interfaces /\ i ∈ ids) /\
  (max_tries = None -> cfg_max_tries config' = cfg_max_tries config) /\
  (ports = None -> cfg_trigger_ports config' = cfg_trigger_ports config) /\
  (listen = None -> cfg_listen_interfaces config' = cfg_listen_interfaces config) /\
  _reactive_enabled rs' = _reactive_enabled rs /\
  rs_service rs' = rs_service rs.
Proof.
  cbn zeta. unfold update_reactive_config. cbn.
  split; [intros m ->; split; [lia | done]|].
  split.
  { intros given ->. split.
    - unfold sanitize_ports. induction given as [|x given IH]; cbn; [constructor|].
      destruct (_ && _); by constructor.
    - intros name. unfold sanitize_ports.
      rewrite list_elem_of_In, List.filter_In, <- list_elem_of_In.
      rewrite andb_true_iff, negb_true_iff, bool_decide_eq_false.
      destruct (port_value name) as [v|e].
      + split; intros (? & ? & ?); eauto.
      + split; [by intros (? & ? & ?) | by intros (? & ? & v & ?)]. }
  split.
  { intros ids -> i.
    rewrite list_elem_of_In, List.filter_In, <- list_elem_of_In.
    by rewrite bool_decide_eq_true. }
  repeat split; by intros ->.
Qed.

End ReactiveFacts.

Lemma on_packet_received_gates_witness :
  node_id node_A = Some (cfg_from_node (_reactive_config example_reactive)) /\
  @on_packet_received example_external (fun _ => Raise "ValueError") (fun _ => None)
    example_reactive (Some example_text) (Some TEXT_MESSAGE_APP) node_A
    (Some example_links) 0 0 example_store
  = (example_reactive, example_store).
Proof.
  split; [reflexivity|].
  apply (@on_packet_received_gates example_external).
  right. right. right. right. reflexivity.
Defined.

(** ** The rate limiter over a sequence of triggers *)

Section TriggerFacts.

Lemma inject_each_window (max_tries : Z) (triggers : list (string * Z)) :
  forall svc, _attempt_window (inject_each svc max_tries triggers).1 = _attempt_window svc.
Proof.
  induction triggers as [|[k t] rest IH]; intros svc; cbn; [done|].
  pose proof (_should_inject_for_node_frame svc k max_tries t) as (_ & _ & Hw & _).
  destruct (_should_inject_for_node svc k max_tries t) as [svc1 allowed].
  specialize (IH svc1).
  destruct (inject_each svc1 max_tries rest) as [svc2 answers].
  cbn in *. congruence.
Qed.

Lemma inject_each_open_window (node : string) (max_tries t1 : Z)
    (triggers : list (string * Z)) :
  node <> "" -> 1 <= max_tries ->
  forall (svc : PublisherService) (data : Attempt),
    _reactive_attempts svc !! node = Some data ->
    first data = Some t1 ->
    1 <= count data <= max_tries ->
    (forall t, (node, t) ∈ triggers -> t - t1 < _attempt_window svc) ->
    Z.of_nat (allowed_for node (inject_each svc max_tries triggers).2)
    = Z.min (max_tries - count data) (Z.of_nat (triggers_of node triggers)).
Proof.
  intros Hnode Hmax.
  induction triggers as [|[k t] rest IH]; intros svc data Hdata Hfirst Hcount Hwin.
  - cbn. lia.
  - cbn [inject_each].
    destruct (decide (k = node)) as [->|Hk].
    + assert (Ht : t - t1 < _attempt_window svc) by apply Hwin, list_elem_of_here.
      destruct (decide (count data < max_tries)) as [Hlt|Hge].
      * rewrite (should_inject_within svc node max_tries t data t1) by (done || lia).
        specialize (IH
          (with_attempts
             (<[node := {| count := count data + 1; first := Some t1; last := t |}]>
                (_reactive_attempts svc)) svc)
          {| count := count data + 1; first := Some t1; last := t |}).
        destruct (inject_each _ max_tries rest) as [svc2 answers].
        cbn [snd] in *. unfold allowed_for, triggers_of in *. cbn [List.filter fst].
        rewrite !bool_decide_eq_true_2 by done. cbn [length].
        rewrite !Nat2Z.inj_succ, IH; cbn; try done; try lia.
        -- apply lookup_insert_eq.
        -- intros t' Ht'. apply Hwin. by apply list_elem_of_further.
      * rewrite (should_inject_suppressed svc node max_tries t data t1)
          by (done || lia).
        specialize (IH svc data Hdata Hfirst Hcount).
        destruct (inject_each svc max_tries rest) as [svc2 answers].
        cbn [snd] in *. unfold allowed_for, triggers_of in *. cbn [List.filter fst].
        rewrite bool_decide_eq_false_2 by (intros [= ?]; done).
        rewrite bool_decide_eq_true_2 by done. cbn [length].
        rewrite Nat2Z.inj_succ, IH; [lia|].
        intros t' Ht'. apply Hwin. by apply list_elem_of_further.
    + pose proof (_should_inject_for_node_frame svc k max_tries t)
        as (_ & _ & Hw & Hother & _).
      destruct (_should_inject_for_node svc k max_tries t) as [svc1 allowed].
      cbn [fst snd] in *.
      specialize (IH svc1 data).
      destruct (inject_each svc1 max_tries rest) as [svc2 answers].
      cbn [snd] in *. unfold allowed_for, triggers_of in *. cbn [List.filter fst].
      rewrite bool_decide_eq_false_2 by (intros [= ? ?]; done).
      rewrite bool_decide_eq_false_2 by done.
      apply IH; try done.
      * rewrite Hother by done. done.
      * intros t' Ht'. rewrite Hw. apply Hwin. by apply list_elem_of_further.
Qed.

(** X21. Over any sequence of triggers, from any mix of nodes: when a
    trigger of a node opens a window at [t1] and the node's later triggers
    all come within the window, the node is let through
    [min max_tries (number of its triggers)] times, so never more than
    [max_tries] times per window, and triggers of other nodes do not use up
    its attempts. *)
Theorem reactive_window_bound (svc : PublisherService) (node : string)
    (max_tries t1 : Z) (triggers : list (string * Z)) :
  node <> "" -> 1 <= max_tries ->
  fresh_window svc node t1 ->
  (forall t, (node, t) ∈ triggers -> t - t1 < _attempt_window svc) ->
  let answers := (inject_each svc max_tries ((node, t1) :: triggers)).2 in
  Z.of_nat (allowed_for node answers)
  = Z.min max_tries (Z.of_nat (triggers_of node ((node, t1) :: triggers))) /\
  Z.of_nat (allowed_for node answers) <= max_tries.
Proof.
  intros Hnode Hmax Hfresh Hwin. cbn zeta.
  assert (Hcount :
    Z.of_nat (allowed_for node (inject_each svc max_tries ((node, t1) :: triggers)).2)
    = Z.min max_tries (Z.of_nat (triggers_of node ((node, t1) :: triggers)))).
  { cbn [inject_each].
    rewrite (should_inject_fresh svc node max_tries t1) by (done || lia).
    pose proof (inject_each_open_window node max_tries t1 triggers Hnode Hmax
      (with_attempts
         (<[node := {| count := 1; first := Some t1; last := t1 |}]>
            (_reactive_attempts svc)) svc)
      {| count := 1; first := Some t1; last := t1 |}) as Hrest.
    destruct (inject_each _ max_tries triggers) as [svc2 answers].
    cbn [snd] in *. unfold allowed_for, triggers_of in *. cbn [List.filter fst].
    rewrite !bool_decide_eq_true_2 by done. cbn [length].
    rewrite !Nat2Z.inj_succ, Hrest; cbn; try done; try lia.
    apply lookup_insert_eq. }
  split; [exact Hcount | lia].
Qed.

End TriggerFacts.

Lemma reactive_window_bound_witness :
  Z.of_nat (allowed_for "!00000002"
    (inject_each example_service 2
       [("!00000002", 0); ("!00000003", 1); ("!00000002", 2); ("!00000002", 3)]).2)
  = 2.
Proof.
  assert (Hfresh : fresh_window example_service "!00000002" 0)
    by (vm_compute; exact I).
  assert (Hwin : forall t,
    (("!00000002" : string), t) ∈ [(("!00000003" : string), 1); ("!00000002", 2); ("!00000002", 3)] ->
    t - 0 < _attempt_window example_service).
  { intros t Ht.
    repeat (apply elem_of_cons in Ht as [Ht|Ht];
            [simplify_eq; try (vm_compute; reflexivity)|]).
    by apply elem_of_nil in Ht. }
  etrans;
    [exact (proj1 (reactive_window_bound example_service "!00000002" 2 0
                     [("!00000003", 1); ("!00000002", 2); ("!00000002", 3)]
                     ltac:(discriminate) ltac:(lia) Hfresh Hwin))|].
  vm_compute. reflexivity.
Defined.

(** ** Selection and execution of periodic jobs *)

From stdpp Require Import sorting.
Open Scope Z_scope.

Lemma insert_by_next_run_sorted (job : PublisherPeriodicJob)
    (sorted : list PublisherPeriodicJob) :
  StronglySorted (fun a b => next_run_at a <= next_run_at b) sorted ->
  StronglySorted (fun a b => next_run_at a <= next_run_at b)
                 (insert_by_next_run job sorted).
Proof.
  induction 1 as [|j rest Hrest IH Hall]; cbn.
  - repeat constructor.
  - case_bool_decide as Hlt.
    + constructor; [by constructor|].
      constructor; [lia|].
      eapply Forall_impl; [exact Hall|]. cbn. intros x Hx. lia.
    + constructor; [exact IH|].
      rewrite insert_by_next_run_Permutation. constructor; [lia | exact Hall].
Qed.

Lemma order_by_next_run_sorted (jobs : list PublisherPeriodicJob) :
  StronglySorted (fun a b => next_run_at a <= next_run_at b) (order_by_next_run jobs).
Proof.
  unfold order_by_next_run. induction (reverse jobs) as [|j rest IH]; cbn.
  - constructor.
  - by apply insert_by_next_run_sorted.
Qed.

Lemma due_jobs_due (now : Z) (jobs : list PublisherPeriodicJob)
    (j : PublisherPeriodicJob) :
  j ∈ due_jobs now jobs -> enabled j = true /\ next_run_at j <= now.
Proof.
  unfold due_jobs. intros Hj. apply elem_of_take in Hj as (i & Hj & _).
  apply list_elem_of_lookup_2 in Hj. rewrite order_by_next_run_Permutation in Hj.
  by apply list_elem_of_filter in Hj as [? _].
Qed.

(** X22. [process_periodic_publish_jobs] selects at most 100 jobs per tick,
    all of them stored, enabled and due, ordered by [next_run_at] with the
    longest overdue first. A due job is left for a later tick only when 100
    jobs were selected, and every selected job is then at least as overdue
    as it. The queued ids are the ids of the selection, in that order. *)
Theorem due_jobs_selection (now : Z) (jobs : list PublisherPeriodicJob) :
  let due := due_jobs now jobs in
  (length due <= MAX_JOBS_PER_TICK)%nat /\
  due ⊆+ jobs /\
  (forall j, j ∈ due -> enabled j = true /\ next_run_at j <= now) /\
  StronglySorted (fun a b => next_run_at a <= next_run_at b) due /\
  (forall j, j ∈ jobs -> enabled j = true -> next_run_at j <= now -> j ∉ due ->
     length due = MAX_JOBS_PER_TICK /\
     forall d, d ∈ due -> next_run_at d <= next_run_at j) /\
  (process_periodic_publish_jobs now jobs).2 = job_pk <$> due.
Proof.
  cbn zeta. unfold due_jobs.
  set (candidates := filter (fun j => enabled j = true /\ next_run_at j <= now) jobs).
  pose proof (order_by_next_run_sorted candidates) as Hsorted.
  pose proof (order_by_next_run_Permutation candidates) as Hperm.
  rewrite <- (take_drop MAX_JOBS_PER_TICK (order_by_next_run candidates)) in Hsorted.
  split; [rewrite length_take; lia|].
  split; [apply due_jobs_submseteq|].
  split; [apply due_jobs_due|].
  split; [by eapply StronglySorted_app_1_l|].
  split; [|done].
  intros j Hin Hen Hdue Hnot.
  assert (Hj : j ∈ drop MAX_JOBS_PER_TICK (order_by_next_run candidates)).
  { assert (Hall : j ∈ order_by_next_run candidates).
    { rewrite Hperm. by apply list_elem_of_filter. }
    rewrite <- (take_drop MAX_JOBS_PER_TICK (order_by_next_run candidates)) in Hall.
    apply elem_of_app in Hall as [?|?]; done. }
  split.
  - rewrite length_take.
    destruct (decide (MAX_JOBS_PER_TICK <= length (order_by_next_run candidates))%nat)
      as [?|Hshort]; [lia|].
    rewrite drop_ge in Hj by lia. by apply elem_of_nil in Hj.
  - intros d Hd. by eapply (StronglySorted_app_1_elem_of _ _ _ d j) in Hsorted.
Qed.

Lemma claim_row_stamped (now : Z) (due : list PublisherPeriodicJob) :
  forall row,
    job_pk row ∈ job_pk <$> due \/ now + seconds MIN_PERIOD_SECONDS <= next_run_at row ->
    now + seconds MIN_PERIOD_SECONDS <= next_run_at (claim_row now due row).
Proof.
  unfold claim_row. induction due as [|d due IH]; intros row Hrow.
  - destruct Hrow as [Hin|?]; [|done]. by apply elem_of_nil in Hin.
  - cbn [foldl]. apply IH.
    destruct (has_job_pk (job_pk d) row) eqn:Hpk.
    + right. cbn. unfold get_period_timedelta, seconds, MIN_PERIOD_SECONDS. lia.
    + destruct Hrow as [Hin|?]; [|by right]. left.
      rewrite fmap_cons in Hin. apply elem_of_cons in Hin as [Heq|?]; [|done].
      apply bool_decide_eq_false in Hpk. congruence.
Qed.

(** X23. Once a tick at [now] has claimed a job, no tick earlier than
    [now] + 30 s (the minimum period) selects a job with that id again,
    whatever the job's own period: the claim moves [next_run_at] to at least
    [now] + 30 s before the execution is queued. *)
Theorem claimed_jobs_not_due_again (now t : Z) (jobs : list PublisherPeriodicJob) :
  t < now + seconds MIN_PERIOD_SECONDS ->
  let claimed := process_periodic_publish_jobs now jobs in
  forall j, j ∈ due_jobs t claimed.1 -> job_pk j ∉ claimed.2.
Proof.
  intros Ht. cbn zeta. intros j Hj Hpk.
  unfold process_periodic_publish_jobs in *. cbn [fst snd] in *.
  rewrite foldl_claim in Hj.
  assert (Hdue : next_run_at j <= t) by (by apply due_jobs_due in Hj as [_ ?]).
  assert (Hin : j ∈ map (claim_row now (due_jobs now jobs)) jobs).
  { eapply elem_of_submseteq; [exact Hj | apply due_jobs_submseteq]. }
  apply list_elem_of_fmap in Hin as (row & -> & _).
  pose proof (claim_row_stamped now (due_jobs now jobs) row) as Hstamp.
  destruct (claim_row_frame now (due_jobs now jobs) row) as [_ Hsame].
  rewrite Hsame in Hpk. specialize (Hstamp (or_introl Hpk)). lia.
Qed.

Lemma claimed_jobs_not_due_again_witness :
  seconds 110 < seconds 100 + seconds MIN_PERIOD_SECONDS /\
  forall j,
    j ∈ due_jobs (seconds 110) (process_periodic_publish_jobs (seconds 100) [example_job]).1 ->
    job_pk j ∉ (process_periodic_publish_jobs (seconds 100) [example_job]).2.
Proof.
  split; [vm_compute; reflexivity|].
  exact (claimed_jobs_not_due_again (seconds 100) (seconds 110) [example_job]
           ltac:(vm_compute; reflexivity)).
Defined.

Lemma length_substring_le (n : nat) (s : string) :
  (String.length (String.substring 0 n s) <= n)%nat.
Proof.
  revert s. induction n as [|n IH]; intros s.
  - destruct s; cbn; lia.
  - destruct s as [|c s]; cbn; [lia|]. specialize (IH s). lia.
Qed.

Section PeriodicRunFacts.
Context `{!External}.
Variable publish_text_message :
  string -> bool -> BaseKwargs -> PublisherService -> Store ->
  PublisherService * Store * result bool.
Variable publish_position :
  Q -> Q -> Q -> bool -> bool -> BaseKwargs -> PublisherService -> Store ->
  PublisherService * Store * result bool.
Variable publish_nodeinfo :
  string -> string -> Z -> string -> BaseKwargs -> PublisherService -> Store ->
  PublisherService * Store * result bool.
Variable publish_telemetry :
  string -> list (string * Q) -> bool -> bool -> BaseKwargs ->
  PublisherService -> Store -> PublisherService * Store * result bool.
Variable resolve_publish_context :
  nat -> option PublishableInterface * option string * option string.


End PeriodicRunFacts.

(** ** Crafted packets, and crafted packets heard back *)

Lemma uint32_range (v w : Z) : uint32 v = Ok w -> w = v /\ 0 <= v < 2 ^ 32.
Proof. unfold uint32. case_bool_decide; [|done]. by intros [= <-]. Qed.

Section CraftedFacts.
Context `{!External}.

Lemma craft_mesh_packet_fields
    (from_id to_id channel_name channel_aes_key : string) (id : Z)
    (data_protobuf : Data) (hop_limit hop_start : Z) (want_ack pki : bool)
    (public_key' : option string) (encrypted_payload : option bytes)
    (m : MeshPacket) :
  craft_mesh_packet from_id to_id channel_name channel_aes_key id data_protobuf
    hop_limit hop_start want_ack pki public_key' encrypted_payload = Ok m ->
  exists channel key_bytes,
    (0 <= id < 2 ^ 32 /\ 0 <= mp_from m < 2 ^ 32 /\ 0 <= mp_to m < 2 ^ 32 /\
     0 <= channel < 2 ^ 32 /\ 0 <= hop_limit < 2 ^ 32 /\ 0 <= hop_start < 2 ^ 32) /\
    id_to_num from_id = Ok (mp_from m) /\ id_to_num to_id = Ok (mp_to m) /\
    match public_key' ≫= nonempty with
    | Some k => load_public_key_bytes k
    | None => Ok []
    end = Ok key_bytes /\
    with_payload NoPayload m =
      {| mp_id := id; mp_from := mp_from m; mp_to := mp_to m; mp_channel := channel;
         mp_hop_limit := hop_limit; mp_hop_start := hop_start;
         mp_want_ack := want_ack; mp_pki_encrypted := pki;
         mp_public_key := key_bytes; mp_rx_rssi := 0; mp_rx_snr := 0%Q;
         mp_rx_time := 0; mp_payload := NoPayload |} /\
    (if pki then
       exists c, encrypted_payload = Some c /\ mp_payload m = Encrypted c
     else if bool_decide (channel_aes_key = "") then
       mp_payload m = Decoded data_protobuf
     else
       exists c,
         encrypt_message channel_name channel_aes_key (with_payload NoPayload m)
           data_protobuf (mp_from m) = Ok c /\
         mp_payload m = Encrypted c).
Proof.
  intros Hm. unfold craft_mesh_packet in Hm.
  apply rbind_Ok in Hm as (from_num & Hfrom & Hm).
  apply rbind_Ok in Hm as (to_num & Hto & Hm).
  apply rbind_Ok in Hm as (id' & Hid & Hm). apply uint32_range in Hid as [-> Hid].
  apply rbind_Ok in Hm as (from' & Hf & Hm). apply uint32_range in Hf as [-> Hf].
  apply rbind_Ok in Hm as (to' & Ht & Hm). apply uint32_range in Ht as [-> Ht].
  apply rbind_Ok in Hm as (channel & Hch & Hm).
  apply rbind_Ok in Hm as (hl & Hhl & Hm). apply uint32_range in Hhl as [-> Hhl].
  apply rbind_Ok in Hm as (hs & Hhs & Hm). apply uint32_range in Hhs as [-> Hhs].
  apply rbind_Ok in Hm as (key_bytes & Hkey & Hm).
  assert (Hchannel : 0 <= channel < 2 ^ 32).
  { destruct pki; cbn [negb] in Hch.
    - injection Hch as <-. lia.
    - apply rbind_Ok in Hch as (h & _ & Hh). by apply uint32_range in Hh as [-> ?]. }
  exists channel, key_bytes.
  destruct pki.
  - destruct encrypted_payload as [c|]; [|done]. injection Hm as <-. cbn.
    repeat split; try done; try lia. by exists c.
  - case_bool_decide as Hplain.
    + injection Hm as <-. cbn. repeat split; try done; lia.
    + apply rbind_Ok in Hm as (c & Henc & Hm). injection Hm as <-. cbn.
      repeat split; try done; try lia. by exists c.
Qed.

(** X25. A packet that [craft_mesh_packet] returns carries the given message
    id, the numbers of the two node ids, and the given hop limit, hop start,
    [want_ack] and PKI flag; all of its numeric fields fit 32 bits
    unsigned, so a message id, hop value or node number outside that range
    makes the call fail. The packet always has a payload: the given
    ciphertext for PKI, the plain data for the empty channel key, and
    otherwise the output of [encrypt_message] on the packet without payload.
    Without key material the packet's public key is empty. *)
Theorem craft_mesh_packet_header
    (from_id to_id channel_name channel_aes_key : string) (id : Z)
    (data_protobuf : Data) (hop_limit hop_start : Z) (want_ack pki : bool)
    (public_key' : option string) (encrypted_payload : option bytes)
    (m : MeshPacket) :
  craft_mesh_packet from_id to_id channel_name channel_aes_key id data_protobuf
    hop_limit hop_start want_ack pki public_key' encrypted_payload = Ok m ->
  (mp_id m = id /\ id_to_num from_id = Ok (mp_from m) /\
   id_to_num to_id = Ok (mp_to m) /\ mp_hop_limit m = hop_limit /\
   mp_hop_start m = hop_start /\ mp_want_ack m = want_ack /\
   mp_pki_encrypted m = pki) /\
  (0 <= mp_id m < 2 ^ 32 /\ 0 <= mp_from m < 2 ^ 32 /\ 0 <= mp_to m < 2 ^ 32 /\
   0 <= mp_channel m < 2 ^ 32 /\ 0 <= mp_hop_limit m < 2 ^ 32 /\
   0 <= mp_hop_start m < 2 ^ 32) /\
  mp_payload m <> NoPayload /\
  (public_key' ≫= nonempty = None -> mp_public_key m = []) /\
  (pki = false -> channel_aes_key <> "" ->
   exists c,
     encrypt_message channel_name channel_aes_key (with_payload NoPayload m)
       data_protobuf (mp_from m) = Ok c /\
     mp_payload m = Encrypted c).
Proof.
  intros Hm.
  destruct (craft_mesh_packet_fields _ _ _ _ _ _ _ _ _ _ _ _ _ Hm)
    as (channel & key_bytes & Hrange & Hfrom & Hto & Hkey & Hfields & Hpayload).
  assert (Hid : mp_id m = id) by (by injection Hfields).
  assert (Hch : mp_channel m = channel) by (by injection Hfields).
  assert (Hhl : mp_hop_limit m = hop_limit) by (by injection Hfields).
  assert (Hhs : mp_hop_start m = hop_start) by (by injection Hfields).
  assert (Hwa : mp_want_ack m = want_ack) by (by injection Hfields).
  assert (Hpki : mp_pki_encrypted m = pki) by (by injection Hfields).
  assert (Hpk : mp_public_key m = key_bytes) by (by injection Hfields).
  split; [done|]. split; [rewrite Hid, Hch, Hhl, Hhs; tauto|].
  split.
  { destruct pki; [destruct Hpayload as (c & _ & ->); done|].
    case_bool_decide; [by rewrite Hpayload|].
    destruct Hpayload as (c & _ & ->); done. }
  split.
  { intros Hnone. rewrite Hnone in Hkey. congruence. }
  intros -> Hkeyed. by rewrite bool_decide_eq_false_2 in Hpayload.
Qed.

End CraftedFacts.

Section HeardBackFacts.
Context `{!External}.
Variable handle_port : Z -> bytes -> PacketData -> Z -> Store -> Store * result unit.

(** X26. A plain envelope (empty channel key, no PKI) that the crafter
    builds and [on_message] hears back is stored under the crafted message
    id with the sender and recipient numbers of the two node ids, with the
    crafted hop values and [want_ack]; it is not treated as PKI unless the
    channel is named PKI; and it is dispatched as a decoded payload, without
    any decryption, on the port of the data that was crafted. *)
Theorem crafted_plain_envelope_ingested
    (from_id to_id channel_name : string) (id : Z) (data_protobuf : Data)
    (hop_limit hop_start : Z) (want_ack : bool) (public_key' : option string)
    (encrypted_payload : option bytes) (m : MeshPacket)
    (interface : Interface) (gateway : option string) (now : Z)
    (s s7 : Store) (packet_obj : Packet) (channel : Channel) (pki : bool) :
  craft_mesh_packet from_id to_id channel_name "" id data_protobuf
    hop_limit hop_start want_ack false public_key' encrypted_payload = Ok m ->
  on_message_upserts interface
    {| gateway_node_id := gateway; n_channel_id := channel_name; n_packet := m |}
    now s = Ok (s7, packet_obj, channel, pki) ->
  let outcome :=
    on_message handle_port interface
      {| gateway_node_id := gateway; n_channel_id := channel_name; n_packet := m |}
      now s in
  packet_id packet_obj = Some id /\
  id_to_num from_id = Ok (from_node packet_obj) /\
  id_to_num to_id = Ok (to_node packet_obj) /\
  pkt_hop_limit packet_obj = Some hop_limit /\
  pkt_hop_start packet_obj = Some hop_start /\
  pkt_want_ack packet_obj = Some want_ack /\
  pki = bool_decide (channel_name = "PKI") /\
  first_where (same_packet (Some id) (from_node packet_obj) (to_node packet_obj))
              (packets s7) = Some packet_obj /\
  exists r, outcome.2 = Handled PathDecoded r /\
            (forall n, r = Ok n -> n = portnum data_protobuf).
Proof.
  intros Hm Hups. cbn zeta.
  destruct (craft_mesh_packet_fields _ _ _ _ _ _ _ _ _ _ _ _ _ Hm)
    as (ch & key_bytes & _ & Hfrom & Hto & _ & Hfields & Hpayload).
  rewrite bool_decide_eq_true_2 in Hpayload by done.
  assert (Hid : mp_id m = id) by (by injection Hfields).
  assert (Hhl : mp_hop_limit m = hop_limit) by (by injection Hfields).
  assert (Hhs : mp_hop_start m = hop_start) by (by injection Hfields).
  assert (Hwa : mp_want_ack m = want_ack) by (by injection Hfields).
  assert (Hpki : mp_pki_encrypted m = false) by (by injection Hfields).
  destruct (on_message_upserts_steps _ _ _ _ _ _ _ _ Hups)
    as (gnum & _ & _ & Hflag & Hobj & _).
  cbn [n_packet n_channel_id] in Hflag, Hobj.
  set (found := (get_or_create_packet _ _ _ _ _).2) in Hobj.
  destruct (on_message_upserts_packet_row_facts _ _ _ _ _ _ _ _ Hups)
    as (Hrow & Hpid & Hsender & Hrecipient).
  cbn [n_packet n_channel_id] in Hrow, Hpid, Hsender, Hrecipient.
  rewrite Hid in *. rewrite Hpki in Hflag. cbn [orb] in Hflag.
  split; [done|]. rewrite Hsender, Hrecipient.
  split; [done|]. split; [done|].
  rewrite Hobj at 1 2 3. cbn [pkt_hop_limit pkt_hop_start pkt_want_ack].
  rewrite Hhl, Hhs, Hwa. do 3 (split; [done|]). split; [done|].
  split; [done|].
  unfold on_message. rewrite Hups. cbn [n_packet].
  unfold handle_packet. rewrite Hpayload.
  destruct (handle_decoded_packet handle_port data_protobuf packet_obj now s7)
    as [s8 [n|e]] eqn:Hrun.
  - apply handle_decoded_packet_port in Hrun as ->.
    eexists. split; [reflexivity|]. by intros n [= <-].
  - eexists. split; [reflexivity|]. done.
Qed.

End HeardBackFacts.

Lemma craft_mesh_packet_header_witness :
  exists m,
    @craft_mesh_packet example_external "!00000001" "!00000002" "LongFast" "AQ==" 42
      example_text 3 3 false false None None = Ok m /\
    mp_id m = 42 /\ 0 <= mp_from m < 2 ^ 32 /\ mp_payload m <> NoPayload.
Proof.
  destruct (@craft_mesh_packet example_external "!00000001" "!00000002" "LongFast"
              "AQ==" 42 example_text 3 3 false false None None)
    as [m|e] eqn:Hm; [|vm_compute in Hm; discriminate].
  exists m. split; [reflexivity|].
  destruct (@craft_mesh_packet_header example_external _ _ _ _ _ _ _ _ _ _ _ _ m Hm)
    as ((Hid & _) & (_ & Hfrom & _) & Hpayload & _).
  split; [exact Hid|]. split; [exact Hfrom | exact Hpayload].
Defined.

Lemma crafted_plain_envelope_ingested_witness :
  exists m s7 packet_obj channel pki r,
    @craft_mesh_packet example_external "!00000002" "!00000001" "LongFast" "" 42
      example_text 3 3 false false None None = Ok m /\
    @on_message_upserts example_external example_mqtt
      {| gateway_node_id := Some "!00000001"; n_channel_id := "LongFast";
         n_packet := m |} 0 example_store = Ok (s7, packet_obj, channel, pki) /\
    packet_id packet_obj = Some 42 /\
    (@on_message example_external example_handle_port example_mqtt
       {| gateway_node_id := Some "!00000001"; n_channel_id := "LongFast";
          n_packet := m |} 0 example_store).2 = Handled PathDecoded r.
Proof.
  destruct (@craft_mesh_packet example_external "!00000002" "!00000001" "LongFast"
              "" 42 example_text 3 3 false false None None)
    as [m|e] eqn:Hm; [|vm_compute in Hm; discriminate].
  destruct (@on_message_upserts example_external example_mqtt
              {| gateway_node_id := Some "!00000001"; n_channel_id := "LongFast";
                 n_packet := m |} 0 example_store)
    as [[[[s7 packet_obj] channel] pki]|e] eqn:Hups.
  2:{ vm_compute in Hm. injection Hm as <-. vm_compute in Hups. discriminate. }
  destruct (@crafted_plain_envelope_ingested example_external example_handle_port
              _ _ _ _ _ _ _ _ _ _ _ _ _ _ _ _ _ _ _ Hm Hups)
    as (Hid & _ & _ & _ & _ & _ & _ & _ & r & Hr & _).
  exists m, s7, packet_obj, channel, pki, r.
  split; [reflexivity|]. split; [exact Hups|]. split; [exact Hid | exact Hr].
Defined.

(** ** Processing the same reply twice *)

Lemma Store_eq (a b : Store) :
  nodes a = nodes b -> packets a = packets b -> packet_data a = packet_data b ->
  nodeinfo_payloads a = nodeinfo_payloads b -> edges a = edges b ->
  latency_history a = latency_history b -> channels a = channels b -> a = b.
Proof. destruct a, b. cbn. by intros -> -> -> -> -> -> ->. Qed.

Lemma update_where_twice {A : Type} (p : A -> bool) (f g : A -> A) (rows : list A) :
  (forall x, p (f x) = p x) -> (forall x, g (f x) = g x) ->
  update_where p g (update_where p f rows) = update_where p g rows.
Proof.
  intros Hp Hg. unfold update_where. rewrite map_map. apply map_ext.
  intros x. destruct (p x) eqn:Hx.
  - by rewrite Hp, Hx, Hg.
  - by rewrite Hx.
Qed.

Lemma first_where_filter {A : Type} (p q : A -> bool) (rows : list A) :
  first_where p (List.filter q rows) = first_where (fun x => q x && p x) rows.
Proof.
  unfold first_where. induction rows as [|x rows IH]; [done|].
  cbn. destruct (q x); cbn; [by rewrite IH | done].
Qed.

(** A lookup that found a row with key [k] still finds a row with key [k]
    after the rows with that key were rewritten, when rewriting keeps keys
    and can only make a row match. *)
Lemma first_where_update_same_key {A : Type} (p : A -> bool) (key : A -> nat)
    (f : A -> A) (h : A) (rows : list A) :
  (forall x, key (f x) = key x) -> (forall x, p x = true -> p (f x) = true) ->
  first_where p rows = Some h ->
  exists h', first_where p
               (update_where (fun r => bool_decide (key r = key h)) f rows) = Some h' /\
             key h' = key h.
Proof.
  intros Hkey Hp. unfold first_where, update_where.
  induction rows as [|x rows IH]; [done|]. cbn. intros Hfind.
  case_bool_decide as Hx.
  - destruct (p (f x)) eqn:Hfx.
    + exists (f x). by rewrite Hkey.
    + destruct (p x) eqn:Hpx; [by rewrite (Hp x Hpx) in Hfx | auto].
  - destruct (p x) eqn:Hpx; [|auto]. by simplify_eq.
Qed.

Section TwiceFacts.
Context `{!External}.

Lemma resolve_history_twice (h : NodeLatencyHistory) (pmid lat lat' resp resp' : option Z) :
  resolve_history (resolve_history h pmid lat resp) pmid lat' resp'
  = resolve_history h pmid lat' resp'.
Proof. unfold resolve_history. cbn. by destruct (probe_message_id h), pmid. Qed.

(** [_update_latency_history] reads the history table only. *)
Lemma _update_latency_history_ext (node : Z) (pmid lat resp rt : option Z)
    (now : Z) (s s' : Store) :
  latency_history s = latency_history s' ->
  latency_history (_update_latency_history node pmid lat resp rt now s)
  = latency_history (_update_latency_history node pmid lat resp rt now s').
Proof.
  intros Hsame. unfold _update_latency_history. rewrite Hsame.
  destruct (match
              match pmid with
              | Some m =>
                  first_where (fun h => eqb_opt_Z (probe_message_id h) m)
                    (List.filter (fun h => bool_decide (h_node h = node))
                                 (latency_history s'))
              | None => None
              end
            with
            | Some h => Some h
            | None => _
            end); cbn; by rewrite ?Hsame.
Qed.

(** With a row of the node that carries the probe id, the row that is
    updated is the first such row. *)
Lemma _update_latency_history_matched (node m : Z) (lat resp rt : option Z)
    (now : Z) (s : Store) (h : NodeLatencyHistory) :
  first_where (fun r => bool_decide (h_node r = node) && eqb_opt_Z (probe_message_id r) m)
              (latency_history s) = Some h ->
  latency_history (_update_latency_history node (Some m) lat resp rt now s) =
  update_where (fun r => bool_decide (h_pk r = h_pk h))
               (fun r => resolve_history r (Some m) lat resp) (latency_history s).
Proof.
  intros Hh. unfold _update_latency_history.
  rewrite first_where_filter, Hh. done.
Qed.

Lemma _update_latency_history_twice (node m : Z) (lat lat' resp resp' rt rt' : option Z)
    (now now' : Z) (s s1 : Store) :
  (exists h, In h (latency_history s) /\ h_node h = node /\
             probe_message_id h = Some m) ->
  latency_history s1
    = latency_history (_update_latency_history node (Some m) lat resp rt now s) ->
  latency_history (_update_latency_history node (Some m) lat' resp' rt' now' s1)
  = latency_history (_update_latency_history node (Some m) lat' resp' rt' now' s).
Proof.
  intros (h0 & Hin & Hnode & Hprobe) Hs1.
  set (p := fun r => bool_decide (h_node r = node) && eqb_opt_Z (probe_message_id r) m).
  assert (Hsome : is_Some (first_where p (latency_history s))).
  { apply (first_where_In_Some p _ h0 Hin). unfold p, eqb_opt_Z.
    rewrite Hprobe. by rewrite !bool_decide_eq_true_2. }
  destruct Hsome as [h Hh].
  rewrite (_update_latency_history_matched node m lat resp rt now s h Hh) in Hs1.
  rewrite (_update_latency_history_matched node m lat' resp' rt' now' s h Hh).
  destruct (first_where_update_same_key p h_pk
              (fun r => resolve_history r (Some m) lat resp) h (latency_history s))
    as (h' & Hh' & Hpk); [done| |exact Hh|].
  { intros x Hx. unfold p, eqb_opt_Z in *. cbn.
    destruct (probe_message_id x); [done|].
    apply andb_prop in Hx as [_ Hx]. done. }
  rewrite <- Hs1 in Hh'.
  rewrite (_update_latency_history_matched node m lat' resp' rt' now' s1 h' Hh').
  rewrite Hs1, Hpk.
  apply update_where_twice; [done|].
  intros x. apply resolve_history_twice.
Qed.

Lemma _process_probe_response_rest (d : PacketData) (now rid : Z) (s : Store)
    (incoming orig : Packet) :
  pd_request_id d = Some rid ->
  packet_of d s = Some incoming ->
  find_request rid (from_node incoming) s = Some orig ->
  latency_history (_process_probe_response d now s) =
    latency_history
      (_update_latency_history (to_node orig) (packet_id orig)
         (latency_of (pkt_time orig) (pkt_time incoming))
         (Some (default now (pkt_time incoming))) (pkt_time orig) now s) /\
  edges (_process_probe_response d now s) = edges s /\
  channels (_process_probe_response d now s) = channels s /\
  nodeinfo_payloads (_process_probe_response d now s) = nodeinfo_payloads s.
Proof.
  intros Hrid Hin Horig. unfold _process_probe_response.
  rewrite Hrid, Hin, Horig.
  set (s3 := update_node_latency _ _ _ _).
  split; [by apply _update_latency_history_ext|].
  by destruct (_update_latency_history_rest (to_node orig) (packet_id orig)
    (latency_of (pkt_time orig) (pkt_time incoming))
    (Some (default now (pkt_time incoming))) (pkt_time orig) now s3)
    as (-> & -> & ->).
Qed.

(** In that case a second run absorbs the first. *)
Lemma _process_probe_response_absorbs (d : PacketData) (now now' rid : Z) (s : Store)
    (incoming orig : Packet) :
  pd_request_id d = Some rid ->
  packet_of d s = Some incoming ->
  find_request rid (from_node incoming) s = Some orig ->
  (exists h, In h (latency_history s) /\ h_node h = to_node orig /\
             probe_message_id h = Some rid) ->
  _process_probe_response d now' (_process_probe_response d now s)
  = _process_probe_response d now' s.
Proof.
  intros Hrid Hin Horig Hrow.
  assert (Hid : packet_id orig = Some rid).
  { apply first_where_holds in Horig as [Hp _].
    apply andb_prop in Hp as [Hp _]. unfold eqb_opt_Z in Hp.
    destruct (packet_id orig) as [i|]; [|done].
    apply bool_decide_eq_true in Hp. by subst. }
  destruct (_process_probe_response_found d now rid s incoming orig Hrid Hin Horig)
    as (Hp1 & Hd1 & Hn1).
  destruct (_process_probe_response_rest d now rid s incoming orig Hrid Hin Horig)
    as (Hh1 & He1 & Hc1 & Hi1).
  cbn zeta in Hp1, Hd1, Hn1.
  set (s1 := _process_probe_response d now s) in *.
  set (incoming' := if bool_decide (pkt_pk incoming = pkt_pk orig)
                    then with_ackd (Some true) incoming else incoming).
  assert (Hin1 : packet_of d s1 = Some incoming').
  { unfold packet_of in *. rewrite Hp1, first_where_update_where by done.
    by rewrite Hin. }
  assert (Hfrom : from_node incoming' = from_node incoming)
    by (subst incoming'; by case_bool_decide).
  assert (Htime : pkt_time incoming' = pkt_time incoming)
    by (subst incoming'; by case_bool_decide).
  assert (Horig1 : find_request rid (from_node incoming') s1
                   = Some (with_ackd (Some true) orig)).
  { rewrite Hfrom.
    unfold find_request in *. rewrite Hp1, first_where_update_where by done.
    rewrite Horig. cbn. by rewrite bool_decide_eq_true_2. }
  destruct (_process_probe_response_found d now' rid s1 incoming'
              (with_ackd (Some true) orig) Hrid Hin1 Horig1) as (Hp2 & Hd2 & Hn2).
  destruct (_process_probe_response_rest d now' rid s1 incoming'
              (with_ackd (Some true) orig) Hrid Hin1 Horig1)
    as (Hh2 & He2 & Hc2 & Hi2).
  destruct (_process_probe_response_found d now' rid s incoming orig Hrid Hin Horig)
    as (Hp3 & Hd3 & Hn3).
  destruct (_process_probe_response_rest d now' rid s incoming orig Hrid Hin Horig)
    as (Hh3 & He3 & Hc3 & Hi3).
  cbn zeta in Hp2, Hd2, Hn2, Hp3, Hd3, Hn3.
  cbn [pkt_pk to_node pkt_time packet_id with_ackd] in Hp2, Hd2, Hn2, Hh2.
  rewrite Htime in Hn2, Hh2. rewrite Hid in Hh1, Hh2, Hh3.
  apply Store_eq.
  - rewrite Hn2, Hn3, Hn1. by apply update_where_twice.
  - rewrite Hp2, Hp3, Hp1. by apply update_where_twice.
  - rewrite Hd2, Hd3, Hd1. by apply update_where_twice.
  - congruence.
  - congruence.
  - rewrite Hh2, Hh3.
    by apply (_update_latency_history_twice (to_node orig) rid
                (latency_of (pkt_time orig) (pkt_time incoming))
                (latency_of (pkt_time orig) (pkt_time incoming))
                (Some (default now (pkt_time incoming)))
                (Some (default now' (pkt_time incoming)))
                (pkt_time orig) (pkt_time orig) now now' s s1).
  - congruence.
Qed.

(** X27. Processing a reply a second time changes nothing more: when the
    request that the reply answers is stored and the latency history of the
    probed node has a row with the request's id (as a recorded pending probe
    leaves one), running [_process_probe_response] twice, even at two
    different times, leaves the store exactly as running it once at the
    later time, so the function is idempotent there; the history keeps its
    length, so no row is added and no second pending probe is used up. *)
Theorem process_probe_response_twice (d : PacketData) (now now' rid : Z) (s : Store)
    (incoming orig : Packet) :
  pd_request_id d = Some rid ->
  packet_of d s = Some incoming ->
  find_request rid (from_node incoming) s = Some orig ->
  (exists h, In h (latency_history s) /\ h_node h = to_node orig /\
             probe_message_id h = Some rid) ->
  _process_probe_response d now' (_process_probe_response d now s)
  = _process_probe_response d now' s /\
  _process_probe_response d now (_process_probe_response d now s)
  = _process_probe_response d now s /\
  length (latency_history
            (_process_probe_response d now' (_process_probe_response d now s)))
  = length (latency_history s).
Proof.
  intros Hrid Hin Horig Hrow.
  pose proof (_process_probe_response_absorbs d now now' rid s incoming orig
                Hrid Hin Horig Hrow) as Habsorb.
  split; [exact Habsorb|].
  split; [by apply (_process_probe_response_absorbs d now now rid s incoming orig)|].
  rewrite Habsorb.
  destruct (_process_probe_response_rest d now' rid s incoming orig Hrid Hin Horig)
    as (-> & _).
  assert (Hid : packet_id orig = Some rid).
  { apply first_where_holds in Horig as [Hp _].
    apply andb_prop in Hp as [Hp _]. unfold eqb_opt_Z in Hp.
    destruct (packet_id orig) as [i|]; [|done].
    apply bool_decide_eq_true in Hp. by subst. }
  rewrite Hid.
  destruct Hrow as (h0 & Hin0 & Hnode & Hprobe).
  destruct (first_where_In_Some
              (fun r => bool_decide (h_node r = to_node orig)
                        && eqb_opt_Z (probe_message_id r) rid)
              (latency_history s) h0 Hin0) as [h Hh].
  { unfold eqb_opt_Z. rewrite Hprobe. by rewrite !bool_decide_eq_true_2. }
  rewrite (_update_latency_history_matched _ _ _ _ _ _ _ h Hh).
  apply update_where_length.
Qed.

End TwiceFacts.

Lemma process_probe_response_twice_witness :
  @_process_probe_response example_external example_reply_data 2000000
    (@_process_probe_response example_external example_reply_data 1500000
       example_reply_store)
  = @_process_probe_response example_external example_reply_data 2000000
      example_reply_store.
Proof.
  refine (proj1 (@process_probe_response_twice example_external example_reply_data
                   1500000 2000000 42 example_reply_store
                   (example_packet 2 77 2 1 1250000) (example_packet 1 42 1 2 1000000)
                   _ _ _ _)).
  - reflexivity.
  - vm_compute. reflexivity.
  - vm_compute. reflexivity.
  - eexists. split; [left; reflexivity|]. split; reflexivity.
Defined.

(** ** Routing acknowledgements and reachability probes *)

Lemma update_where_comm {A : Type} (p q : A -> bool) (f : A -> A) (rows : list A) :
  (forall x, p (f x) = p x) -> (forall x, q (f x) = q x) ->
  (forall x, f (f x) = f x) ->
  update_where p f (update_where q f rows) = update_where q f (update_where p f rows).
Proof.
  intros Hp Hq Hf. unfold update_where. rewrite !map_map. apply map_ext.
  intros x. destruct (p x) eqn:Hpx, (q x) eqn:Hqx;
    rewrite ?Hp, ?Hq, ?Hpx, ?Hqx, ?Hf; done.
Qed.

Section RoutingFacts.
Context `{!External}.
Variable routing_error_reason : bytes -> result (option string).

(** Marking a reply as a response commutes with the generic processing. *)
Lemma _process_probe_response_mark (d : PacketData) (now : Z) (pk : nat) (s : Store) :
  _process_probe_response d now (mark_got_response pk s)
  = mark_got_response pk (_process_probe_response d now s).
Proof.
  unfold _process_probe_response.
  destruct (pd_request_id d) as [rid|]; [|done].
  change (packet_of d (mark_got_response pk s)) with (packet_of d s).
  destruct (packet_of d s) as [incoming|]; [|done].
  change (find_request rid (from_node incoming) (mark_got_response pk s))
    with (find_request rid (from_node incoming) s).
  destruct (find_request rid (from_node incoming) s) as [orig|]; [|done].
  set (lat := latency_of (pkt_time orig) (pkt_time incoming)).
  set (resp := Some (default now (pkt_time incoming))).
  set (a := update_node_latency (to_node orig) (Some true) lat
              (mark_ackd (pkt_pk orig)
                 (mark_got_response (pkt_pk orig) (mark_got_response pk s)))).
  set (b := update_node_latency (to_node orig) (Some true) lat
              (mark_ackd (pkt_pk orig) (mark_got_response (pkt_pk orig) s))).
  pose proof (_update_latency_history_frame (to_node orig) (packet_id orig) lat resp
                (pkt_time orig) now a) as (Hna & Hpa & Hda).
  pose proof (_update_latency_history_rest (to_node orig) (packet_id orig) lat resp
                (pkt_time orig) now a) as (Hea & Hca & Hia).
  pose proof (_update_latency_history_frame (to_node orig) (packet_id orig) lat resp
                (pkt_time orig) now b) as (Hnb & Hpb & Hdb).
  pose proof (_update_latency_history_rest (to_node orig) (packet_id orig) lat resp
                (pkt_time orig) now b) as (Heb & Hcb & Hib).
  cbn zeta in *.
  apply Store_eq; cbn [nodes packets packet_data nodeinfo_payloads edges
                       latency_history channels mark_got_response set_packet_data].
  - by rewrite Hna, Hnb.
  - by rewrite Hpa, Hpb.
  - rewrite Hda, Hdb. subst a b. cbn. by apply update_where_comm.
  - by rewrite Hia, Hib.
  - by rewrite Hea, Heb.
  - by apply _update_latency_history_ext.
  - by rewrite Hca, Hcb.
Qed.

Lemma handle_routing_ack (payload' : bytes) (d : PacketData) (now rid : Z)
    (s : Store) (reason : option string) (incoming orig : Packet) :
  pd_request_id d = Some rid ->
  routing_error_reason payload' = Ok reason ->
  reason ≫= nonempty = None ->
  packet_of d s = Some incoming ->
  find_request rid (from_node incoming) s = Some orig ->
  handle_routing routing_error_reason payload' d now s
  = (mark_got_response (pd_packet d) (_process_probe_response d now s), Ok ()).
Proof.
  intros Hrid Hreason Hnone Hin Horig.
  unfold handle_routing, _process_probe_response.
  rewrite Hrid, Hreason, Hnone, Hin, Horig. f_equal.
  set (lat := latency_of (pkt_time orig) (pkt_time incoming)).
  set (resp := Some (default now (pkt_time incoming))).
  set (a := update_node_latency (to_node orig) (Some true) lat
              (mark_got_response (pd_packet d)
                 (mark_got_response (pkt_pk orig) (mark_ackd (pkt_pk orig) s)))).
  set (b := update_node_latency (to_node orig) (Some true) lat
              (mark_ackd (pkt_pk orig) (mark_got_response (pkt_pk orig) s))).
  pose proof (_update_latency_history_frame (to_node orig) (packet_id orig) lat resp
                (pkt_time orig) now a) as (Hna & Hpa & Hda).
  pose proof (_update_latency_history_rest (to_node orig) (packet_id orig) lat resp
                (pkt_time orig) now a) as (Hea & Hca & Hia).
  pose proof (_update_latency_history_frame (to_node orig) (packet_id orig) lat resp
                (pkt_time orig) now b) as (Hnb & Hpb & Hdb).
  pose proof (_update_latency_history_rest (to_node orig) (packet_id orig) lat resp
                (pkt_time orig) now b) as (Heb & Hcb & Hib).
  cbn zeta in *.
  apply Store_eq; cbn [nodes packets packet_data nodeinfo_payloads edges
                       latency_history channels mark_got_response set_packet_data].
  - by rewrite Hna, Hnb.
  - by rewrite Hpa, Hpb.
  - by rewrite Hda, Hdb.
  - by rewrite Hia, Hib.
  - by rewrite Hea, Heb.
  - by apply _update_latency_history_ext.
  - by rewrite Hca, Hcb.
Qed.


Lemma publish_reachability_probe_cases (svc : PublisherService)
    (from_node' to_node' channel_name channel_aes_key : string)
    (hop_limit hop_start : Z) (gateway_node : option string)
    (publisher : option PublishableInterface) (base_topic : option string)
    (now : Z) (s : Store) :
  let mid := global_message_id svc + 1 in
  let run := publish_reachability_probe svc from_node' to_node' channel_name
               channel_aes_key hop_limit hop_start gateway_node publisher
               base_topic now s in
  run.1.1 = with_message_id mid svc /\
  ((exists e, run.2 = Raise e /\ run.1.2 = s) \/
   (run.2 = Ok false /\ run.1.2 = s) \/
   (run.2 = Ok true /\ run.1.2 = record_pending_probe to_node' mid now s)).
Proof.
  cbn zeta. unfold publish_reachability_probe.
  destruct (rbind _ _) as [[|]|e]; cbn; eauto 6.
Qed.


End RoutingFacts.

